(** * A shallow embedding of the fileserver's request handlers

    The Go program (internal/config, internal/handlers, internal/server and
    cmd/fileserver) is embedded as Rocq functions.  Go strings are [string]
    (sequences of 8-bit characters), byte slices are [list byte], [int64] is
    [Z] with the wrap-around written out, and the handlers are functions in a
    state monad over the host file system, the response writer, the logger's
    output and a trace of the system calls made.

    The first part of the file models the fragments of the Go standard
    library the program calls (one module per Go package); the second part is
    the program itself, function by function; the third part states and
    proves the properties. *)

From Stdlib Require Import ZArith String Ascii List Lia DecimalString.
From Stdlib.Strings Require Import Byte.
From stdpp Require Import base option list gmap strings sorting.

Local Open Scope string_scope.
Local Open Scope list_scope.

(** ** Go strings *)

Definition isSlash (c : ascii) : bool := Ascii.eqb c "/"%char.

(** The last byte of a string is a slash ([p[len(p)-1] == '/']). *)
Fixpoint endsWithSlash (s : string) : bool :=
  match s with
  | EmptyString => false
  | String c EmptyString => isSlash c
  | String _ r => endsWithSlash r
  end.

(** [noSlash s]: no byte of [s] is a path separator. *)
Fixpoint noSlash (s : string) : bool :=
  match s with
  | EmptyString => true
  | String c r => negb (isSlash c) && noSlash r
  end.

Module strings.

(** [strings.HasPrefix(s, prefix)] *)
Fixpoint HasPrefix (s prefix : string) {struct prefix} : bool :=
  match prefix, s with
  | EmptyString, _ => true
  | String _ _, EmptyString => false
  | String c p, String d r => Ascii.eqb c d && HasPrefix r p
  end.

(** [s[n:]] *)
Fixpoint sliceFrom (n : nat) (s : string) {struct n} : string :=
  match n, s with
  | O, _ => s
  | S _, EmptyString => EmptyString
  | S k, String _ r => sliceFrom k r
  end.

(** [strings.TrimPrefix(s, prefix)] *)
Definition TrimPrefix (s prefix : string) : string :=
  if HasPrefix s prefix then sliceFrom (String.length prefix) s else s.

(** [strings.Split(s, "/")] *)
Fixpoint SplitSlash (s : string) : list string :=
  match s with
  | EmptyString => [EmptyString]
  | String c r =>
      if isSlash c then EmptyString :: SplitSlash r
      else match SplitSlash r with
           | x :: xs => String c x :: xs
           | [] => [String c EmptyString]
           end
  end.

(** [strings.Join(elems, sep)] *)
Fixpoint Join (elems : list string) (sep : string) : string :=
  match elems with
  | [] => ""
  | [x] => x
  | x :: xs => x +:+ sep +:+ Join xs sep
  end.

End strings.

(** ** path and path/filepath (Unix) *)

Module filepath.

(** The loop of [Clean] over the path elements, with the elements kept so
    far as a stack (last element first). *)
Definition cleanStep (rooted : bool) (stack : list string) (c : string)
  : list string :=
  if bool_decide (c = "" ∨ c = ".") then stack
  else if bool_decide (c = "..") then
    match stack with
    | top :: rest => if bool_decide (top = "..") then c :: stack else rest
    | [] => if rooted then [] else [c]
    end
  else c :: stack.

Definition cleanElems (rooted : bool) (elems : list string) : list string :=
  rev (fold_left (cleanStep rooted) elems []).

(** [filepath.Clean] / [path.Clean]: the shortest path name equivalent to
    [p] by purely lexical processing. *)
Definition Clean (p : string) : string :=
  if bool_decide (p = "") then "."
  else
    let rooted := strings.HasPrefix p "/" in
    let out := (if rooted then "/" else "")
                 +:+ strings.Join (cleanElems rooted (strings.SplitSlash p)) "/" in
    if bool_decide (out = "") then "." else out.

(** Strip trailing slashes. *)
Fixpoint stripTrailingSlashes (s : string) : string :=
  match s with
  | EmptyString => EmptyString
  | String c r =>
      let r' := stripTrailingSlashes r in
      if isSlash c && bool_decide (r' = "") then EmptyString else String c r'
  end.

(** [filepath.Base]: the last element of the path. *)
Definition Base (p : string) : string :=
  if bool_decide (p = "") then "."
  else
    let p1 := stripTrailingSlashes p in
    let p2 := List.last (strings.SplitSlash p1) "" in
    if bool_decide (p2 = "") then "/" else p2.

(** [filepath.Join(elem...)]: the elements from the first non-empty one
    on, joined by the separator and cleaned. *)
Fixpoint Join (elem : list string) : string :=
  match elem with
  | [] => ""
  | e :: rest =>
      if bool_decide (e = "") then Join rest
      else Clean (strings.Join elem "/")
  end.

End filepath.

(** Go [error] values the program can meet. *)
Inductive error : Type :=
  | ENOENT            (* no such file or directory *)
  | ENOTDIR           (* not a directory *)
  | EISDIR            (* is a directory *)
  | EACCES            (* permission denied *)
  | ENOTEMPTY         (* directory not empty *)
  | EBUSY             (* the host's root directory cannot be removed *)
  | ErrPathEscapes    (* os.Root: path escapes from parent *)
  | ErrNotMultipart   (* http: request Content-Type isn't multipart/form-data *)
  | ErrBodyTooLarge   (* http: request body too large (MaxBytesReader) *)
  | ErrSpool          (* the spooled copy of an uploaded part cannot be opened *)
  | ErrCopy           (* a read or a write failed during a stream copy *)
  | ErrYAML (msg : string). (* yaml: unmarshal errors *)

#[global] Instance error_eq_dec : EqDecision error.
Proof. solve_decision. Defined.

(** The two results of a Go call that returns [(value, error)]. *)
Inductive result (A : Type) : Type :=
  | Ok (a : A)
  | Err (e : error).
Arguments Ok {A} a.
Arguments Err {A} e.

(** ** fmt and encoding/json *)

Definition LF : string := String (ascii_of_nat 10) "".
Definition TAB : string := String (ascii_of_nat 9) "".
Definition QUOTE : string := String (ascii_of_nat 34) "".

Module fmt.

(** [fmt.Sprint(n)] for an integer: its decimal representation. *)
Definition Sprint (n : Z) : string := NilZero.string_of_int (Z.to_int n).

End fmt.

Module json.

Definition hex (n : N) : string :=
  match String.get (N.to_nat n) "0123456789abcdef" with
  | Some c => String c ""
  | None => ""
  end.

(** The encoding of one byte of a string value, with HTML escaping on, as
    [json.Marshal] has it.  Bytes from 0x80 on are copied: the messages
    are taken to be valid UTF-8 without U+2028 and U+2029. *)
Definition encodeByte (c : ascii) : string :=
  let b := N_of_ascii c in
  if bool_decide (b = 34 ∨ b = 92)%N then "\" +:+ String c ""
  else if bool_decide (b = 8)%N then "\b"
  else if bool_decide (b = 12)%N then "\f"
  else if bool_decide (b = 10)%N then "\n"
  else if bool_decide (b = 13)%N then "\r"
  else if bool_decide (b = 9)%N then "\t"
  else if bool_decide (b < 32 ∨ b = 60 ∨ b = 62 ∨ b = 38)%N
       then "\u00" +:+ hex (b / 16) +:+ hex (b mod 16)
  else String c "".

Fixpoint encodeString (s : string) : string :=
  match s with
  | EmptyString => ""
  | String c r => encodeByte c +:+ encodeString r
  end.

Definition quote (s : string) : string := QUOTE +:+ encodeString s +:+ QUOTE.

(** [json.MarshalIndent(v, "", "\t")] for a slice of strings. *)
Definition MarshalIndent (v : list string) : result string :=
  match v with
  | [] => Ok "[]"
  | _ => Ok ("[" +:+ LF +:+ TAB
               +:+ strings.Join (map quote v) ("," +:+ LF +:+ TAB)
               +:+ LF +:+ "]")
  end.

End json.

(** ** The host: files, handles, system calls *)

(** An absolute path of the host, as the list of its elements below "/". *)
Abbreviation hpath := (list string) (only parsing).

(** An entry of the host's file system: a regular file with its content, or
    a directory with its write permission for the server's user.  Symbolic
    links and other kinds of entries are not modelled. *)
Inductive entry : Type :=
  | FileE (data : list byte)
  | DirE (writable : bool).

(** The host's file system, keyed by absolute path; [[]] is "/". *)
Abbreviation tree := (gmap (list string) entry) (only parsing).

(** Where one element [c] of a path leads from directory [cur]: nowhere for
    an empty element and for ".", to the parent for ".." (which "/" is to
    itself), into the entry [c] otherwise.  [jail] is the directory an
    [os.Root] is bound to, which ".." may not leave. *)
Definition move (jail : option hpath) (cur : hpath) (c : string) : result hpath :=
  if bool_decide (c = "" ∨ c = ".") then Ok cur
  else if bool_decide (c = "..") then
    if bool_decide (jail = Some cur) then Err ErrPathEscapes
    else Ok (removelast cur)
  else Ok (cur ++ [c]).

(** One element of a path looked up from [cur], the way the kernel (and
    [os.Root], which walks the elements itself) does it without symbolic
    links: [cur] has to be a directory. *)
Definition step (t : tree) (jail : option hpath) (cur : hpath) (c : string)
  : result hpath :=
  match t !! cur with
  | None => Err ENOENT
  | Some (FileE _) => Err ENOTDIR
  | Some (DirE _) => move jail cur c
  end.

Fixpoint walk (t : tree) (jail : option hpath) (cur : hpath) (elems : list string)
  : result hpath :=
  match elems with
  | [] => Ok cur
  | c :: rest =>
      match step t jail cur c with
      | Ok cur' => walk t jail cur' rest
      | Err e => Err e
      end
  end.

(** A path name given to a system call, resolved from the working directory. *)
Definition hostWalk (t : tree) (cwd : hpath) (path : string) : result hpath :=
  if bool_decide (path = "") then Err ENOENT
  else walk t None (if strings.HasPrefix path "/" then [] else cwd)
         (strings.SplitSlash path).

(** A name given to a method of an [os.Root] bound to directory [root]. *)
Definition rootWalk (t : tree) (root : hpath) (name : string) : result hpath :=
  if bool_decide (name = "") then Err ENOENT
  else if strings.HasPrefix name "/" then Err ErrPathEscapes
  else walk t (Some root) root (strings.SplitSlash name).

(** What a multipart parser hands over for one file part: the header and,
    behind [Open], the content.  [openErr] and [copyFault] are the
    environment's part: whether the spooled content can be opened, and
    after how many bytes a stream copy out of it breaks, if it does. *)
Record FileHeader : Type := {
  Filename : string;
  content : list byte;
  openErr : bool;
  copyFault : option nat
}.

(** The system calls and handle operations a handler makes, in order. *)
Inductive event : Type :=
  | SysMkdirAll (path : string)
  | SysOpenRoot (path : string)
  | SysRootClose (root : hpath)
  | SysCreate (root : hpath) (name : string)
  | SysOpen (root : hpath) (name : string)
  | SysStat (file : hpath)
  | SysRead (file : hpath)
  | SysWrite (file : hpath) (n : nat)
  | SysClose (file : hpath)
  | SysRemove (path : string)
  | SysReadDir (path : string)
  | SysReadFile (path : string)
  | SysOpenFile (path : string)
  | PartOpen (fh : FileHeader)
  | PartClose (fh : FileHeader)
  | BodyDiscard.

(** An argument of [logger.Printf]. *)
Inductive logArg : Type :=
  | LStr (s : string)
  | LErr (e : error).

(** A call of [logger.Printf]: the format and its arguments. *)
Record logEntry : Type := { format : string; args : list logArg }.

(** What an [http.ResponseWriter] has received: the header map, the status
    code once [WriteHeader] has run, and the body written so far. *)
Record Response : Type := {
  header : gmap string string;
  status : option Z;
  body : list byte
}.

Definition newResponse : Response :=
  {| header := ∅; status := None; body := [] |}.

(** The state a handler runs in: the host's file system and the server's
    working directory, the response writer, the logger's output, the trace
    of calls, and [mapOrder], the order in which the Go runtime visits the
    keys when the handler ranges over a map (the language leaves it open). *)
Record State : Type := {
  fs : tree;
  cwd : hpath;
  mapOrder : list string;
  w : Response;
  logged : list logEntry;
  trace : list event
}.

Definition setFs (t : tree) (s : State) : State :=
  {| fs := t; cwd := cwd s; mapOrder := mapOrder s; w := w s;
     logged := logged s; trace := trace s |}.
Definition setW (r : Response) (s : State) : State :=
  {| fs := fs s; cwd := cwd s; mapOrder := mapOrder s; w := r;
     logged := logged s; trace := trace s |}.
Definition addLog (l : logEntry) (s : State) : State :=
  {| fs := fs s; cwd := cwd s; mapOrder := mapOrder s; w := w s;
     logged := logged s ++ [l]; trace := trace s |}.
Definition addEvent (e : event) (s : State) : State :=
  {| fs := fs s; cwd := cwd s; mapOrder := mapOrder s; w := w s;
     logged := logged s; trace := trace s ++ [e] |}.

(** The state monad of the handlers. *)
Definition M (A : Type) : Type := State → A * State.

#[global] Instance M_ret : MRet M := λ A a s, (a, s).
#[global] Instance M_bind : MBind M :=
  λ A B k m s, let (a, s') := m s in k a s'.

Definition emit (e : event) : M unit := λ s, (tt, addEvent e s).
Definition getFs : M tree := λ s, (fs s, s).
Definition getCwd : M hpath := λ s, (cwd s, s).
Definition getW : M Response := λ s, (w s, s).
Definition putFs (t : tree) : M unit := λ s, (tt, setFs t s).
Definition putW (r : Response) : M unit := λ s, (tt, setW r s).

(** [defer f(); body]: [f] runs when [body] returns. *)
Definition defer {A} (f : M unit) (body : M A) : M A :=
  a ← body; f;; mret a.

(** A loop over a slice that threads an accumulator. *)
Fixpoint forEach {A B} (f : A → B → M B) (l : list A) (acc : B) : M B :=
  match l with
  | [] => mret acc
  | x :: rest => acc' ← f x acc; forEach f rest acc'
  end.

(** [for k, v := range m]: the pairs of [m] in the order the runtime picks. *)
Definition rangeMap {V} (order : list string) (m : gmap string V)
  : list (string * V) :=
  omap (λ k, pair k <$> m !! k) order.

(** The orders the runtime may pick: each key of the map once. *)
Definition rangeOrderOK {V} (order : list string) (m : gmap string V) : Prop :=
  order ≡ₚ (map_to_list m).*1.

Module log.

(** [logger.Printf(format, args...)] *)
Definition Printf (format : string) (args : list logArg) : M unit :=
  λ s, (tt, addLog {| format := format; args := args |} s).

End log.

Module os.

(** [os.IsNotExist(err)] *)
Definition IsNotExist (e : error) : bool := bool_decide (e = ENOENT).

(** An [*os.Root]: the directory it is bound to. *)
Record Root : Type := { dir : hpath }.

(** An [*os.File]: the entry it was opened on. *)
Record File : Type := { node : hpath }.

(** The directories of [os.MkdirAll], made one element at a time. *)
Fixpoint mkdirWalk (t : tree) (cur : hpath) (elems : list string)
  : result tree :=
  match elems with
  | [] => Ok t
  | c :: rest =>
      match t !! cur with
      | None => Err ENOENT
      | Some (FileE _) => Err ENOTDIR
      | Some (DirE wr) =>
          if bool_decide (c = "" ∨ c = ".") then mkdirWalk t cur rest
          else if bool_decide (c = "..") then mkdirWalk t (removelast cur) rest
          else match t !! (cur ++ [c]) with
               | Some (DirE _) => mkdirWalk t (cur ++ [c]) rest
               | Some (FileE _) => Err ENOTDIR
               | None =>
                   if wr then mkdirWalk (<[cur ++ [c] := DirE true]> t)
                                (cur ++ [c]) rest
                   else Err EACCES
               end
      end
  end.

Definition mkdirAll (t : tree) (cwd : hpath) (path : string) : result tree :=
  if bool_decide (path = "") then Err ENOENT
  else mkdirWalk t (if strings.HasPrefix path "/" then [] else cwd)
         (strings.SplitSlash path).

(** [os.MkdirAll(path, 0755)] *)
Definition MkdirAll (path : string) : M (option error) :=
  emit (SysMkdirAll path);;
  t ← getFs; d ← getCwd;
  match mkdirAll t d path with
  | Ok t' => putFs t';; mret None
  | Err e => mret (Some e)
  end.

Definition openRoot (t : tree) (cwd : hpath) (path : string) : result Root :=
  match hostWalk t cwd path with
  | Ok p => match t !! p with
            | Some (DirE _) => Ok {| dir := p |}
            | Some (FileE _) => Err ENOTDIR
            | None => Err ENOENT
            end
  | Err e => Err e
  end.

(** [os.OpenRoot(path)] *)
Definition OpenRoot (path : string) : M (result Root) :=
  emit (SysOpenRoot path);;
  t ← getFs; d ← getCwd; mret (openRoot t d path).

(** [root.Close()] *)
Definition Root_Close (root : Root) : M unit := emit (SysRootClose (dir root)).

(** The entry [root.Create(name)] gives, and the file system after it:
    an existing file is truncated, a missing one is made when its
    directory can be written. *)
Definition create (t : tree) (root : Root) (name : string)
  : result (File * tree) :=
  match rootWalk t (dir root) name with
  | Err e => Err e
  | Ok p =>
      match t !! p with
      | Some (DirE _) => Err EISDIR
      | Some (FileE _) => Ok ({| node := p |}, <[p := FileE []]> t)
      | None =>
          match t !! removelast p with
          | Some (DirE true) => Ok ({| node := p |}, <[p := FileE []]> t)
          | Some (DirE false) => Err EACCES
          | _ => Err ENOENT
          end
      end
  end.

(** [root.Create(name)] *)
Definition Root_Create (root : Root) (name : string) : M (result File) :=
  emit (SysCreate (dir root) name);;
  t ← getFs;
  match create t root name with
  | Ok (f, t') => putFs t';; mret (Ok f)
  | Err e => mret (Err e)
  end.

Definition open (t : tree) (root : Root) (name : string) : result File :=
  match rootWalk t (dir root) name with
  | Err e => Err e
  | Ok p => match t !! p with
            | Some _ => Ok {| node := p |}
            | None => Err ENOENT
            end
  end.

(** [root.Open(name)] *)
Definition Root_Open (root : Root) (name : string) : M (result File) :=
  emit (SysOpen (dir root) name);;
  t ← getFs; mret (open t root name).

(** The size a directory reports. *)
Definition dirSize : Z := 4096.

Definition stat (t : tree) (f : File) : result Z :=
  match t !! node f with
  | Some (FileE data) => Ok (Z.of_nat (length data))
  | Some (DirE _) => Ok dirSize
  | None => Err ENOENT
  end.

(** [file.Stat()], reduced to the size it reports. *)
Definition File_Stat (f : File) : M (result Z) :=
  emit (SysStat (node f));;
  t ← getFs; mret (stat t f).

(** [file.Close()] *)
Definition File_Close (f : File) : M unit := emit (SysClose (node f)).

Definition hasChild (t : tree) (p : hpath) : bool :=
  bool_decide (Exists (λ k, k ≠ p ∧ p `prefix_of` k) (elements (dom t))).

Definition remove (t : tree) (cwd : hpath) (path : string) : result tree :=
  match hostWalk t cwd path with
  | Err e => Err e
  | Ok p =>
      match t !! p with
      | None => Err ENOENT
      | Some e =>
          if bool_decide (p = []) then Err EBUSY
          else match t !! removelast p with
               | Some (DirE true) =>
                   match e with
                   | DirE _ => if hasChild t p then Err ENOTEMPTY
                               else Ok (delete p t)
                   | FileE _ => Ok (delete p t)
                   end
               | Some (DirE false) => Err EACCES
               | _ => Err ENOENT
               end
      end
  end.

(** [os.Remove(path)] *)
Definition Remove (path : string) : M (option error) :=
  emit (SysRemove path);;
  t ← getFs; d ← getCwd;
  match remove t d path with
  | Ok t' => putFs t';; mret None
  | Err e => mret (Some e)
  end.

(** The name of [k] when it is an entry of directory [p]. *)
Definition childName (p k : hpath) : option string :=
  if bool_decide (removelast k = p ∧ k ≠ []) then Some (List.last k "")
  else None.

Definition nameLe (a b : string) : Prop := String.leb a b = true.

#[global] Instance nameLe_dec (a b : string) : Decision (nameLe a b).
Proof. unfold nameLe. apply _. Defined.

Definition readDir (t : tree) (cwd : hpath) (path : string)
  : result (list string) :=
  match hostWalk t cwd path with
  | Err e => Err e
  | Ok p =>
      match t !! p with
      | Some (DirE _) =>
          Ok (merge_sort nameLe (omap (childName p) (elements (dom t))))
      | Some (FileE _) => Err ENOTDIR
      | None => Err ENOENT
      end
  end.

(** [os.ReadDir(name)]: the names of the directory's entries, sorted. *)
Definition ReadDir (path : string) : M (result (list string)) :=
  emit (SysReadDir path);;
  t ← getFs; d ← getCwd; mret (readDir t d path).

Definition readFile (t : tree) (cwd : hpath) (path : string)
  : result (list byte) :=
  match hostWalk t cwd path with
  | Err e => Err e
  | Ok p => match t !! p with
            | Some (FileE data) => Ok data
            | Some (DirE _) => Err EISDIR
            | None => Err ENOENT
            end
  end.

(** [os.ReadFile(name)] *)
Definition ReadFile (path : string) : M (result (list byte)) :=
  emit (SysReadFile path);;
  t ← getFs; d ← getCwd; mret (readFile t d path).

Definition openAppend (t : tree) (cwd : hpath) (path : string)
  : result (File * tree) :=
  match hostWalk t cwd path with
  | Err e => Err e
  | Ok p =>
      match t !! p with
      | Some (DirE _) => Err EISDIR
      | Some (FileE _) => Ok ({| node := p |}, t)
      | None =>
          match t !! removelast p with
          | Some (DirE true) => Ok ({| node := p |}, <[p := FileE []]> t)
          | Some (DirE false) => Err EACCES
          | _ => Err ENOENT
          end
      end
  end.

(** [os.OpenFile(name, os.O_CREATE|os.O_WRONLY|os.O_APPEND, 0666)] *)
Definition OpenFile (path : string) : M (result File) :=
  emit (SysOpenFile path);;
  t ← getFs; d ← getCwd;
  match openAppend t d path with
  | Ok (f, t') => putFs t';; mret (Ok f)
  | Err e => mret (Err e)
  end.

End os.

(** ** Requests, mime/multipart, net/http, io *)

(** One part of a multipart/form-data body as the client sent it, with the
    environment's part for the file it may carry (see [FileHeader]). *)
Record Part : Type := {
  FormName : string;
  FileName : string;
  Data : list byte;
  spoolLost : bool;
  breaksAt : option nat
}.

Inductive payload : Type :=
  | NotForm
  | FormData (parts : list Part).

(** A request body: what it carries, its length on the wire, and the limit
    a [MaxBytesReader] has put on it. *)
Record ReqBody : Type := {
  carried : payload;
  wireLen : Z;
  limit : option Z
}.

(** An [*http.Request]: [Path] is [r.URL.Path]. *)
Record Request : Type := {
  Method : string;
  Path : string;
  RemoteAddr : string;
  Body : ReqBody
}.

Definition setBody (b : ReqBody) (r : Request) : Request :=
  {| Method := Method r; Path := Path r; RemoteAddr := RemoteAddr r; Body := b |}.

Module multipart.

(** [multipart.Form], reduced to its files: [File] is
    [map[string][]*FileHeader]. *)
Record Form : Type := { File : gmap string (list FileHeader) }.

(** [p.FileName()]: the filename parameter, passed through [filepath.Base]
    when it is not empty. *)
Definition Part_FileName (p : Part) : string :=
  if bool_decide (FileName p = "") then "" else filepath.Base (FileName p).

Definition header (p : Part) : FileHeader :=
  {| Filename := Part_FileName p; content := Data p;
     openErr := spoolLost p; copyFault := breaksAt p |}.

(** One round of the loop of [readForm]: parts without a form name are
    skipped, parts without a file name are plain values, and a file part is
    appended to the slice of its field. *)
Definition addPart (m : gmap string (list FileHeader)) (p : Part)
  : gmap string (list FileHeader) :=
  if bool_decide (FormName p = "") then m
  else if bool_decide (Part_FileName p = "") then m
  else <[FormName p := default [] (m !! FormName p) ++ [header p]]> m.

Definition readForm (parts : list Part) : Form :=
  {| File := fold_left addPart parts ∅ |}.

(** Where [readForm] keeps the content of the file parts: in memory while
    [budget], the bytes of [maxMemory] the file parts before have left,
    holds it, and in a temporary file of the host from the first part on
    that does not fit.  [spools budget parts] tells whether some part of
    [parts] goes to a temporary file. *)
Fixpoint spools (budget : Z) (parts : list Part) : bool :=
  match parts with
  | [] => false
  | p :: rest =>
      if bool_decide (FormName p = "") || bool_decide (Part_FileName p = "")
      then spools budget rest
      else if (budget <? Z.of_nat (length (Data p)))%Z then true
      else spools (budget - Z.of_nat (length (Data p))) rest
  end.

(** [readForm(maxMemory)] makes no temporary file for [parts]. *)
Definition keptInMemory (maxMemory : Z) (parts : list Part) : bool :=
  negb (spools (if bool_decide (maxMemory = 2 ^ 63 - 1)%Z
                then (maxMemory - 1)%Z else maxMemory) parts).

(** [fh.Open()] *)
Definition FileHeader_Open (fh : FileHeader) : M (result FileHeader) :=
  emit (PartOpen fh);;
  mret (if openErr fh then Err ErrSpool else Ok fh).

(** [file.Close()] on a [multipart.File] *)
Definition File_Close (file : FileHeader) : M unit := emit (PartClose file).

End multipart.

Module http.

Definition MethodGet : string := "GET".
Definition MethodPost : string := "POST".

Definition StatusOK : Z := 200.
Definition StatusMultiStatus : Z := 207.
Definition StatusMovedPermanently : Z := 301.
Definition StatusBadRequest : Z := 400.
Definition StatusNotFound : Z := 404.
Definition StatusMethodNotAllowed : Z := 405.
Definition StatusInternalServerError : Z := 500.

(** [w.Header().Set(key, value)]; a change made after [WriteHeader] does not
    reach the client. *)
Definition Header_Set (key value : string) : M unit :=
  r ← getW;
  match status r with
  | None => putW {| header := <[key := value]> (header r);
                    status := status r; body := body r |}
  | Some _ => mret tt
  end.

(** [w.Header().Del(key)] *)
Definition Header_Del (key : string) : M unit :=
  r ← getW;
  match status r with
  | None => putW {| header := delete key (header r);
                    status := status r; body := body r |}
  | Some _ => mret tt
  end.

(** [w.WriteHeader(code)]: only the first call counts. *)
Definition WriteHeader (code : Z) : M unit :=
  r ← getW;
  match status r with
  | None => putW {| header := header r; status := Some code; body := body r |}
  | Some _ => mret tt
  end.

(** [w.Write(b)]: sends the header with 200 when none was sent yet.  The
    client is taken to stay connected, so that the write does not fail. *)
Definition Write (b : list byte) : M (option error) :=
  WriteHeader StatusOK;;
  r ← getW;
  putW {| header := header r; status := status r; body := body r ++ b |};;
  mret None.

(** [http.Error(w, error, code)] *)
Definition Error (msg : string) (code : Z) : M unit :=
  Header_Del "Content-Length";;
  Header_Set "Content-Type" "text/plain; charset=utf-8";;
  Header_Set "X-Content-Type-Options" "nosniff";;
  WriteHeader code;;
  Write (list_byte_of_string (msg +:+ LF));;
  mret tt.

(** [http.NotFound(w, r)] *)
Definition NotFound : M unit := Error "404 page not found" StatusNotFound.

Definition htmlEscapeByte (c : ascii) : string :=
  let b := N_of_ascii c in
  if bool_decide (b = 38)%N then "&amp;"
  else if bool_decide (b = 60)%N then "&lt;"
  else if bool_decide (b = 62)%N then "&gt;"
  else if bool_decide (b = 34)%N then "&#34;"
  else if bool_decide (b = 39)%N then "&#39;"
  else String c "".

Fixpoint htmlEscape (s : string) : string :=
  match s with
  | EmptyString => ""
  | String c r => htmlEscapeByte c +:+ htmlEscape r
  end.

(** [http.Redirect(w, r, url, code)] as the mux uses it, for a path that
    needs no URL escaping. *)
Definition Redirect (r : Request) (url : string) (code : Z) : M unit :=
  Header_Set "Location" url;;
  (if bool_decide (Method r = "GET" ∨ Method r = "HEAD")
   then Header_Set "Content-Type" "text/html; charset=utf-8" else mret tt);;
  WriteHeader code;;
  (if bool_decide (Method r = "GET")
   then Write (list_byte_of_string
                 ("<a href=" +:+ QUOTE +:+ htmlEscape url +:+ QUOTE +:+ ">"
                    +:+ "Moved Permanently" +:+ "</a>." +:+ LF +:+ LF));; mret tt
   else mret tt).

(** [http.MaxBytesReader(w, r.Body, n)]: a negative limit counts as 0. *)
Definition MaxBytesReader (b : ReqBody) (n : Z) : ReqBody :=
  {| carried := carried b; wireLen := wireLen b; limit := Some (Z.max 0 n) |}.

(** Reading the whole body runs past the limit put on it. *)
Definition overLimit (b : ReqBody) : bool :=
  match limit b with
  | Some n => (n <? wireLen b)%Z
  | None => false
  end.

(** [r.ParseMultipartForm(maxMemory)] for a body that is read to its end
    and that the parser's own limits let through (1000 parts, and
    [maxMemory] and 10 MB for what it keeps in memory): reading past the
    limit of a [MaxBytesReader] fails and asks for the connection to be
    closed.  [maxMemory] decides where the file parts are kept
    ([multipart.keptInMemory]); the temporary file of the parts that are not
    kept in memory, which the server removes when the handler has returned,
    is not an entry of [fs]. *)
Definition ParseMultipartForm (r : Request) (maxMemory : Z)
  : M (result multipart.Form) :=
  match carried (Body r) with
  | NotForm => mret (Err ErrNotMultipart)
  | FormData parts =>
      if overLimit (Body r)
      then Header_Set "Connection" "close";; mret (Err ErrBodyTooLarge)
      else mret (Ok (multipart.readForm parts))
  end.

(** A pattern registered with a [ServeMux] and its handler. *)
Record muxEntry : Type := {
  pattern : string;
  handler : Request → M unit
}.

(** [*http.ServeMux]: the registrations, in order. *)
Definition ServeMux : Type := list muxEntry.

Definition NewServeMux : ServeMux := [].

(** [mux.HandleFunc(pattern, handler)] *)
Definition HandleFunc (mux : ServeMux) (pat : string) (f : Request → M unit)
  : ServeMux :=
  mux ++ [{| pattern := pat; handler := f |}].

(** A pattern without wildcards matches the paths below it when it ends in
    a slash, and the path equal to it otherwise. *)
Definition patternMatches (pat path : string) : bool :=
  if endsWithSlash pat then strings.HasPrefix path pat
  else bool_decide (path = pat).

(** The most specific of the patterns that match: for patterns without
    wildcards, the longest. *)
Definition pick (path : string) (best : option muxEntry) (e : muxEntry)
  : option muxEntry :=
  if patternMatches (pattern e) path then
    match best with
    | None => Some e
    | Some b =>
        if (String.length (pattern b) <? String.length (pattern e))%nat
        then Some e else best
    end
  else best.

Definition matchPath (mux : ServeMux) (path : string) : option muxEntry :=
  fold_left (pick path) mux None.

(** [cleanPath] of net/http: the canonical path for [p], keeping a trailing
    slash. *)
Definition cleanPath (p : string) : string :=
  if bool_decide (p = "") then "/"
  else
    let p := if strings.HasPrefix p "/" then p else "/" +:+ p in
    let np := filepath.Clean p in
    if endsWithSlash p && negb (bool_decide (np = "/")) then np +:+ "/" else np.

Definition exactMatch (n : option muxEntry) (path : string) : bool :=
  match n with
  | None => false
  | Some e => if endsWithSlash (pattern e) then bool_decide (path = pattern e)
              else true
  end.

(** [mux.matchOrRedirect]: the match for [path], or the redirect to
    [path/] when only that is registered. *)
Definition matchOrRedirect (mux : ServeMux) (path upath : string)
  : option muxEntry * option string :=
  let n := matchPath mux path in
  if negb (exactMatch n path) && negb (endsWithSlash path) then
    if exactMatch (matchPath mux (path +:+ "/")) (path +:+ "/")
    then (None, Some (cleanPath upath +:+ "/"))
    else (n, None)
  else (n, None).

Inductive route : Type :=
  | RouteHandler (e : muxEntry)
  | RouteRedirect (url : string)
  | RouteNotFound.

(** [mux.findHandler(r)].  The mux works on the escaped path of the URL; the
    requests modelled have a path that needs no escaping, for which that is
    [Path]. *)
Definition findHandler (mux : ServeMux) (r : Request) : route :=
  if bool_decide (Method r = "CONNECT") then
    match matchOrRedirect mux (Path r) (Path r) with
    | (_, Some url) => RouteRedirect url
    | (Some e, None) => RouteHandler e
    | (None, None) => RouteNotFound
    end
  else
    let path := cleanPath (Path r) in
    match matchOrRedirect mux path (Path r) with
    | (_, Some url) => RouteRedirect url
    | (n, None) =>
        if bool_decide (path ≠ Path r) then RouteRedirect path
        else match n with
             | Some e => RouteHandler e
             | None => RouteNotFound
             end
    end.

(** [mux.ServeHTTP(w, r)] *)
Definition ServeHTTP (mux : ServeMux) (r : Request) : M unit :=
  match findHandler mux r with
  | RouteHandler e => handler e r
  | RouteRedirect url => Redirect r url StatusMovedPermanently
  | RouteNotFound => NotFound
  end.

End http.

Module io.

(** [io.CopyBuffer(dst, src, buf)] from an uploaded part to a file of the
    sandbox: the bytes up to the fault, if any, are appended to the file. *)
Definition CopyBuffer (dst : os.File) (src : FileHeader) (buf : Z)
  : M (result Z) :=
  let data := match copyFault src with
              | Some k => take k (content src)
              | None => content src
              end in
  emit (SysWrite (os.node dst) (length data));;
  t ← getFs;
  match t !! os.node dst with
  | Some (FileE old) => putFs (<[os.node dst := FileE (old ++ data)]> t)
  | _ => mret tt
  end;;
  mret (match copyFault src with
        | Some _ => Err ErrCopy
        | None => Ok (Z.of_nat (length data))
        end).

(** [io.Copy(w, file)] from a file of the sandbox to the response. *)
Definition Copy (file : os.File) : M (result Z) :=
  emit (SysRead (os.node file));;
  t ← getFs;
  match t !! os.node file with
  | Some (FileE data) =>
      match data with
      | [] => mret (Ok 0%Z)
      | _ => http.Write data;; mret (Ok (Z.of_nat (length data)))
      end
  | Some (DirE _) => mret (Err EISDIR)
  | None => mret (Err ENOENT)
  end.

End io.

(** ** The program *)

Module time.

(** [time.Second]: a [time.Duration] counts nanoseconds. *)
Definition Second : Z := 1000000000.

End time.

(** An [int64] result, wrapped around. *)
Definition int64 (z : Z) : Z := ((z + 2 ^ 63) mod 2 ^ 64 - 2 ^ 63)%Z.

(** *** internal/config/config.go *)

Module config.

Record ServerConfig : Type := {
  Addr : string;
  ReadTimeout : Z;
  WriteTimeout : Z;
  IdleTimeout : Z
}.

Record UploaderConfig : Type := {
  StorageDir : string;
  MaxUploadSizeMB : Z;
  MaxFormMemSizeMB : Z
}.

Record Config : Type := {
  Server : ServerConfig;
  Uploader : UploaderConfig
}.

Definition GetMaxUploadSize (uc : UploaderConfig) : Z :=
  int64 (Z.shiftl (MaxUploadSizeMB uc) 20).

Definition GetMaxFormMemSize (uc : UploaderConfig) : Z :=
  int64 (Z.shiftl (MaxFormMemSizeMB uc) 20).

Section NewConfig.

(** [yaml.Unmarshal(data, &cfg)] of gopkg.in/yaml.v3: the configuration
    with the document's values laid over [cfg], or an error. *)
Variable yaml_Unmarshal : list byte → Config → result Config.

Definition NewConfig (path : string) : M (result Config) :=
  let cfg :=
    {| Server := {| Addr := ":8090";
                    ReadTimeout := (5 * time.Second)%Z;
                    WriteTimeout := (10 * time.Second)%Z;
                    IdleTimeout := (30 * time.Second)%Z |};
       Uploader := {| StorageDir := "storage";
                      MaxUploadSizeMB := 3072;
                      MaxFormMemSizeMB := 32 |} |} in
  data ← os.ReadFile path;
  match data with
  | Err err =>
      if os.IsNotExist err then
        log.Printf "warn: config file '%s' not found, using default settings.\n"
          [LStr path];;
        mret (Ok cfg)
      else mret (Err err)
  | Ok data =>
      match yaml_Unmarshal data cfg with
      | Err err => mret (Err err)
      | Ok cfg => mret (Ok cfg)
      end
  end.

End NewConfig.

End config.

(** *** internal/handlers/handlers.go *)

Module handlers.

(** The logger of [Handlers] writes to the [logged] component of the state. *)
Record Handlers : Type := { uploader : config.UploaderConfig }.

Definition NewHandlers (cfg : config.Config) : Handlers :=
  {| uploader := config.Uploader cfg |}.

(** [cleanupRequest]: the rest of the body is read and dropped, and the body
    closed. *)
Definition cleanupRequest (r : Request) : M unit := emit BodyDiscard.

(** The body of the inner loop of [UploadHandler], for one file header;
    [continue] is the end of a branch. *)
Definition uploadFile (h : Handlers) (root : os.Root) (fieldName : string)
    (fh : FileHeader) (uploadErrors : list string) : M (list string) :=
  file ← multipart.FileHeader_Open fh;
  match file with
  | Err err =>
      let msg := "error getting file '" +:+ Filename fh +:+ "' from field '"
                   +:+ fieldName +:+ "'" in
      log.Printf "%s: %v\n" [LStr msg; LErr err];;
      mret (uploadErrors ++ [msg])
  | Ok file =>
      dst ← os.Root_Create root (Filename fh);
      match dst with
      | Err err =>
          let msg := "error creating file '" +:+ Filename fh +:+ "'" in
          log.Printf "%s: %v\n" [LStr msg; LErr err];;
          multipart.File_Close file;;
          mret (uploadErrors ++ [msg])
      | Ok dst =>
          let buf := Z.shiftl 1 20 in
          copied ← io.CopyBuffer dst file buf;
          match copied with
          | Err err =>
              let msg := "error writing file '" +:+ Filename fh +:+ "'" in
              log.Printf "%s: %v\n" [LStr msg; LErr err];;
              multipart.File_Close file;;
              os.File_Close dst;;
              removeErr ← os.Remove
                (filepath.Join [config.StorageDir (uploader h); Filename fh]);
              match removeErr with
              | Some removeErr =>
                  log.Printf "failed to remove partial file '%s': %v"
                    [LStr (Filename fh); LErr removeErr]
              | None => mret tt
              end;;
              mret (uploadErrors ++ [msg])
          | Ok _ =>
              multipart.File_Close file;;
              os.File_Close dst;;
              mret uploadErrors
          end
      end
  end.

(** The two loops of [UploadHandler] over [r.MultipartForm.File]. *)
Definition uploadFiles (h : Handlers) (root : os.Root)
    (files : gmap string (list FileHeader)) : M (list string) :=
  λ s,
    forEach (λ '(fieldName, fileHeaders) uploadErrors,
               forEach (uploadFile h root fieldName) fileHeaders uploadErrors)
      (rangeMap (mapOrder s) files) [] s.

Definition UploadHandler (h : Handlers) (r : Request) : M unit :=
  log.Printf "received request from %s for %s\n"
    [LStr (RemoteAddr r); LStr (Path r)];;
  defer (cleanupRequest r)
    (if bool_decide (Method r ≠ http.MethodPost) then
       http.Error "method must be POST" http.StatusMethodNotAllowed
     else
       let r := setBody (http.MaxBytesReader (Body r)
                           (config.GetMaxUploadSize (uploader h))) r in
       form ← http.ParseMultipartForm r (config.GetMaxFormMemSize (uploader h));
       match form with
       | Err err =>
           log.Printf "error multipart parsing: %v\n" [LErr err];;
           http.Error "internal error" http.StatusInternalServerError
       | Ok form =>
           err ← os.MkdirAll (config.StorageDir (uploader h));
           match err with
           | Some err =>
               log.Printf "error creating file directory: %v\n" [LErr err];;
               http.Error "internal error" http.StatusInternalServerError
           | None =>
               root ← os.OpenRoot (config.StorageDir (uploader h));
               match root with
               | Err err =>
                   log.Printf "error root opening: %v\n" [LErr err];;
                   http.Error "internal error" http.StatusInternalServerError
               | Ok root =>
                   defer (os.Root_Close root)
                     (uploadErrors ← uploadFiles h root (multipart.File form);
                      if bool_decide (0 < length uploadErrors) then
                        match json.MarshalIndent uploadErrors with
                        | Err err =>
                            log.Printf "error marshalling uploadErrors to json: %v\n"
                              [LErr err];;
                            http.Error "" http.StatusMultiStatus
                        | Ok errData =>
                            http.Error errData http.StatusMultiStatus
                        end
                      else
                        http.Header_Set "Content-Type" "text/plain; charset=utf-8";;
                        http.WriteHeader http.StatusOK;;
                        err ← http.Write (list_byte_of_string
                                            ("All files uploaded successfully" +:+ LF));
                        match err with
                        | Some err =>
                            log.Printf "error writing response: %s\n" [LErr err]
                        | None => mret tt
                        end)
               end
           end
       end).

Definition downloadPrefix : string := "/download/".

Definition DownloadHandle (h : Handlers) (r : Request) : M unit :=
  log.Printf "received request from %s for %s\n"
    [LStr (RemoteAddr r); LStr (Path r)];;
  defer (cleanupRequest r)
    (if bool_decide (Method r ≠ http.MethodGet) then
       http.Error "method must be GET" http.StatusMethodNotAllowed
     else
       let fileName := strings.TrimPrefix (Path r) downloadPrefix in
       if bool_decide (fileName = "") then
         http.Error "file name is not indicated" http.StatusBadRequest
       else
         root ← os.OpenRoot (config.StorageDir (uploader h));
         match root with
         | Err err =>
             http.Error "internal error" http.StatusInternalServerError
         | Ok root =>
             defer (os.Root_Close root)
               (file ← os.Root_Open root fileName;
                match file with
                | Err err => http.Error "file is not found" http.StatusNotFound
                | Ok file =>
                    defer (os.File_Close file)
                      (fileInfo ← os.File_Stat file;
                       match fileInfo with
                       | Err err =>
                           http.Error "unable to access file"
                             http.StatusInternalServerError
                       | Ok size =>
                           http.Header_Set "Content-Length" (fmt.Sprint size);;
                           http.Header_Set "Content-Type" "application/octet-stream";;
                           http.Header_Set "Content-Disposition"
                             ("attachment; filename=" +:+ filepath.Base fileName);;
                           http.WriteHeader http.StatusOK;;
                           copied ← io.Copy file;
                           match copied with
                           | Err err =>
                               log.Printf "Error transferring file %s: %v"
                                 [LStr fileName; LErr err]
                           | Ok _ => mret tt
                           end
                       end)
                end)
         end).

(** The document [DownloadList] builds with its [strings.Builder]. *)
Fixpoint writeNames (files : list string) (sb : string) : string :=
  match files with
  | [] => sb
  | file :: rest => writeNames rest (sb +:+ file +:+ LF)
  end.

Definition DownloadList (h : Handlers) (r : Request) : M unit :=
  log.Printf "received request from %s for %s\n"
    [LStr (RemoteAddr r); LStr (Path r)];;
  defer (cleanupRequest r)
    (if bool_decide (Method r ≠ http.MethodGet) then
       http.Error "method must be GET" http.StatusMethodNotAllowed
     else
       files ← os.ReadDir (config.StorageDir (uploader h));
       match files with
       | Err err => http.Error "internal error" http.StatusInternalServerError
       | Ok files =>
           let fileList := writeNames files ("Files currently available:" +:+ LF) in
           http.Header_Set "Content-Length"
             (fmt.Sprint (Z.of_nat (String.length fileList)));;
           http.Header_Set "Content-Type" "text/plain; charset=utf-8";;
           http.Header_Set "Content-Disposition" "attachment; filename=list.txt";;
           http.WriteHeader http.StatusOK;;
           err ← http.Write (list_byte_of_string fileList);
           match err with
           | Some err => log.Printf "error writing response: %s\n" [LErr err]
           | None => mret tt
           end
       end).

End handlers.

(** *** internal/server/server.go *)

Module server.

(** [http.Server], with the logger left out. *)
Record HTTPServer : Type := {
  Addr : string;
  Handler : http.ServeMux;
  ReadTimeout : Z;
  WriteTimeout : Z;
  IdleTimeout : Z
}.

Record Server : Type := { HTTP : HTTPServer }.

Definition NewServer (cfg : config.Config) : Server :=
  let h := handlers.NewHandlers cfg in
  let mux := http.NewServeMux in
  let mux := http.HandleFunc mux "/upload" (handlers.UploadHandler h) in
  let mux := http.HandleFunc mux "/download/" (handlers.DownloadHandle h) in
  let mux := http.HandleFunc mux "/download/list.txt" (handlers.DownloadList h) in
  {| HTTP := {| Addr := config.Addr (config.Server cfg);
                Handler := mux;
                ReadTimeout := config.ReadTimeout (config.Server cfg);
                WriteTimeout := config.WriteTimeout (config.Server cfg);
                IdleTimeout := config.IdleTimeout (config.Server cfg) |} |}.

End server.

(** *** cmd/fileserver/main.go *)

(** How [main] leaves start-up: by [Fatalf], or into [ListenAndServe]. *)
Inductive startup : Type :=
  | Fatal (l : logEntry)
  | Listening (s : server.Server).

(** [main] up to [ListenAndServe].  The logger it makes writes to the
    standard output and to the log file; the lines it is given are kept in
    [logged], and what it appends to the log file is not followed in [fs]. *)
Definition main (yaml_Unmarshal : list byte → config.Config → result config.Config)
  : M startup :=
  let configPath := "fileserver.yaml" in
  logFile ← os.OpenFile "server.log";
  match logFile with
  | Err err =>
      mret (Fatal {| format := "failed to open log file: %v\n"; args := [LErr err] |})
  | Ok logFile =>
      cfg ← config.NewConfig yaml_Unmarshal configPath;
      match cfg with
      | Err err =>
          mret (Fatal {| format := "error loading config %s\n"; args := [LErr err] |})
      | Ok cfg =>
          let s := server.NewServer cfg in
          log.Printf "starting server on %s\n" [LStr (server.Addr (server.HTTP s))];;
          mret (Listening s)
      end
  end.

(** ** Serving a request *)

(** The state a request is served in: a fresh response writer and an empty
    trace. *)
Definition accept (s : State) : State :=
  {| fs := fs s; cwd := cwd s; mapOrder := mapOrder s; w := newResponse;
     logged := logged s; trace := [] |}.

(** The state after a handler has served a request. *)
Definition serve (f : Request → M unit) (r : Request) (s : State) : State :=
  snd (f r (accept s)).

(** The state after the server's mux has served a request. *)
Definition serveHTTP (srv : server.Server) (r : Request) (s : State) : State :=
  serve (http.ServeHTTP (server.Handler (server.HTTP srv))) r s.

(** ** Notions used in the statements *)

(** A name that denotes an entry of a directory. *)
Definition isName (c : string) : Prop :=
  c ≠ "" ∧ c ≠ "." ∧ c ≠ ".." ∧ noSlash c = true.

Definition isDir (t : tree) (p : hpath) : bool :=
  match t !! p with
  | Some (DirE _) => true
  | _ => false
  end.

(** Two file systems with the same directories. *)
Definition sameDirs (t t' : tree) : Prop := ∀ p, isDir t p = isDir t' p.

(** The file headers a handler opened, in the order it opened them. *)
Fixpoint opened (tr : list event) : list FileHeader :=
  match tr with
  | [] => []
  | PartOpen fh :: rest => fh :: opened rest
  | _ :: rest => opened rest
  end.

(** The parts of a body that [readForm] files under a field. *)
Definition isFilePart (p : Part) : bool :=
  negb (bool_decide (FormName p = ""))
  && negb (bool_decide (multipart.Part_FileName p = "")).

Definition fileParts (parts : list Part) : list Part :=
  List.filter isFilePart parts.

(** The file headers of field [field], in the order the parts came. *)
Definition partsOf (field : string) (parts : list Part) : list FileHeader :=
  map multipart.header
    (List.filter (λ p, bool_decide (FormName p = field)) (fileParts parts)).

(** The names of [l] in the order of their first occurrence. *)
Fixpoint firstSeen (seen l : list string) : list string :=
  match l with
  | [] => []
  | x :: rest =>
      if bool_decide (x ∈ seen) then firstSeen seen rest
      else x :: firstSeen (x :: seen) rest
  end.

(** The order of processing the specification words: "insertion order of
    form fields, then within a field the order parts were submitted". *)
Definition spec_processingOrder (parts : list Part) : list FileHeader :=
  flat_map (λ field, partsOf field parts)
    (firstSeen [] (map FormName (fileParts parts))).

(** What [http.Error] leaves in a fresh response writer. *)
Definition errorResponse (msg : string) (code : Z) : Response :=
  {| header := <["X-Content-Type-Options" := "nosniff"]>
                 (<["Content-Type" := "text/plain; charset=utf-8"]> ∅);
     status := Some code;
     body := list_byte_of_string (msg +:+ LF) |}.

(** One name per line, each line closed by a newline. *)
Fixpoint lines (names : list string) : string :=
  match names with
  | [] => ""
  | name :: rest => name +:+ LF +:+ lines rest
  end.

(** The document of the list handler for the names [files]: the header line
    and the names. *)
Definition listing (files : list string) : string :=
  "Files currently available:" +:+ LF +:+ lines files.

(** The response that carries the listing of [files]. *)
Definition listResponse (files : list string) : Response :=
  {| header := <["Content-Disposition" := "attachment; filename=list.txt"]>
                 (<["Content-Type" := "text/plain; charset=utf-8"]>
                    (<["Content-Length" :=
                         fmt.Sprint (Z.of_nat (String.length (listing files)))]> ∅));
     status := Some 200%Z;
     body := list_byte_of_string (listing files) |}.

(** The configuration [NewConfig] starts from. *)
Definition defaultConfig : config.Config :=
  {| config.Server := {| config.Addr := ":8090";
                         config.ReadTimeout := 5000000000;
                         config.WriteTimeout := 10000000000;
                         config.IdleTimeout := 30000000000 |};
     config.Uploader := {| config.StorageDir := "storage";
                           config.MaxUploadSizeMB := 3072;
                           config.MaxFormMemSizeMB := 32 |} |}.

(** The response of a download that went through: the requested name, the
    size [Stat] reported and the bytes copied. *)
Definition downloadResponse (fileName : string) (size : Z) (sent : list byte)
  : Response :=
  {| header := <["Content-Disposition" :=
                   "attachment; filename=" +:+ filepath.Base fileName]>
                 (<["Content-Type" := "application/octet-stream"]>
                    (<["Content-Length" := fmt.Sprint size]> ∅));
     status := Some 200%Z;
     body := sent |}.

(** The log entry every handler starts with. *)
Definition received (r : Request) : logEntry :=
  {| format := "received request from %s for %s\n";
     args := [LStr (RemoteAddr r); LStr (Path r)] |}.

(** The messages of the three failures of one file part. *)
Definition msgOpen (fieldName : string) (fh : FileHeader) : string :=
  "error getting file '" +:+ Filename fh +:+ "' from field '" +:+ fieldName +:+ "'".
Definition msgCreate (fh : FileHeader) : string :=
  "error creating file '" +:+ Filename fh +:+ "'".
Definition msgWrite (fh : FileHeader) : string :=
  "error writing file '" +:+ Filename fh +:+ "'".

(** The state after the round of the upload loop for a part [fh] whose copy
    broke after [k] bytes: [dst] is the file [root.Create] gave and [t1] the
    file system it left; the partial file is removed when [os.Remove] can
    do it, and the failure logged when it cannot. *)
Definition afterBrokenCopy (h : handlers.Handlers) (root : os.Root)
    (fh : FileHeader) (dst : os.File) (t1 : gmap (list string) entry) (k : nat)
    (s : State) : State :=
  let path := filepath.Join [config.StorageDir (handlers.uploader h); Filename fh] in
  let t2 := <[os.node dst := FileE (take k (content fh))]> t1 in
  let tr := trace s ++ [PartOpen fh; SysCreate (os.dir root) (Filename fh);
                        SysWrite (os.node dst) (length (take k (content fh)));
                        PartClose fh; SysClose (os.node dst); SysRemove path] in
  let l := {| format := "%s: %v\n"; args := [LStr (msgWrite fh); LErr ErrCopy] |} in
  match os.remove t2 (cwd s) path with
  | Ok t3 =>
      {| fs := t3; cwd := cwd s; mapOrder := mapOrder s; w := w s;
         logged := logged s ++ [l]; trace := tr |}
  | Err e =>
      {| fs := t2; cwd := cwd s; mapOrder := mapOrder s; w := w s;
         logged := logged s
                   ++ [l; {| format := "failed to remove partial file '%s': %v";
                             args := [LStr (Filename fh); LErr e] |}];
         trace := tr |}
  end.

(** What a run keeps of the state, and the parts it opens. *)
Definition opens (l : list FileHeader) (s s' : State) : Prop :=
  w s' = w s ∧ cwd s' = cwd s ∧ mapOrder s' = mapOrder s
  ∧ opened (trace s') = opened (trace s) ++ l.

(** An element [filepath.Clean] keeps: a name or "..". *)
Definition kept (c : string) : Prop := c ≠ "" ∧ c ≠ "." ∧ noSlash c = true.

(** ** A small host, for the examples *)

Definition bytes (s : string) : list byte := list_byte_of_string s.

(** A host with the server's directory [/srv], a storage directory with one
    file and one sub-directory, and a file outside of it. *)
Definition hostFs : gmap (list string) entry :=
  <[["srv"; "storage"; "sub"; "b.txt"] := FileE (bytes "bye")]>
    (<[["srv"; "storage"; "sub"] := DirE true]>
       (<[["srv"; "storage"; "a.txt"] := FileE (bytes "hello")]>
          (<[["srv"; "storage"] := DirE true]>
             (<[["etc"; "passwd"] := FileE (bytes "root:x:0:0")]>
                (<[["etc"] := DirE true]>
                   (<[["srv"] := DirE true]> (<[[] := DirE true]> ∅))))))).

(** The same host before anything was stored. *)
Definition emptyHostFs : gmap (list string) entry :=
  <[["srv"] := DirE true]> (<[[] := DirE true]> ∅).

Definition hostState (t : gmap (list string) entry) (order : list string) : State :=
  {| fs := t; cwd := ["srv"]; mapOrder := order; w := newResponse;
     logged := []; trace := [] |}.

Definition noBody : ReqBody :=
  {| carried := NotForm; wireLen := 0; limit := None |}.

Definition GET (path : string) : Request :=
  {| Method := "GET"; Path := path; RemoteAddr := "192.0.2.1:4000"; Body := noBody |}.

Definition filePart (field name data : string) : Part :=
  {| FormName := field; FileName := name; Data := bytes data;
     spoolLost := false; breaksAt := None |}.

Definition POST (path : string) (parts : list Part) : Request :=
  {| Method := "POST"; Path := path; RemoteAddr := "192.0.2.1:4000";
     Body := {| carried := FormData parts; wireLen := 4096; limit := None |} |}.

Definition theHandlers : handlers.Handlers := handlers.NewHandlers defaultConfig.
Definition theServer : server.Server := server.NewServer defaultConfig.

(** The host of the server with a configuration file that does not parse,
    and a YAML decoder that rejects it. *)
Definition misconfiguredFs : gmap (list string) entry :=
  <[["srv"; "fileserver.yaml"] := FileE (bytes "server: [")]> emptyHostFs.

Definition strictYAML (data : list byte) (cfg : config.Config)
  : result config.Config :=
  if bool_decide (string_of_list_byte data = "server: [")
  then Err (ErrYAML "yaml: line 1: did not find expected node content")
  else Ok cfg.

(** A body with one file in each of two fields. *)
Definition twoFields : list Part :=
  [filePart "first" "1.txt" "one"; filePart "second" "2.txt" "two"].

(** A part whose copy breaks after two bytes. *)
Definition brokenHeader : FileHeader :=
  {| Filename := "big.bin"; content := bytes "0123456789";
     openErr := false; copyFault := Some 2 |}.

Definition storageRoot : os.Root := {| os.dir := ["srv"; "storage"] |}.

(** ** Further notions used in the statements *)

(** The state a handler leaves when it answers with [resp] after the calls
    [tr], without touching the file system. *)
Definition answered (r : Request) (resp : Response) (tr : list event)
    (s : State) : State :=
  {| fs := fs s; cwd := cwd s; mapOrder := mapOrder s; w := resp;
     logged := logged s ++ [received r]; trace := tr |}.

(** The response of an upload without a failed part. *)
Definition uploadedResponse : Response :=
  {| header := <["Content-Type" := "text/plain; charset=utf-8"]> ∅;
     status := Some 200%Z;
     body := list_byte_of_string ("All files uploaded successfully" +:+ LF) |}.

(** The response of an upload that recorded the messages [errs]. *)
Definition uploadResponse (errs : list string) : Response :=
  match errs with
  | [] => uploadedResponse
  | _ => match json.MarshalIndent errs with
         | Ok doc => errorResponse doc 207
         | Err _ => errorResponse "" 207
         end
  end.

(** The body of a POST is a form that [MaxBytesReader] lets through. *)
Definition withinLimit (h : handlers.Handlers) (r : Request) : Prop :=
  (wireLen (Body r)
   ≤ Z.max 0 (config.GetMaxUploadSize (handlers.uploader h)))%Z.

(** The state in which the loops of [UploadHandler] start: the storage
    directory has been made, leaving the file system [t1], and a root opened
    on it. *)
Definition loopStart (h : handlers.Handlers) (r : Request)
    (t1 : gmap (list string) entry) (s : State) : State :=
  {| fs := t1; cwd := cwd s; mapOrder := mapOrder s; w := newResponse;
     logged := logged s ++ [received r];
     trace := [SysMkdirAll (config.StorageDir (handlers.uploader h));
               SysOpenRoot (config.StorageDir (handlers.uploader h))] |}.

(** The handles of uploaded parts a handler closed, in order. *)
Fixpoint closed (tr : list event) : list FileHeader :=
  match tr with
  | [] => []
  | PartClose fh :: rest => fh :: closed rest
  | _ :: rest => closed rest
  end.

(** The files of the host a handler wrote to, and those it closed. *)
Fixpoint written (tr : list event) : list (list string) :=
  match tr with
  | [] => []
  | SysWrite f _ :: rest => f :: written rest
  | _ :: rest => written rest
  end.

Fixpoint filesClosed (tr : list event) : list (list string) :=
  match tr with
  | [] => []
  | SysClose f :: rest => f :: filesClosed rest
  | _ :: rest => filesClosed rest
  end.

(** The calls that can change the host's file system. *)
Definition mutates (e : event) : bool :=
  match e with
  | SysMkdirAll _ | SysCreate _ _ | SysWrite _ _ | SysRemove _
  | SysOpenFile _ => true
  | _ => false
  end.

(** The status codes the server's own code and its mux answer with. *)
Definition statusCodes : list Z := [200; 207; 301; 400; 404; 405; 500]%Z.

(** A host whose storage path is taken by a regular file. *)
Definition blockedFs : gmap (list string) entry :=
  <[["srv"; "storage"] := FileE (bytes "not a directory")]> emptyHostFs.

(** A part whose spooled content is gone. *)
Definition lostPart (field name data : string) : Part :=
  {| FormName := field; FileName := name; Data := bytes data;
     spoolLost := true; breaksAt := None |}.

Definition request (method path : string) (b : ReqBody) : Request :=
  {| Method := method; Path := path; RemoteAddr := "192.0.2.1:4000"; Body := b |}.

(** The five ways in which [UploadHandler] ends, with the state it leaves:
    the method is not POST; the body does not parse; the storage directory
    cannot be made; no root can be opened on it; the loops have run. *)
Inductive uploadOutcome (h : handlers.Handlers) (r : Request) (s : State)
  : State → Prop :=
  | UploadNotPost :
      Method r ≠ "POST" →
      uploadOutcome h r s
        (answered r (errorResponse "method must be POST" 405) [BodyDiscard] s)
  | UploadNotParsed s' :
      Method r = "POST" →
      carried (Body r) = NotForm ∨ ¬ withinLimit h r →
      status (w s') = Some 500%Z → fs s' = fs s → trace s' = [BodyDiscard] →
      cwd s' = cwd s →
      (∃ e, logged s'
            = logged s ++ [received r;
                           {| format := "error multipart parsing: %v\n";
                              args := [LErr e] |}]) →
      uploadOutcome h r s s'
  | UploadNoDirectory parts e s' :
      Method r = "POST" →
      carried (Body r) = FormData parts →
      withinLimit h r →
      os.mkdirAll (fs s) (cwd s) (config.StorageDir (handlers.uploader h)) = Err e →
      w s' = errorResponse "internal error" 500 → fs s' = fs s →
      trace s' = [SysMkdirAll (config.StorageDir (handlers.uploader h));
                  BodyDiscard] →
      cwd s' = cwd s →
      logged s'
      = logged s ++ [received r;
                     {| format := "error creating file directory: %v\n";
                        args := [LErr e] |}] →
      uploadOutcome h r s s'
  | UploadNoRoot parts t1 e s' :
      Method r = "POST" →
      carried (Body r) = FormData parts →
      withinLimit h r →
      os.mkdirAll (fs s) (cwd s) (config.StorageDir (handlers.uploader h)) = Ok t1 →
      os.openRoot t1 (cwd s) (config.StorageDir (handlers.uploader h)) = Err e →
      w s' = errorResponse "internal error" 500 → fs s' = t1 →
      trace s' = [SysMkdirAll (config.StorageDir (handlers.uploader h));
                  SysOpenRoot (config.StorageDir (handlers.uploader h));
                  BodyDiscard] →
      cwd s' = cwd s →
      logged s'
      = logged s ++ [received r;
                     {| format := "error root opening: %v\n";
                        args := [LErr e] |}] →
      uploadOutcome h r s s'
  | UploadLooped parts t1 root errs s1 :
      Method r = "POST" →
      carried (Body r) = FormData parts →
      withinLimit h r →
      os.mkdirAll (fs s) (cwd s) (config.StorageDir (handlers.uploader h)) = Ok t1 →
      os.openRoot t1 (cwd s) (config.StorageDir (handlers.uploader h)) = Ok root →
      handlers.uploadFiles h root (multipart.File (multipart.readForm parts))
        (loopStart h r t1 s) = (errs, s1) →
      uploadOutcome h r s
        {| fs := fs s1; cwd := cwd s1; mapOrder := mapOrder s1;
           w := uploadResponse errs; logged := logged s1;
           trace := trace s1 ++ [SysRootClose (os.dir root); BodyDiscard] |}.


(** The parser keeps the file parts of the request's form in memory, so
    that it makes no temporary file. *)
Definition inMemory (h : handlers.Handlers) (r : Request) : Prop :=
  ∀ parts, carried (Body r) = FormData parts →
           multipart.keptInMemory
             (config.GetMaxFormMemSize (handlers.uploader h)) parts = true.

(** A file name as [filepath.Base] gives it: "/" or a non-empty string
    without a separator. *)
Definition baseName (name : string) : Prop :=
  name = "/" ∨ (name ≠ "" ∧ noSlash name = true).

(** The rounds of the loops of [UploadHandler]: the file headers with the
    field they came under, in the order of processing, and the messages and
    the state before the first round and after the last. *)
Inductive rounds (h : handlers.Handlers) (root : os.Root)
  : list (string * FileHeader) → list string → State
    → list string → State → Prop :=
  | rounds_nil errs s : rounds h root [] errs s errs s
  | rounds_cons fieldName fh l errs s errs1 s1 errs' s' :
      handlers.uploadFile h root fieldName fh errs s = (errs1, s1) →
      rounds h root l errs1 s1 errs' s' →
      rounds h root ((fieldName, fh) :: l) errs s errs' s'.

(** The file headers of the fields, each with the name of its field. *)
Definition tagged (fields : list (string * list FileHeader))
  : list (string * FileHeader) :=
  flat_map (λ '(fieldName, fileHeaders), map (pair fieldName) fileHeaders) fields.

(** The state a download of the directory [p] leaves: the headers are
    sent, nothing can be read, and the failure is logged. *)
Definition directoryAnswer (h : handlers.Handlers) (r : Request)
    (root : os.Root) (p : list string) (s : State) : State :=
  let fileName := strings.TrimPrefix (Path r) "/download/" in
  {| fs := fs s; cwd := cwd s; mapOrder := mapOrder s;
     w := downloadResponse fileName os.dirSize [];
     logged := logged s ++ [received r;
                            {| format := "Error transferring file %s: %v";
                               args := [LStr fileName; LErr EISDIR] |}];
     trace := [SysOpenRoot (config.StorageDir (handlers.uploader h));
               SysOpen (os.dir root) fileName;
               SysStat p; SysRead p; SysClose p; SysRootClose (os.dir root);
               BodyDiscard] |}.

(** The ways in which [DownloadHandle] ends, with the state it leaves. *)
Inductive downloadOutcome (h : handlers.Handlers) (r : Request) (s : State)
  : State → Prop :=
  | DownloadNotGet :
      Method r ≠ "GET" →
      downloadOutcome h r s
        (answered r (errorResponse "method must be GET" 405) [BodyDiscard] s)
  | DownloadNoName :
      Method r = "GET" →
      strings.TrimPrefix (Path r) "/download/" = "" →
      downloadOutcome h r s
        (answered r (errorResponse "file name is not indicated" 400)
           [BodyDiscard] s)
  | DownloadNoRoot e :
      Method r = "GET" →
      strings.TrimPrefix (Path r) "/download/" ≠ "" →
      os.openRoot (fs s) (cwd s) (config.StorageDir (handlers.uploader h)) = Err e →
      downloadOutcome h r s
        (answered r (errorResponse "internal error" 500)
           [SysOpenRoot (config.StorageDir (handlers.uploader h)); BodyDiscard] s)
  | DownloadNotFound root e :
      Method r = "GET" →
      strings.TrimPrefix (Path r) "/download/" ≠ "" →
      os.openRoot (fs s) (cwd s) (config.StorageDir (handlers.uploader h)) = Ok root →
      os.open (fs s) root (strings.TrimPrefix (Path r) "/download/") = Err e →
      downloadOutcome h r s
        (answered r (errorResponse "file is not found" 404)
           [SysOpenRoot (config.StorageDir (handlers.uploader h));
            SysOpen (os.dir root) (strings.TrimPrefix (Path r) "/download/");
            SysRootClose (os.dir root); BodyDiscard] s)
  | DownloadFile root p data :
      Method r = "GET" →
      strings.TrimPrefix (Path r) "/download/" ≠ "" →
      os.openRoot (fs s) (cwd s) (config.StorageDir (handlers.uploader h)) = Ok root →
      rootWalk (fs s) (os.dir root) (strings.TrimPrefix (Path r) "/download/")
        = Ok p →
      fs s !! p = Some (FileE data) →
      downloadOutcome h r s
        (answered r
           (downloadResponse (strings.TrimPrefix (Path r) "/download/")
              (Z.of_nat (List.length data)) data)
           [SysOpenRoot (config.StorageDir (handlers.uploader h));
            SysOpen (os.dir root) (strings.TrimPrefix (Path r) "/download/");
            SysStat p; SysRead p; SysClose p; SysRootClose (os.dir root);
            BodyDiscard] s)
  | DownloadDirectory root p wr :
      Method r = "GET" →
      strings.TrimPrefix (Path r) "/download/" ≠ "" →
      os.openRoot (fs s) (cwd s) (config.StorageDir (handlers.uploader h)) = Ok root →
      rootWalk (fs s) (os.dir root) (strings.TrimPrefix (Path r) "/download/")
        = Ok p →
      fs s !! p = Some (DirE wr) →
      downloadOutcome h r s (directoryAnswer h r root p s).

(** The ways in which [DownloadList] ends. *)
Inductive listOutcome (h : handlers.Handlers) (r : Request) (s : State)
  : State → Prop :=
  | ListNotGet :
      Method r ≠ "GET" →
      listOutcome h r s
        (answered r (errorResponse "method must be GET" 405) [BodyDiscard] s)
  | ListNoDirectory e :
      Method r = "GET" →
      os.readDir (fs s) (cwd s) (config.StorageDir (handlers.uploader h)) = Err e →
      listOutcome h r s
        (answered r (errorResponse "internal error" 500)
           [SysReadDir (config.StorageDir (handlers.uploader h)); BodyDiscard] s)
  | ListSent files :
      Method r = "GET" →
      os.readDir (fs s) (cwd s) (config.StorageDir (handlers.uploader h)) = Ok files →
      listOutcome h r s
        (answered r (listResponse files)
           [SysReadDir (config.StorageDir (handlers.uploader h)); BodyDiscard] s).

(** The three registrations of [NewServer]. *)
Definition uploadRoute (cfg : config.Config) : http.muxEntry :=
  {| http.pattern := "/upload";
     http.handler := handlers.UploadHandler (handlers.NewHandlers cfg) |}.
Definition downloadRoute (cfg : config.Config) : http.muxEntry :=
  {| http.pattern := "/download/";
     http.handler := handlers.DownloadHandle (handlers.NewHandlers cfg) |}.
Definition listRoute (cfg : config.Config) : http.muxEntry :=
  {| http.pattern := "/download/list.txt";
     http.handler := handlers.DownloadList (handlers.NewHandlers cfg) |}.

(** Where a canonical path leads. *)
Definition routeOf (cfg : config.Config) (path : string) : http.route :=
  if bool_decide (path = "/upload") then http.RouteHandler (uploadRoute cfg)
  else if bool_decide (path = "/download/list.txt")
       then http.RouteHandler (listRoute cfg)
  else if strings.HasPrefix path "/download/"
       then http.RouteHandler (downloadRoute cfg)
  else if bool_decide (path = "/download") then http.RouteRedirect "/download/"
  else http.RouteNotFound.

(** What [http.Redirect] leaves in a fresh response writer for a GET. *)
Definition redirectResponse (url : string) : Response :=
  {| header := <["Content-Type" := "text/html; charset=utf-8"]>
                 (<["Location" := url]> ∅);
     status := Some 301%Z;
     body := list_byte_of_string
               ("<a href=" +:+ QUOTE +:+ http.htmlEscape url +:+ QUOTE +:+ ">"
                  +:+ "Moved Permanently" +:+ "</a>." +:+ LF +:+ LF) |}.

(** The state the mux leaves when it answers by itself. *)
Definition muxAnswer (resp : Response) (s : State) : State :=
  {| fs := fs s; cwd := cwd s; mapOrder := mapOrder s; w := resp;
     logged := logged s; trace := [] |}.

(** A part whose file name names no entry: [filepath.Base] leaves "..". *)
Definition dotDotPart : Part :=
  {| FormName := "file"; FileName := "docs/.."; Data := bytes "x";
     spoolLost := false; breaksAt := None |}.

(** * Properties *)

(** ** Strings and paths *)

Lemma SplitSlash_not_nil s : strings.SplitSlash s ≠ [].
Proof.
  destruct s as [|c r]; simpl; [done|].
  destruct (isSlash c); [done|]. by destruct (strings.SplitSlash r).
Qed.

Lemma SplitSlash_noSlash s : noSlash s = true → strings.SplitSlash s = [s].
Proof.
  induction s as [|c r IH]; simpl; [done|].
  intros [Hc Hr]%andb_prop. apply negb_true_iff in Hc. rewrite Hc.
  by rewrite (IH Hr).
Qed.

Lemma SplitSlash_Forall s : Forall (λ x, noSlash x = true) (strings.SplitSlash s).
Proof.
  induction s as [|c r IH]; simpl.
  - by constructor.
  - destruct (isSlash c) eqn:Hc.
    + by constructor.
    + destruct (strings.SplitSlash r) as [|x xs]; simpl.
      * constructor; [|done]. simpl. by rewrite Hc.
      * inversion IH; subst. constructor; [|done]. simpl. by rewrite Hc.
Qed.

Lemma SplitSlash_app a b :
  strings.SplitSlash (a +:+ "/" +:+ b)
  = strings.SplitSlash a ++ strings.SplitSlash b.
Proof.
  induction a as [|c r IH]; simpl.
  - done.
  - destruct (isSlash c); [by rewrite IH|].
    rewrite IH. destruct (strings.SplitSlash r) as [|x xs] eqn:E; [|done].
    by destruct (SplitSlash_not_nil r).
Qed.

Lemma last_Forall {A} (P : A → Prop) l d :
  l ≠ [] → Forall P l → P (List.last l d).
Proof.
  induction l as [|x [|y l] IH]; intros Hn Hf; [done| |].
  - by inversion Hf.
  - inversion Hf; subst. by apply IH.
Qed.

(** [filepath.Base] gives "/" or a non-empty name without a separator. *)
Lemma Base_shape p :
  filepath.Base p = "/"
  ∨ (filepath.Base p ≠ "" ∧ noSlash (filepath.Base p) = true).
Proof.
  unfold filepath.Base. case_bool_decide; [by right|].
  case_bool_decide; [by left|]. right. split; [done|].
  apply (last_Forall (λ x, noSlash x = true));
    [apply SplitSlash_not_nil|apply SplitSlash_Forall].
Qed.

Lemma strip_noSlash name :
  noSlash name = true → filepath.stripTrailingSlashes name = name.
Proof.
  induction name as [|c r IH]; [done|]. simpl.
  intros [Hc Hr]%andb_prop. apply negb_true_iff in Hc.
  by rewrite Hc, (IH Hr).
Qed.

Lemma strip_app a b :
  b ≠ "" → filepath.stripTrailingSlashes b = b →
  filepath.stripTrailingSlashes (a +:+ b) = a +:+ b.
Proof.
  intros Hb Hs. induction a as [|c r IH]; [done|]. simpl. rewrite IH.
  rewrite (bool_decide_eq_false_2 (r +:+ b = "")).
  - by rewrite andb_false_r.
  - destruct r; simpl; [done|discriminate].
Qed.

(** The base of a path that ends in a name is that name. *)
Lemma Base_dir_name d name :
  name ≠ "" → noSlash name = true → filepath.Base (d +:+ "/" +:+ name) = name.
Proof.
  intros Hne Hs. unfold filepath.Base.
  rewrite bool_decide_eq_false_2 by (destruct d; simpl; discriminate).
  rewrite strip_app.
  - rewrite SplitSlash_app, (SplitSlash_noSlash _ Hs), last_last.
    by rewrite bool_decide_eq_false_2.
  - discriminate.
  - change (filepath.stripTrailingSlashes ("/" +:+ name))
      with (if isSlash "/" && bool_decide (filepath.stripTrailingSlashes name = "")
            then "" else String "/" (filepath.stripTrailingSlashes name)).
    rewrite (strip_noSlash _ Hs).
    by rewrite (bool_decide_eq_false_2 (name = "")).
Qed.

Lemma last_SplitSlash_empty s :
  List.last (strings.SplitSlash s) "" = "" → s = "" ∨ endsWithSlash s = true.
Proof.
  induction s as [|c r IH]; [by left|]. intros H. right.
  change (strings.SplitSlash (String c r))
    with (if isSlash c then "" :: strings.SplitSlash r
          else match strings.SplitSlash r with
               | x :: xs => String c x :: xs
               | [] => [String c ""]
               end) in H.
  pose proof (SplitSlash_not_nil r) as Hnil.
  destruct (isSlash c) eqn:Hc.
  - destruct (strings.SplitSlash r) as [|x xs] eqn:E; [done|].
    change (List.last ("" :: x :: xs) "") with (List.last (x :: xs) "") in H.
    destruct (IH H) as [->|Hr]; [done|]. by destruct r.
  - destruct (strings.SplitSlash r) as [|x [|y xs]] eqn:E; [done|done|].
    change (List.last (String c x :: y :: xs) "") with (List.last (x :: y :: xs) "") in H.
    destruct (IH H) as [->|Hr]; [done|]. by destruct r.
Qed.

Lemma strip_not_endsWithSlash p :
  endsWithSlash (filepath.stripTrailingSlashes p) = false.
Proof.
  induction p as [|c r IH]; [done|].
  change (filepath.stripTrailingSlashes (String c r))
    with (if isSlash c && bool_decide (filepath.stripTrailingSlashes r = "")
          then "" else String c (filepath.stripTrailingSlashes r)).
  destruct (isSlash c) eqn:Hc; cbn [andb].
  - case_bool_decide as Hr; [done|].
    by destruct (filepath.stripTrailingSlashes r).
  - destruct (filepath.stripTrailingSlashes r) eqn:E; [by cbn|done].
Qed.

Lemma strip_empty p :
  filepath.stripTrailingSlashes p = "" → p = "" ∨ strings.HasPrefix p "/" = true.
Proof.
  destruct p as [|c r]; [by left|]. intros H. right.
  change (filepath.stripTrailingSlashes (String c r))
    with (if isSlash c && bool_decide (filepath.stripTrailingSlashes r = "")
          then "" else String c (filepath.stripTrailingSlashes r)) in H.
  destruct (isSlash c) eqn:Hc; [|done].
  unfold isSlash in Hc.
  change (strings.HasPrefix (String c r) "/") with (Ascii.eqb "/" c && true).
  by rewrite Ascii.eqb_sym, Hc.
Qed.

(** [filepath.Base] gives "/" only for a path that begins with a
    separator. *)
Lemma Base_root p : filepath.Base p = "/" → strings.HasPrefix p "/" = true.
Proof.
  unfold filepath.Base. case_bool_decide as Hp; [done|].
  case_bool_decide as Hl.
  - intros _. apply last_SplitSlash_empty in Hl as [Hl|Hl].
    + by destruct (strip_empty _ Hl).
    + by rewrite strip_not_endsWithSlash in Hl.
  - intros H.
    pose proof (last_Forall (λ x, noSlash x = true) _ ""
                  (SplitSlash_not_nil (filepath.stripTrailingSlashes p))
                  (SplitSlash_Forall _)) as Hns.
    cbn beta in Hns. by rewrite H in Hns.
Qed.

(** The base of a plain name is the name. *)
Lemma Base_name name :
  name ≠ "" → noSlash name = true → filepath.Base name = name.
Proof.
  intros Hne Hs. unfold filepath.Base.
  rewrite bool_decide_eq_false_2 by done.
  rewrite (strip_noSlash _ Hs), (SplitSlash_noSlash _ Hs). cbn.
  by rewrite bool_decide_eq_false_2.
Qed.

Lemma noSlash_HasPrefix s : noSlash s = true → strings.HasPrefix s "/" = false.
Proof.
  destruct s as [|c r]; [done|]. simpl noSlash. intros [Hc _]%andb_prop.
  apply negb_true_iff in Hc. unfold isSlash in Hc.
  unfold strings.HasPrefix. by rewrite Ascii.eqb_sym, Hc.
Qed.

Lemma noSlash_endsWithSlash s : noSlash s = true → endsWithSlash s = false.
Proof.
  induction s as [|c r IH]; [done|]. simpl. intros [Hc Hr]%andb_prop.
  apply negb_true_iff in Hc. destruct r; [done|]. by apply IH.
Qed.

Lemma endsWithSlash_app a b : b ≠ "" → endsWithSlash (a +:+ b) = endsWithSlash b.
Proof.
  intros Hb. induction a as [|c r IH]; [done|]. simpl.
  destruct (r +:+ b) eqn:E; [|done].
  destruct r; simpl in E; [done|discriminate].
Qed.

Lemma append_inj_l a b c : a +:+ b = a +:+ c → b = c.
Proof. induction a as [|x a IH]; simpl; [done|]. intros [=]. auto. Qed.

Lemma SplitSlash_download name :
  noSlash name = true →
  strings.SplitSlash ("/download/" +:+ name) = [""; "download"; name].
Proof.
  intros Hs. change ("/download/" +:+ name) with ("/download" +:+ "/" +:+ name).
  by rewrite SplitSlash_app, (SplitSlash_noSlash _ Hs).
Qed.

Lemma cleanStep_name rooted stack name :
  isName name → filepath.cleanStep rooted stack name = name :: stack.
Proof.
  intros (Hne & Hd & Hdd & Hs). unfold filepath.cleanStep.
  rewrite (bool_decide_eq_false_2 (name = "" ∨ name = "."))
    by (intros [?|?]; done).
  by rewrite (bool_decide_eq_false_2 (name = "..")).
Qed.

Lemma Clean_download name :
  isName name → filepath.Clean ("/download/" +:+ name) = "/download/" +:+ name.
Proof.
  intros Hn. pose proof Hn as (Hne & Hd & Hdd & Hs). unfold filepath.Clean.
  rewrite bool_decide_eq_false_2 by done.
  change (strings.HasPrefix ("/download/" +:+ name) "/") with true. cbv iota zeta.
  rewrite (SplitSlash_download _ Hs).
  unfold filepath.cleanElems. simpl fold_left.
  by rewrite (cleanStep_name _ _ _ Hn).
Qed.

(** The mux finds the path of a download of a plain name canonical. *)
Lemma cleanPath_download name :
  isName name → http.cleanPath ("/download/" +:+ name) = "/download/" +:+ name.
Proof.
  intros Hn. pose proof Hn as (Hne & Hd & Hdd & Hs). unfold http.cleanPath.
  rewrite bool_decide_eq_false_2 by done.
  change (strings.HasPrefix ("/download/" +:+ name) "/") with true. cbv iota.
  rewrite (endsWithSlash_app "/download/" name Hne), (noSlash_endsWithSlash _ Hs).
  simpl andb. cbv iota. by apply Clean_download.
Qed.

Lemma length_list_byte_of_string s :
  length (list_byte_of_string s) = String.length s.
Proof.
  unfold list_byte_of_string. rewrite length_map.
  induction s as [|c r IH]; simpl; [done|]. by rewrite IH.
Qed.

Lemma list_byte_of_string_inj a b :
  list_byte_of_string a = list_byte_of_string b → a = b.
Proof.
  intros H. rewrite <- (string_of_list_byte_of_string a),
    <- (string_of_list_byte_of_string b). by rewrite H.
Qed.

Lemma append_assoc a b c : (a +:+ b) +:+ c = a +:+ (b +:+ c).
Proof.
  induction a as [|x a IH]; [done|]. exact (f_equal (String x) IH).
Qed.

Lemma append_empty_r a : a +:+ "" = a.
Proof.
  induction a as [|x a IH]; [done|]. exact (f_equal (String x) IH).
Qed.

Lemma writeNames_lines files sb :
  handlers.writeNames files sb = sb +:+ lines files.
Proof.
  revert sb. induction files as [|f files IH]; intros sb.
  - symmetry. apply append_empty_r.
  - change (handlers.writeNames (f :: files) sb)
      with (handlers.writeNames files (sb +:+ f +:+ LF)).
    rewrite IH. change (lines (f :: files)) with (f +:+ LF +:+ lines files).
    by rewrite !append_assoc.
Qed.

(** ** The file system *)

Lemma step_Ok t j cur c p :
  step t j cur c = Ok p ↔ isDir t cur = true ∧ move j cur c = Ok p.
Proof.
  unfold step, isDir. destruct (t !! cur) as [[d|wr]|]; split; try done.
  - by intros [? _].
  - by intros [_ ?].
  - by intros [? _].
Qed.

Lemma walk_sameDirs t t' j cur l p :
  sameDirs t t' → walk t j cur l = Ok p → walk t' j cur l = Ok p.
Proof.
  intros Hd. revert cur. induction l as [|c l IH]; intros cur; simpl; [done|].
  destruct (step t j cur c) as [q|e] eqn:E; [|done].
  apply step_Ok in E as [E1 E2]. rewrite (Hd cur) in E1.
  assert (step t' j cur c = Ok q) as -> by (apply step_Ok; done). apply IH.
Qed.

Lemma walk_app t j cur l1 l2 :
  walk t j cur (l1 ++ l2)
  = match walk t j cur l1 with
    | Ok q => walk t j q l2
    | Err e => Err e
    end.
Proof.
  revert cur. induction l1 as [|c l1 IH]; intros cur; simpl; [done|].
  destruct (step t j cur c); [apply IH|done].
Qed.

Lemma sameDirs_refl t : sameDirs t t.
Proof. done. Qed.

Lemma sameDirs_sym t t' : sameDirs t t' → sameDirs t' t.
Proof. intros H p. by rewrite H. Qed.

Lemma sameDirs_trans t1 t2 t3 : sameDirs t1 t2 → sameDirs t2 t3 → sameDirs t1 t3.
Proof. intros H1 H2 p. by rewrite H1, H2. Qed.

Lemma sameDirs_insert_file (t : gmap (list string) entry) p d :
  isDir t p = false → sameDirs t (<[p := FileE d]> t).
Proof.
  intros Hp q. unfold isDir in *. destruct (decide (p = q)) as [->|Hne].
  - by rewrite lookup_insert_eq, Hp.
  - by rewrite lookup_insert_ne.
Qed.

Lemma sameDirs_delete_file (t : gmap (list string) entry) p :
  isDir t p = false → sameDirs t (delete p t).
Proof.
  intros Hp q. unfold isDir in *. destruct (decide (p = q)) as [->|Hne].
  - by rewrite lookup_delete_eq, Hp.
  - by rewrite lookup_delete_ne.
Qed.

Lemma hostWalk_sameDirs t t' cwd path p :
  sameDirs t t' → hostWalk t cwd path = Ok p → hostWalk t' cwd path = Ok p.
Proof.
  unfold hostWalk. intros Hd. case_bool_decide; [done|]. by apply walk_sameDirs.
Qed.

Lemma rootWalk_sameDirs t t' root name p :
  sameDirs t t' → rootWalk t root name = Ok p → rootWalk t' root name = Ok p.
Proof.
  unfold rootWalk. intros Hd. case_bool_decide; [done|].
  destruct (strings.HasPrefix name "/"); [done|]. by apply walk_sameDirs.
Qed.

Lemma isDir_true (t : gmap (list string) entry) p :
  isDir t p = true ↔ ∃ wr, t !! p = Some (DirE wr).
Proof.
  unfold isDir. destruct (t !! p) as [[?|?]|]; split; try done.
  - by intros [? ?].
  - by eexists.
  - by intros [? ?].
Qed.

Lemma openRoot_Ok t cwd path root :
  os.openRoot t cwd path = Ok root
  ↔ hostWalk t cwd path = Ok (os.dir root) ∧ isDir t (os.dir root) = true.
Proof.
  unfold os.openRoot, isDir. destruct root as [p]. simpl. split.
  - destruct (hostWalk t cwd path) as [q|e]; [|done].
    destruct (t !! q) as [[?|?]|] eqn:E; [done| |done].
    intros [= ->]. by rewrite E.
  - intros [-> H]. by destruct (t !! p) as [[?|?]|].
Qed.

Lemma openRoot_sameDirs t t' cwd path root :
  sameDirs t t' → os.openRoot t cwd path = Ok root → os.openRoot t' cwd path = Ok root.
Proof.
  intros Hd [H1 H2]%openRoot_Ok. apply openRoot_Ok. split.
  - by apply (hostWalk_sameDirs t).
  - by rewrite <- Hd.
Qed.

Lemma move_name j cur name : isName name → move j cur name = Ok (cur ++ [name]).
Proof.
  intros (Hne & Hd & Hdd & Hs). unfold move.
  rewrite (bool_decide_eq_false_2 (name = "" ∨ name = "."))
    by (intros [?|?]; done).
  by rewrite (bool_decide_eq_false_2 (name = "..")).
Qed.

(** A plain name given to a root denotes the entry of that name in it. *)
Lemma rootWalk_name t root name :
  isName name → isDir t root = true → rootWalk t root name = Ok (root ++ [name]).
Proof.
  intros Hn Hr. pose proof Hn as (Hne & Hd & Hdd & Hs). unfold rootWalk.
  rewrite bool_decide_eq_false_2 by done.
  rewrite (noSlash_HasPrefix _ Hs), (SplitSlash_noSlash _ Hs). simpl.
  assert (step t (Some root) root name = Ok (root ++ [name])) as ->; [|done].
  apply step_Ok. split; [done|]. by apply move_name.
Qed.

(** What a root makes of a name without a separator. *)
Lemma rootWalk_noSlash_inv t root name p :
  noSlash name = true → rootWalk t root name = Ok p →
  (name = "." ∧ p = root) ∨ (isName name ∧ p = root ++ [name]).
Proof.
  intros Hs. unfold rootWalk. case_bool_decide as Hne; [done|].
  rewrite (noSlash_HasPrefix _ Hs), (SplitSlash_noSlash _ Hs). simpl.
  destruct (step t (Some root) root name) as [q|e] eqn:E; [|done].
  intros [= ->]. apply step_Ok in E as [_ E]. unfold move in E.
  case_bool_decide as H1.
  - left. destruct H1 as [?|?]; [done|]. by injection E as <-.
  - case_bool_decide as H2.
    + by rewrite bool_decide_eq_true_2 in E.
    + right. injection E as <-. split; [|done].
      repeat split; [|intros ->; apply H1; by right|done|done].
      intros ->. apply H1. by left.
Qed.

Lemma create_Ok t root name f t' :
  os.create t root name = Ok (f, t') →
  rootWalk t (os.dir root) name = Ok (os.node f)
  ∧ isDir t (os.node f) = false
  ∧ t' = <[os.node f := FileE []]> t.
Proof.
  unfold os.create, isDir.
  destruct (rootWalk t (os.dir root) name) as [p|e]; [|done].
  destruct (t !! p) as [[d|wr]|] eqn:E.
  - intros [= <- <-]. simpl. by rewrite E.
  - done.
  - destruct (t !! removelast p) as [[?|[]]|]; try done.
    intros [= <- <-]. simpl. by rewrite E.
Qed.

Lemma open_Ok t root name f :
  os.open t root name = Ok f
  ↔ rootWalk t (os.dir root) name = Ok (os.node f) ∧ is_Some (t !! os.node f).
Proof.
  unfold os.open. destruct f as [p]. simpl.
  destruct (rootWalk t (os.dir root) name) as [q|e].
  - destruct (t !! q) eqn:E; split.
    + intros [= ->]. by rewrite E.
    + by intros [[= ->] _].
    + done.
    + intros [[= ->] [x Hx]]. congruence.
  - split; [done|]. by intros [? _].
Qed.

(** ** Running the handlers *)

Arguments os.mkdirAll : simpl never.
Arguments os.openRoot : simpl never.
Arguments os.create : simpl never.
Arguments os.open : simpl never.
Arguments os.stat : simpl never.
Arguments os.remove : simpl never.
Arguments os.readDir : simpl never.
Arguments os.readFile : simpl never.
Arguments os.openAppend : simpl never.
Arguments http.Error : simpl never.
Arguments filepath.Join : simpl never.
Arguments filepath.Base : simpl never.
Arguments strings.TrimPrefix : simpl never.
Arguments multipart.readForm : simpl never.
Arguments fmt.Sprint : simpl never.
Arguments list_byte_of_string : simpl never.
Arguments String.append : simpl never.
Arguments json.MarshalIndent : simpl never.
Arguments handlers.writeNames : simpl never.
Arguments rangeMap : simpl never.

Arguments setFs _ _ /.
Arguments setW _ _ /.
Arguments addLog _ _ /.
Arguments addEvent _ _ /.
Arguments accept _ /.

(** Unfolds the monad's operations and lets the state flow. *)
Ltac mrun :=
  repeat progress
    unfold defer, emit, getFs, getCwd, getW, putFs, putW, log.Printf,
      os.MkdirAll, os.OpenRoot, os.Root_Close, os.Root_Create, os.Root_Open,
      os.File_Stat, os.File_Close, os.Remove, os.ReadDir, os.ReadFile,
      os.OpenFile, multipart.FileHeader_Open, multipart.File_Close,
      http.Header_Set, http.Header_Del, http.WriteHeader, http.Write,
      http.ParseMultipartForm, io.CopyBuffer, io.Copy,
      handlers.cleanupRequest, mbind, M_bind, mret, M_ret;
  cbn.

(** [http.Error] on a response writer whose header was not sent yet. *)
Lemma Error_unsent msg code s :
  status (w s) = None →
  http.Error msg code s
  = (tt, setW {| header := <["X-Content-Type-Options" := "nosniff"]>
                             (<["Content-Type" := "text/plain; charset=utf-8"]>
                                (delete "Content-Length" (header (w s))));
                 status := Some code;
                 body := body (w s) ++ list_byte_of_string (msg +:+ LF) |} s).
Proof. intros Hw. unfold http.Error. mrun. rewrite Hw. cbn. done. Qed.

Lemma Error_run msg code s :
  w s = newResponse →
  http.Error msg code s = (tt, setW (errorResponse msg code) s).
Proof.
  intros Hw. rewrite Error_unsent by (by rewrite Hw). rewrite Hw.
  unfold errorResponse. cbn. do 3 f_equal.
Qed.

(** A download of a regular file, step by step. *)
Lemma DownloadHandle_file h r s root p data :
  Method r = "GET" →
  strings.TrimPrefix (Path r) "/download/" ≠ "" →
  os.openRoot (fs s) (cwd s) (config.StorageDir (handlers.uploader h)) = Ok root →
  rootWalk (fs s) (os.dir root) (strings.TrimPrefix (Path r) "/download/") = Ok p →
  fs s !! p = Some (FileE data) →
  serve (handlers.DownloadHandle h) r s
  = {| fs := fs s; cwd := cwd s; mapOrder := mapOrder s;
       w := downloadResponse (strings.TrimPrefix (Path r) "/download/")
              (Z.of_nat (length data)) data;
       logged := logged s ++ [received r];
       trace := [SysOpenRoot (config.StorageDir (handlers.uploader h));
                 SysOpen (os.dir root) (strings.TrimPrefix (Path r) "/download/");
                 SysStat p; SysRead p; SysClose p; SysRootClose (os.dir root);
                 BodyDiscard] |}.
Proof.
  intros Hm Hn Hr Hp Hd.
  assert (Ho : os.open (fs s) root (strings.TrimPrefix (Path r) "/download/")
               = Ok {| os.node := p |}).
  { apply open_Ok. simpl. split; [done|]. by rewrite Hd. }
  unfold serve, handlers.DownloadHandle, handlers.downloadPrefix.
  rewrite Hm. rewrite (bool_decide_eq_false_2 _ Hn).
  change (bool_decide ("GET" ≠ http.MethodGet)) with false.
  mrun. rewrite Hr. cbn. rewrite Ho. cbn.
  unfold os.stat. cbn. repeat (rewrite Hd; cbn).
  destruct data; reflexivity.
Qed.

(** ** The routes of the server *)

Lemma route_upload cfg r :
  Path r = "/upload" →
  http.findHandler (server.Handler (server.HTTP (server.NewServer cfg))) r
  = http.RouteHandler
      {| http.pattern := "/upload";
         http.handler := handlers.UploadHandler (handlers.NewHandlers cfg) |}.
Proof.
  intros Hp. unfold http.findHandler. rewrite Hp.
  by destruct (bool_decide (Method r = "CONNECT")).
Qed.

Lemma route_list cfg r :
  Path r = "/download/list.txt" →
  http.findHandler (server.Handler (server.HTTP (server.NewServer cfg))) r
  = http.RouteHandler
      {| http.pattern := "/download/list.txt";
         http.handler := handlers.DownloadList (handlers.NewHandlers cfg) |}.
Proof.
  intros Hp. unfold http.findHandler. rewrite Hp.
  by destruct (bool_decide (Method r = "CONNECT")).
Qed.

Lemma matchPath_download cfg rest :
  rest ≠ "list.txt" →
  http.matchPath (server.Handler (server.HTTP (server.NewServer cfg)))
    ("/download/" +:+ rest)
  = Some {| http.pattern := "/download/";
            http.handler := handlers.DownloadHandle (handlers.NewHandlers cfg) |}.
Proof.
  intros Hne. unfold http.matchPath. cbn [server.NewServer server.Handler
    server.HTTP http.HandleFunc http.NewServeMux app fold_left].
  unfold http.pick at 3. unfold http.patternMatches. cbn [http.pattern].
  change (endsWithSlash "/upload") with false. cbv iota.
  rewrite (bool_decide_eq_false_2 ("/download/" +:+ rest = "/upload")) by done.
  unfold http.pick at 2. unfold http.patternMatches. cbn [http.pattern].
  change (endsWithSlash "/download/") with true. cbv iota.
  change (strings.HasPrefix ("/download/" +:+ rest) "/download/") with true.
  cbv iota.
  unfold http.pick. unfold http.patternMatches. cbn [http.pattern].
  change (endsWithSlash "/download/list.txt") with false. cbv iota.
  rewrite (bool_decide_eq_false_2 ("/download/" +:+ rest = "/download/list.txt")).
  - done.
  - intros H. apply Hne. by apply (append_inj_l "/download/").
Qed.

Lemma route_download cfg r name :
  Method r = "GET" →
  Path r = "/download/" +:+ name →
  isName name → name ≠ "list.txt" →
  http.findHandler (server.Handler (server.HTTP (server.NewServer cfg))) r
  = http.RouteHandler
      {| http.pattern := "/download/";
         http.handler := handlers.DownloadHandle (handlers.NewHandlers cfg) |}.
Proof.
  intros Hm Hp Hn Hl. pose proof Hn as (Hne & _ & _ & Hs).
  unfold http.findHandler. rewrite Hm, Hp.
  change (bool_decide ("GET" = "CONNECT")) with false. cbv iota zeta.
  rewrite (cleanPath_download _ Hn).
  unfold http.matchOrRedirect.
  rewrite (matchPath_download cfg name Hl).
  assert (Hslash : ("/download/" +:+ name) +:+ "/" = "/download/" +:+ (name +:+ "/")).
  { done. }
  rewrite Hslash, (matchPath_download cfg (name +:+ "/")).
  2:{ intros H. apply (f_equal endsWithSlash) in H.
      by rewrite (endsWithSlash_app name "/") in H. }
  unfold http.exactMatch. cbn [http.pattern].
  change (endsWithSlash "/download/") with true. cbv iota.
  rewrite (bool_decide_eq_false_2 ("/download/" +:+ name = "/download/")).
  2:{ intros H. apply Hne. by apply (append_inj_l "/download/"). }
  rewrite (endsWithSlash_app "/download/" name Hne), (noSlash_endsWithSlash _ Hs).
  cbn [negb andb].
  rewrite (bool_decide_eq_false_2 ("/download/" +:+ (name +:+ "/") = "/download/")).
  2:{ intros H. apply (append_inj_l "/download/" _ "") in H. by destruct name. }
  rewrite (bool_decide_eq_false_2 (_ ≠ _)) by (intros H; by apply H).
  done.
Qed.

(** ** The upload handler rejects other methods *)

(** C5. Every request to /upload whose method is not POST is answered 405
    "method must be POST"; the handler makes no system call (no directory
    is made, no file created, nothing copied) and the file system is as
    before.  All it does besides answering is to log the request and to
    drain the body. *)
Theorem C5_upload_method_not_allowed cfg r s :
  Path r = "/upload" →
  Method r ≠ "POST" →
  let s' := serveHTTP (server.NewServer cfg) r s in
  w s' = errorResponse "method must be POST" 405
  ∧ trace s' = [BodyDiscard]
  ∧ fs s' = fs s
  ∧ logged s' = logged s ++ [received r].
Proof.
  intros Hp Hm. unfold serveHTTP, serve, http.ServeHTTP.
  rewrite (route_upload cfg r Hp). cbn [http.handler].
  unfold handlers.UploadHandler.
  rewrite (bool_decide_eq_true_2 (Method r ≠ http.MethodPost)) by done.
  mrun. by rewrite Error_run.
Qed.

Lemma C5_witness :
  let s' := serveHTTP theServer (GET "/upload") (hostState hostFs []) in
  w s' = errorResponse "method must be POST" 405
  ∧ trace s' = [BodyDiscard]
  ∧ fs s' = hostFs
  ∧ logged s' = [] ++ [received (GET "/upload")].
Proof.
  apply (C5_upload_method_not_allowed defaultConfig (GET "/upload")
           (hostState hostFs [])); [reflexivity | discriminate].
Defined.

(** ** The download handler *)

(** C6. A GET whose path leaves an empty name once the prefix "/download/"
    is stripped is answered 400 "file name is not indicated"; no root is
    opened, no file is opened or read. *)
Theorem C6_download_empty_name h r s :
  Method r = "GET" →
  strings.TrimPrefix (Path r) "/download/" = "" →
  let s' := serve (handlers.DownloadHandle h) r s in
  w s' = errorResponse "file name is not indicated" 400
  ∧ trace s' = [BodyDiscard]
  ∧ fs s' = fs s.
Proof.
  intros Hm Hn. unfold serve, handlers.DownloadHandle, handlers.downloadPrefix.
  rewrite Hm, Hn.
  change (bool_decide ("GET" ≠ http.MethodGet)) with false.
  change (bool_decide ("" = "")) with true.
  mrun. by rewrite Error_run.
Qed.

Lemma C6_witness :
  let s' := serve (handlers.DownloadHandle theHandlers) (GET "/download/")
              (hostState hostFs []) in
  w s' = errorResponse "file name is not indicated" 400
  ∧ trace s' = [BodyDiscard]
  ∧ fs s' = hostFs.
Proof.
  apply (C6_download_empty_name theHandlers (GET "/download/")
           (hostState hostFs [])); reflexivity.
Defined.

(** A name that begins with a separator escapes from every root. *)
Lemma open_absolute t root name e :
  strings.HasPrefix name "/" = true → os.open t root name = Err e →
  e = ErrPathEscapes.
Proof.
  unfold os.open, rootWalk. intros Hp.
  rewrite bool_decide_eq_false_2 by (by intros ->). rewrite Hp. by intros [= <-].
Qed.

(** A download whose [Open] fails, step by step. *)
Lemma DownloadHandle_open_failure h r s root e :
  Method r = "GET" →
  strings.TrimPrefix (Path r) "/download/" ≠ "" →
  os.openRoot (fs s) (cwd s) (config.StorageDir (handlers.uploader h)) = Ok root →
  os.open (fs s) root (strings.TrimPrefix (Path r) "/download/") = Err e →
  serve (handlers.DownloadHandle h) r s
  = {| fs := fs s; cwd := cwd s; mapOrder := mapOrder s;
       w := errorResponse "file is not found" 404;
       logged := logged s ++ [received r];
       trace := [SysOpenRoot (config.StorageDir (handlers.uploader h));
                 SysOpen (os.dir root) (strings.TrimPrefix (Path r) "/download/");
                 SysRootClose (os.dir root); BodyDiscard] |}.
Proof.
  intros Hm Hn Hr Ho. unfold serve, handlers.DownloadHandle, handlers.downloadPrefix.
  rewrite Hm, (bool_decide_eq_false_2 _ Hn).
  change (bool_decide ("GET" ≠ http.MethodGet)) with false.
  mrun. rewrite Hr. cbn. rewrite Ho. cbn. by rewrite Error_run.
Qed.

(** C3. When opening the name through the root fails, whatever the cause
    (the name escapes from the root, or no such file exists), the response
    is the one fixed 404 "file is not found"; the handler has made the
    calls [OpenRoot], [Open] and [Close] on the root and no other: nothing
    is stat'ed or read, and the file system is as before.  Any other
    download whose [Open] fails, for whatever cause, is answered with the
    same response. *)
Theorem C3_download_open_failure h r s root e :
  Method r = "GET" →
  strings.TrimPrefix (Path r) "/download/" ≠ "" →
  os.openRoot (fs s) (cwd s) (config.StorageDir (handlers.uploader h)) = Ok root →
  os.open (fs s) root (strings.TrimPrefix (Path r) "/download/") = Err e →
  let s' := serve (handlers.DownloadHandle h) r s in
  w s' = errorResponse "file is not found" 404
  ∧ trace s' = [SysOpenRoot (config.StorageDir (handlers.uploader h));
                SysOpen (os.dir root) (strings.TrimPrefix (Path r) "/download/");
                SysRootClose (os.dir root); BodyDiscard]
  ∧ fs s' = fs s
  ∧ ∀ h2 r2 s2 root2 e2,
      Method r2 = "GET" →
      strings.TrimPrefix (Path r2) "/download/" ≠ "" →
      os.openRoot (fs s2) (cwd s2) (config.StorageDir (handlers.uploader h2))
        = Ok root2 →
      os.open (fs s2) root2 (strings.TrimPrefix (Path r2) "/download/") = Err e2 →
      w (serve (handlers.DownloadHandle h2) r2 s2) = w s'.
Proof.
  intros Hm Hn Hr Ho s'. subst s'.
  rewrite (DownloadHandle_open_failure h r s root e Hm Hn Hr Ho). cbn.
  repeat split. intros h2 r2 s2 root2 e2 Hm2 Hn2 Hr2 Ho2.
  by rewrite (DownloadHandle_open_failure h2 r2 s2 root2 e2 Hm2 Hn2 Hr2 Ho2).
Qed.

Lemma C3_witness :
  let s1 := serve (handlers.DownloadHandle theHandlers)
              (GET "/download/../../etc/passwd") (hostState hostFs []) in
  let s2 := serve (handlers.DownloadHandle theHandlers)
              (GET "/download/missing.txt") (hostState hostFs []) in
  os.open hostFs storageRoot "../../etc/passwd" = Err ErrPathEscapes
  ∧ os.open hostFs storageRoot "missing.txt" = Err ENOENT
  ∧ w s1 = errorResponse "file is not found" 404
  ∧ trace s1 = [SysOpenRoot "storage";
                SysOpen ["srv"; "storage"] "../../etc/passwd";
                SysRootClose ["srv"; "storage"]; BodyDiscard]
  ∧ fs s1 = hostFs
  ∧ w s2 = w s1.
Proof.
  split; [reflexivity|]. split; [reflexivity|].
  destruct (C3_download_open_failure theHandlers (GET "/download/../../etc/passwd")
              (hostState hostFs []) storageRoot ErrPathEscapes)
    as (Hw & Htrace & Hfs & Hsame);
    [reflexivity | discriminate | reflexivity | reflexivity |].
  split; [exact Hw|]. split; [exact Htrace|]. split; [exact Hfs|].
  apply (Hsame theHandlers (GET "/download/missing.txt") (hostState hostFs [])
           storageRoot ENOENT);
    [reflexivity | discriminate | reflexivity | reflexivity].
Defined.

Lemma errorResponse_status msg code : status (errorResponse msg code) = Some code.
Proof. done. Qed.

(** C7. Every download answered 200 carries Content-Disposition
    "attachment; filename=" followed by the base name of the requested name
    (in which there is no path separator), Content-Type
    application/octet-stream, and as Content-Length the size [Stat] reported
    for the file that was opened. *)
Theorem C7_download_headers h r s :
  let fileName := strings.TrimPrefix (Path r) "/download/" in
  let s' := serve (handlers.DownloadHandle h) r s in
  status (w s') = Some 200%Z →
  ∃ root file size,
    os.openRoot (fs s) (cwd s) (config.StorageDir (handlers.uploader h)) = Ok root
    ∧ os.open (fs s) root fileName = Ok file
    ∧ os.stat (fs s) file = Ok size
    ∧ header (w s') !! "Content-Disposition"
      = Some ("attachment; filename=" +:+ filepath.Base fileName)
    ∧ noSlash (filepath.Base fileName) = true
    ∧ header (w s') !! "Content-Type" = Some "application/octet-stream"
    ∧ header (w s') !! "Content-Length" = Some (fmt.Sprint size).
Proof.
  intros fileName s'. subst s'.
  unfold serve, handlers.DownloadHandle, handlers.downloadPrefix.
  fold fileName.
  destruct (decide (Method r = "GET")) as [Hm|Hm].
  2:{ rewrite (bool_decide_eq_true_2 (Method r ≠ http.MethodGet)) by done.
      mrun. by rewrite Error_run. }
  rewrite (bool_decide_eq_false_2 (Method r ≠ http.MethodGet))
    by (intros H; by apply H).
  case_bool_decide as Hn.
  { mrun. by rewrite Error_run. }
  mrun.
  destruct (os.openRoot _ _ _) as [root|e] eqn:Hr; cbn.
  2:{ by rewrite Error_run. }
  destruct (os.open _ _ _) as [file|e] eqn:Ho; cbn.
  2:{ by rewrite Error_run. }
  destruct (os.stat _ _) as [size|e] eqn:Hst; cbn.
  2:{ by rewrite Error_run. }
  intros _. exists root, file, size.
  assert (Hbase : noSlash (filepath.Base fileName) = true).
  { destruct (Base_shape fileName) as [Hb|[_ ?]]; [|done].
    apply Base_root in Hb. apply open_Ok in Ho as [Ho _].
    unfold rootWalk in Ho. case_bool_decide; [done|]. by rewrite Hb in Ho. }
  repeat (split; [done|]). split; [|split; [done|split]].
  all: destruct (fs s !! os.node file) as [[[|b data]|wr]|]; cbn; done.
Qed.

Lemma C7_witness :
  let s' := serve (handlers.DownloadHandle theHandlers) (GET "/download/sub/b.txt")
              (hostState hostFs []) in
  ∃ root file size,
    os.openRoot hostFs ["srv"] "storage" = Ok root
    ∧ os.open hostFs root "sub/b.txt" = Ok file
    ∧ os.stat hostFs file = Ok size
    ∧ header (w s') !! "Content-Disposition"
      = Some ("attachment; filename=" +:+ filepath.Base "sub/b.txt")
    ∧ noSlash (filepath.Base "sub/b.txt") = true
    ∧ header (w s') !! "Content-Type" = Some "application/octet-stream"
    ∧ header (w s') !! "Content-Length" = Some (fmt.Sprint size).
Proof.
  apply (C7_download_headers theHandlers (GET "/download/sub/b.txt")
           (hostState hostFs [])). reflexivity.
Defined.

(** ** The list handler *)

(** The list handler, step by step, when the directory can be read. *)
Lemma DownloadList_run h r s files :
  Method r = "GET" →
  os.readDir (fs s) (cwd s) (config.StorageDir (handlers.uploader h)) = Ok files →
  serve (handlers.DownloadList h) r s
  = {| fs := fs s; cwd := cwd s; mapOrder := mapOrder s;
       w := listResponse files;
       logged := logged s ++ [received r];
       trace := [SysReadDir (config.StorageDir (handlers.uploader h));
                 BodyDiscard] |}.
Proof.
  intros Hm Hd. unfold serve, handlers.DownloadList.
  rewrite Hm. change (bool_decide ("GET" ≠ http.MethodGet)) with false.
  mrun. rewrite Hd. cbn. rewrite writeNames_lines. reflexivity.
Qed.

(** C8. The body of every list response answered 200 is the header line
    "Files currently available:" and then the names [os.ReadDir] returned,
    in that order, one per line, each closed by a newline; Content-Length is
    the length of that body and Content-Disposition names list.txt. *)
Theorem C8_list_document h r s :
  let s' := serve (handlers.DownloadList h) r s in
  status (w s') = Some 200%Z →
  ∃ files,
    os.readDir (fs s) (cwd s) (config.StorageDir (handlers.uploader h)) = Ok files
    ∧ body (w s')
      = list_byte_of_string ("Files currently available:" +:+ LF +:+ lines files)
    ∧ header (w s') !! "Content-Length"
      = Some (fmt.Sprint (Z.of_nat (length (body (w s')))))
    ∧ header (w s') !! "Content-Disposition" = Some "attachment; filename=list.txt".
Proof.
  intros s'. subst s'.
  destruct (decide (Method r = "GET")) as [Hm|Hm].
  2:{ unfold serve, handlers.DownloadList.
      rewrite (bool_decide_eq_true_2 (Method r ≠ http.MethodGet)) by done.
      mrun. by rewrite Error_run. }
  destruct (os.readDir (fs s) (cwd s) (config.StorageDir (handlers.uploader h)))
    as [files|e] eqn:Hd.
  2:{ unfold serve, handlers.DownloadList.
      rewrite Hm. change (bool_decide ("GET" ≠ http.MethodGet)) with false.
      mrun. rewrite Hd. cbn. by rewrite Error_run. }
  rewrite (DownloadList_run h r s files Hm Hd). cbn. intros _.
  exists files. repeat split.
  by rewrite length_list_byte_of_string.
Qed.

Lemma C8_witness :
  let s' := serve (handlers.DownloadList theHandlers) (GET "/download/list.txt")
              (hostState hostFs []) in
  ∃ files,
    os.readDir hostFs ["srv"] "storage" = Ok files
    ∧ body (w s')
      = list_byte_of_string ("Files currently available:" +:+ LF +:+ lines files)
    ∧ header (w s') !! "Content-Length"
      = Some (fmt.Sprint (Z.of_nat (length (body (w s')))))
    ∧ header (w s') !! "Content-Disposition" = Some "attachment; filename=list.txt".
Proof.
  apply (C8_list_document theHandlers (GET "/download/list.txt")
           (hostState hostFs [])). reflexivity.
Defined.

(** An entry of the directory a root is bound to is among the names
    [os.ReadDir] returns for it. *)
Lemma readDir_child (t : gmap (list string) entry) cwd path root name e :
  os.openRoot t cwd path = Ok root →
  t !! (os.dir root ++ [name]) = Some e →
  ∃ files, os.readDir t cwd path = Ok files ∧ name ∈ files.
Proof.
  intros [Hw Hd]%openRoot_Ok He. apply isDir_true in Hd as [wr Hd].
  unfold os.readDir. rewrite Hw, Hd. eexists. split; [done|].
  rewrite merge_sort_Permutation. apply list_elem_of_omap.
  exists (os.dir root ++ [name]). split.
  - apply elem_of_elements, elem_of_dom. by eexists.
  - unfold os.childName. rewrite bool_decide_eq_true_2.
    + by rewrite last_last.
    + split; [apply removelast_last|]. by destruct (os.dir root).
Qed.

(** C10. A request with path /download/list.txt is routed to the list
    handler, whatever its method, so the server answers it as the list
    handler does; when a file named list.txt is stored, a GET of that path
    is answered with the listing of the storage directory (in which the name
    list.txt appears), not with the file's content. *)
Theorem C10_list_route_shadows_file cfg r :
  Path r = "/download/list.txt" →
  http.findHandler (server.Handler (server.HTTP (server.NewServer cfg))) r
  = http.RouteHandler
      {| http.pattern := "/download/list.txt";
         http.handler := handlers.DownloadList (handlers.NewHandlers cfg) |}
  ∧ (∀ s, serveHTTP (server.NewServer cfg) r s
          = serve (handlers.DownloadList (handlers.NewHandlers cfg)) r s)
  ∧ (∀ s root data,
       Method r = "GET" →
       os.openRoot (fs s) (cwd s) (config.StorageDir (config.Uploader cfg)) = Ok root →
       fs s !! (os.dir root ++ ["list.txt"]) = Some (FileE data) →
       ∃ files,
         os.readDir (fs s) (cwd s) (config.StorageDir (config.Uploader cfg)) = Ok files
         ∧ "list.txt" ∈ files
         ∧ w (serveHTTP (server.NewServer cfg) r s) = listResponse files).
Proof.
  intros Hp. pose proof (route_list cfg r Hp) as Hroute.
  assert (Hserve : ∀ s, serveHTTP (server.NewServer cfg) r s
            = serve (handlers.DownloadList (handlers.NewHandlers cfg)) r s).
  { intros s. unfold serveHTTP, serve, http.ServeHTTP. by rewrite Hroute. }
  split; [done|]. split; [done|].
  intros s root data Hm Hr Hd.
  destruct (readDir_child _ _ _ _ _ _ Hr Hd) as (files & Hfiles & Hin).
  exists files. split; [done|]. split; [done|].
  rewrite Hserve.
  by rewrite (DownloadList_run (handlers.NewHandlers cfg) r s files Hm Hfiles).
Qed.

Lemma C10_witness :
  let t := <[["srv"; "storage"; "list.txt"] := FileE (bytes "my own list")]> hostFs in
  let s' := serveHTTP theServer (GET "/download/list.txt") (hostState t []) in
  ∃ files,
    os.readDir t ["srv"] "storage" = Ok files
    ∧ "list.txt" ∈ files
    ∧ w s' = listResponse files.
Proof.
  exact (proj2 (proj2 (C10_list_route_shadows_file defaultConfig
                         (GET "/download/list.txt") eq_refl))
           (hostState
              (<[["srv"; "storage"; "list.txt"] := FileE (bytes "my own list")]> hostFs)
              [])
           {| os.dir := ["srv"; "storage"] |} (bytes "my own list")
           eq_refl eq_refl eq_refl).
Defined.

(** ** Loading the configuration *)

(** C9. When the file at the path does not exist, [NewConfig] returns the
    defaults (":8090"; 5s, 10s and 30s; "storage"; 3072 MB and 32 MB) and no
    error, and logs the warning; when the file is read but does not parse,
    [NewConfig] returns the parser's error, and [main] ends in [Fatalf]
    on any error of [NewConfig]. *)
Theorem C9_config_defaults_and_parse_error
    (yaml_Unmarshal : list byte → config.Config → result config.Config) path s :
  let defaults :=
    {| config.Server := {| config.Addr := ":8090";
                           config.ReadTimeout := 5 * time.Second;
                           config.WriteTimeout := 10 * time.Second;
                           config.IdleTimeout := 30 * time.Second |};
       config.Uploader := {| config.StorageDir := "storage";
                             config.MaxUploadSizeMB := 3072;
                             config.MaxFormMemSizeMB := 32 |} |} in
  (∀ e, os.readFile (fs s) (cwd s) path = Err e → os.IsNotExist e = true →
        fst (config.NewConfig yaml_Unmarshal path s) = Ok defaults
        ∧ logged (snd (config.NewConfig yaml_Unmarshal path s))
          = logged s
            ++ [{| format := "warn: config file '%s' not found, using default settings.\n";
                   args := [LStr path] |}])
  ∧ (∀ data e, os.readFile (fs s) (cwd s) path = Ok data →
               yaml_Unmarshal data defaults = Err e →
               fst (config.NewConfig yaml_Unmarshal path s) = Err e)
  ∧ (∀ logFile s1 e s2,
       os.OpenFile "server.log" s = (Ok logFile, s1) →
       config.NewConfig yaml_Unmarshal "fileserver.yaml" s1 = (Err e, s2) →
       fst (main yaml_Unmarshal s)
       = Fatal {| format := "error loading config %s\n"; args := [LErr e] |}).
Proof.
  intros defaults. split; [|split].
  - intros e He Hne. unfold config.NewConfig. mrun. rewrite He. cbn.
    by rewrite Hne.
  - intros data e Hd Hy. unfold config.NewConfig. mrun. rewrite Hd. cbn.
    fold defaults. by rewrite Hy.
  - intros logFile s1 e s2 Hl Hc. unfold main.
    unfold mbind at 1. unfold M_bind. rewrite Hl. cbn.
    unfold mbind at 1. unfold M_bind. by rewrite Hc.
Qed.

Lemma C9_witness :
  fst (config.NewConfig strictYAML "fileserver.yaml" (hostState emptyHostFs []))
    = Ok defaultConfig
  ∧ fst (config.NewConfig strictYAML "fileserver.yaml" (hostState misconfiguredFs []))
    = Err (ErrYAML "yaml: line 1: did not find expected node content")
  ∧ fst (main strictYAML (hostState misconfiguredFs []))
    = Fatal {| format := "error loading config %s\n";
               args := [LErr (ErrYAML "yaml: line 1: did not find expected node content")] |}.
Proof.
  split; [|split].
  - apply (proj1 (C9_config_defaults_and_parse_error strictYAML "fileserver.yaml"
                    (hostState emptyHostFs [])) ENOENT); reflexivity.
  - apply (proj1 (proj2 (C9_config_defaults_and_parse_error strictYAML
                           "fileserver.yaml" (hostState misconfiguredFs [])))
             (bytes "server: [")); reflexivity.
  - eapply (proj2 (proj2 (C9_config_defaults_and_parse_error strictYAML
                            "fileserver.yaml" (hostState misconfiguredFs []))));
      reflexivity.
Defined.

(** ** The upload loop *)

Lemma opened_app tr1 tr2 : opened (tr1 ++ tr2) = opened tr1 ++ opened tr2.
Proof.
  induction tr1 as [|e tr1 IH]; [done|]. destruct e; simpl; by rewrite ?IH.
Qed.

Lemma app_singleton_neq {A} (l : list A) x : l ++ [x] ≠ l.
Proof.
  intros H. apply (f_equal length) in H. rewrite length_app in H. simpl in H. lia.
Qed.

(** A part that cannot be opened. *)
Lemma uploadFile_openErr h root fieldName fh errs s :
  openErr fh = true →
  handlers.uploadFile h root fieldName fh errs s
  = (errs ++ [msgOpen fieldName fh],
     {| fs := fs s; cwd := cwd s; mapOrder := mapOrder s; w := w s;
        logged := logged s ++ [{| format := "%s: %v\n";
                                  args := [LStr (msgOpen fieldName fh); LErr ErrSpool] |}];
        trace := trace s ++ [PartOpen fh] |}).
Proof. intros Ho. unfold handlers.uploadFile. mrun. rewrite Ho. done. Qed.

(** A part whose destination cannot be created. *)
Lemma uploadFile_createErr h root fieldName fh errs s e :
  openErr fh = false →
  os.create (fs s) root (Filename fh) = Err e →
  handlers.uploadFile h root fieldName fh errs s
  = (errs ++ [msgCreate fh],
     {| fs := fs s; cwd := cwd s; mapOrder := mapOrder s; w := w s;
        logged := logged s ++ [{| format := "%s: %v\n";
                                  args := [LStr (msgCreate fh); LErr e] |}];
        trace := trace s ++ [PartOpen fh; SysCreate (os.dir root) (Filename fh);
                             PartClose fh] |}).
Proof.
  intros Ho Hc. unfold handlers.uploadFile. mrun. rewrite Ho. cbn. rewrite Hc. cbn.
  by rewrite <- !app_assoc.
Qed.

(** A part that is stored. *)
Lemma uploadFile_stored h root fieldName fh errs s dst t1 :
  openErr fh = false →
  os.create (fs s) root (Filename fh) = Ok (dst, t1) →
  copyFault fh = None →
  handlers.uploadFile h root fieldName fh errs s
  = (errs,
     {| fs := <[os.node dst := FileE (content fh)]> t1;
        cwd := cwd s; mapOrder := mapOrder s; w := w s;
        logged := logged s;
        trace := trace s ++ [PartOpen fh; SysCreate (os.dir root) (Filename fh);
                             SysWrite (os.node dst) (length (content fh));
                             PartClose fh; SysClose (os.node dst)] |}).
Proof.
  intros Ho Hc Hf. unfold handlers.uploadFile. mrun. rewrite Ho. cbn. rewrite Hc. cbn.
  apply create_Ok in Hc as (_ & _ & ->). rewrite lookup_insert_eq. cbn.
  rewrite Hf. cbn. by rewrite <- !app_assoc.
Qed.

(** A part whose copy breaks. *)
Lemma uploadFile_copyErr h root fieldName fh errs s dst t1 k :
  openErr fh = false →
  os.create (fs s) root (Filename fh) = Ok (dst, t1) →
  copyFault fh = Some k →
  handlers.uploadFile h root fieldName fh errs s
  = (errs ++ [msgWrite fh], afterBrokenCopy h root fh dst t1 k s).
Proof.
  intros Ho Hc Hf. unfold handlers.uploadFile, afterBrokenCopy. mrun.
  rewrite Ho. cbn. rewrite Hc. cbn.
  apply create_Ok in Hc as (_ & _ & ->). rewrite lookup_insert_eq. cbn.
  rewrite Hf. cbn.
  destruct (os.remove _ _ _) as [t3|e]; cbn; by rewrite <- !app_assoc.
Qed.

Lemma opens_nil s : opens [] s s.
Proof. unfold opens. by rewrite app_nil_r. Qed.

Lemma opens_trans l1 l2 s1 s2 s3 :
  opens l1 s1 s2 → opens l2 s2 s3 → opens (l1 ++ l2) s1 s3.
Proof.
  intros (Hw & Hc & Hm & Ho) (Hw' & Hc' & Hm' & Ho'). unfold opens.
  rewrite Hw', Hc', Hm', Ho', Hw, Hc, Hm, Ho. by rewrite <- app_assoc.
Qed.

(** Every round of the inner loop opens its part, and no other. *)
Lemma uploadFile_opens h root fieldName fh errs s errs' s' :
  handlers.uploadFile h root fieldName fh errs s = (errs', s') →
  opens [fh] s s'.
Proof.
  unfold opens. destruct (openErr fh) eqn:Ho.
  { rewrite uploadFile_openErr by done. intros [= <- <-]. cbn.
    by rewrite opened_app. }
  destruct (os.create (fs s) root (Filename fh)) as [[dst t1]|e] eqn:Hc.
  2:{ rewrite (uploadFile_createErr _ _ _ _ _ _ e) by done. intros [= <- <-]. cbn.
      by rewrite opened_app. }
  destruct (copyFault fh) as [k|] eqn:Hf.
  - rewrite (uploadFile_copyErr _ _ _ _ _ _ dst t1 k) by done. intros [= <- <-].
    unfold afterBrokenCopy. destruct (os.remove _ _ _); cbn; by rewrite opened_app.
  - rewrite (uploadFile_stored _ _ _ _ _ _ dst t1) by done. intros [= <- <-]. cbn.
    by rewrite opened_app.
Qed.

Lemma forEach_cons {A B} (f : A → B → M B) x l acc s :
  forEach f (x :: l) acc s = let '(acc', s') := f x acc s in forEach f l acc' s'.
Proof. done. Qed.

Lemma forEach_app {A B} (f : A → B → M B) l1 l2 acc s :
  forEach f (l1 ++ l2) acc s
  = let '(acc', s') := forEach f l1 acc s in forEach f l2 acc' s'.
Proof.
  revert acc s. induction l1 as [|x l1 IH]; intros acc s; [done|].
  cbn [app]. rewrite !forEach_cons. destruct (f x acc s) as [acc' s']. apply IH.
Qed.

Lemma uploadField_opens h root fieldName fhs errs s errs' s' :
  forEach (handlers.uploadFile h root fieldName) fhs errs s = (errs', s') →
  opens fhs s s'.
Proof.
  revert errs s. induction fhs as [|fh fhs IH]; intros errs s.
  { intros [= <- <-]. apply opens_nil. }
  rewrite forEach_cons.
  destruct (handlers.uploadFile h root fieldName fh errs s) as [errs1 s1] eqn:E.
  intros H. apply (opens_trans [fh] fhs s s1 s').
  - by apply (uploadFile_opens _ _ _ _ _ _ _ _ E).
  - by apply (IH errs1 s1).
Qed.

Lemma uploadFields_opens h root (fields : list (string * list FileHeader))
    errs s errs' s' :
  forEach (λ '(fieldName, fileHeaders) uploadErrors,
             forEach (handlers.uploadFile h root fieldName) fileHeaders
               uploadErrors) fields errs s = (errs', s') →
  opens (flat_map snd fields) s s'.
Proof.
  revert errs s. induction fields as [|[f fhs] fields IH]; intros errs s.
  { intros [= <- <-]. apply opens_nil. }
  rewrite forEach_cons.
  destruct (forEach (handlers.uploadFile h root f) fhs errs s) as [errs1 s1] eqn:E.
  intros H. apply (opens_trans fhs (flat_map snd fields) s s1 s').
  - by apply (uploadField_opens _ _ _ _ _ _ _ _ E).
  - by apply (IH errs1 s1).
Qed.

(** The loops of the handler open the parts field by field, in the order
    the runtime ranges over the map. *)
Lemma uploadFiles_opens h root files s errs' s' :
  handlers.uploadFiles h root files s = (errs', s') →
  opens (flat_map snd (rangeMap (mapOrder s) files)) s s'.
Proof. unfold handlers.uploadFiles. apply uploadFields_opens. Qed.

(** *** The form the parser builds *)

Lemma filter_cons_bool {A} (f : A → bool) x l :
  List.filter f (x :: l) = if f x then x :: List.filter f l else List.filter f l.
Proof. done. Qed.

Lemma partsOf_cons field p parts :
  partsOf field (p :: parts)
  = if isFilePart p && bool_decide (FormName p = field)
    then multipart.header p :: partsOf field parts
    else partsOf field parts.
Proof.
  unfold partsOf, fileParts. rewrite filter_cons_bool.
  destruct (isFilePart p); [|done]. rewrite filter_cons_bool.
  by destruct (bool_decide (FormName p = field)).
Qed.

Lemma addPart_filePart m p :
  multipart.addPart m p
  = if isFilePart p
    then <[FormName p := default [] (m !! FormName p) ++ [multipart.header p]]> m
    else m.
Proof.
  unfold multipart.addPart, isFilePart.
  destruct (bool_decide (FormName p = "")); [done|].
  by destruct (bool_decide (multipart.Part_FileName p = "")).
Qed.

Lemma fold_addPart_lookup parts (m : gmap string (list FileHeader)) field :
  default [] (fold_left multipart.addPart parts m !! field)
  = default [] (m !! field) ++ partsOf field parts.
Proof.
  revert m. induction parts as [|p parts IH]; intros m.
  { cbn. by rewrite app_nil_r. }
  cbn [fold_left]. rewrite IH, partsOf_cons, addPart_filePart.
  destruct (isFilePart p); [|done]. cbn [andb].
  case_bool_decide as Hf.
  - subst field. rewrite lookup_insert_eq. cbn. by rewrite <- app_assoc.
  - by rewrite lookup_insert_ne.
Qed.

Lemma fold_addPart_is_Some parts (m : gmap string (list FileHeader)) field :
  is_Some (fold_left multipart.addPart parts m !! field)
  ↔ is_Some (m !! field) ∨ partsOf field parts ≠ [].
Proof.
  revert m. induction parts as [|p parts IH]; intros m.
  { cbn. split; [by left|]. by intros [?|?]. }
  cbn [fold_left]. rewrite IH, partsOf_cons, addPart_filePart.
  destruct (isFilePart p); cbn [andb]; [|done].
  case_bool_decide as Hf.
  - subst field. rewrite lookup_insert_eq. split; [by right|]. intros _. by left.
  - by rewrite lookup_insert_ne.
Qed.

(** The slice of a field holds the file parts of that name, in the order
    they came in the body. *)
Lemma readForm_lookup parts field :
  default [] (multipart.File (multipart.readForm parts) !! field)
  = partsOf field parts.
Proof.
  unfold multipart.readForm. cbn. rewrite fold_addPart_lookup.
  by rewrite lookup_empty.
Qed.

Lemma readForm_is_Some parts field :
  is_Some (multipart.File (multipart.readForm parts) !! field)
  ↔ partsOf field parts ≠ [].
Proof.
  unfold multipart.readForm. cbn. rewrite fold_addPart_is_Some, lookup_empty.
  split; [|by right]. intros [[? ?]|?]; done.
Qed.

Lemma rangeMap_parts order parts :
  flat_map snd (rangeMap order (multipart.File (multipart.readForm parts)))
  = flat_map (λ field, partsOf field parts) order.
Proof.
  unfold rangeMap. induction order as [|k order IH]; [done|].
  cbn [omap list_omap flat_map]. rewrite <- IH, <- (readForm_lookup parts k).
  by destruct (multipart.File (multipart.readForm parts) !! k).
Qed.

Arguments handlers.uploadFiles : simpl never.
Arguments http.overLimit : simpl never.

(** An upload answered 200 or 207 has run the loops: the method was POST,
    the body a form within the limit, the storage directory made and a root
    opened on it.  [s0] is the state the loops start in and [s1] the state
    they end in; the answer is 200 exactly when no error was recorded. *)
Lemma UploadHandler_loops h r s :
  let s' := serve (handlers.UploadHandler h) r s in
  status (w s') = Some 200%Z ∨ status (w s') = Some 207%Z →
  ∃ parts t1 root errs s0 s1,
    Method r = "POST"
    ∧ carried (Body r) = FormData parts
    ∧ os.mkdirAll (fs s) (cwd s) (config.StorageDir (handlers.uploader h)) = Ok t1
    ∧ os.openRoot t1 (cwd s) (config.StorageDir (handlers.uploader h)) = Ok root
    ∧ fs s0 = t1 ∧ cwd s0 = cwd s ∧ mapOrder s0 = mapOrder s
    ∧ opened (trace s0) = []
    ∧ handlers.uploadFiles h root (multipart.File (multipart.readForm parts)) s0
      = (errs, s1)
    ∧ fs s' = fs s1 ∧ cwd s' = cwd s1 ∧ opened (trace s') = opened (trace s1)
    ∧ (status (w s') = Some 200%Z ↔ errs = []).
Proof.
  intros s'. subst s'. unfold serve, handlers.UploadHandler.
  destruct (decide (Method r = "POST")) as [Hm|Hm].
  2:{ rewrite (bool_decide_eq_true_2 (Method r ≠ http.MethodPost)) by done.
      mrun. rewrite Error_run by done. cbn. by intros [?|?]. }
  rewrite (bool_decide_eq_false_2 (Method r ≠ http.MethodPost))
    by (intros H; by apply H).
  mrun.
  destruct (carried (Body r)) as [|parts] eqn:Hb; cbn.
  { rewrite Error_run by done. cbn. by intros [?|?]. }
  destruct (http.overLimit _) eqn:Hl; cbn.
  { rewrite Error_unsent by done. cbn. by intros [?|?]. }
  destruct (os.mkdirAll _ _ _) as [t1|e] eqn:Hmk; cbn.
  2:{ rewrite Error_run by done. cbn. by intros [?|?]. }
  destruct (os.openRoot _ _ _) as [root|e] eqn:Hr; cbn.
  2:{ rewrite Error_run by done. cbn. by intros [?|?]. }
  match goal with
  | |- context [handlers.uploadFiles h root ?files ?s0] =>
      destruct (handlers.uploadFiles h root files s0) as [errs s1] eqn:Hloop;
      pose proof (uploadFiles_opens _ _ _ _ _ _ Hloop) as (Hw & _ & _ & _);
      intros Hst; exists parts, t1, root, errs, s0, s1
  end.
  destruct s1 as [fs1 cwd1 mo1 w1 lg1 tr1]. cbn in Hw. subst w1.
  repeat (split; [done|]). revert Hst.
  destruct errs as [|e errs].
  - change (bool_decide (0 < length (@nil string))) with false. cbn.
    rewrite !opened_app. cbn. rewrite !app_nil_r. done.
  - rewrite (bool_decide_eq_true_2 (0 < length (e :: errs))) by (cbn; lia).
    destruct (json.MarshalIndent _); cbn; rewrite Error_run by done; cbn;
      rewrite !opened_app; cbn; rewrite !app_nil_r; done.
Qed.

(** ** The order in which the parts are processed *)

Lemma filter_split {A} (f : A → bool) l :
  List.filter f l ++ List.filter (λ x, negb (f x)) l ≡ₚ l.
Proof.
  induction l as [|x l IH]; [done|]. rewrite !filter_cons_bool.
  destruct (f x); cbn.
  - by rewrite IH.
  - by rewrite <- Permutation_middle, IH.
Qed.

Lemma filter_filter_ne (k k' : string) (l : list Part) :
  k' ≠ k →
  List.filter (λ p, bool_decide (FormName p = k'))
    (List.filter (λ p, negb (bool_decide (FormName p = k))) l)
  = List.filter (λ p, bool_decide (FormName p = k')) l.
Proof.
  intros Hne. induction l as [|p l IH]; [done|]. rewrite !filter_cons_bool.
  destruct (bool_decide (FormName p = k)) eqn:Hk; cbn.
  - apply bool_decide_eq_true_1 in Hk.
    rewrite (bool_decide_eq_false_2 (FormName p = k')) by congruence. apply IH.
  - by rewrite IH.
Qed.

Lemma flat_map_ext_elem {A B} (f g : A → list B) l :
  (∀ x, x ∈ l → f x = g x) → flat_map f l = flat_map g l.
Proof.
  induction l as [|x l IH]; intros H; [done|]. cbn.
  rewrite (H x) by apply list_elem_of_here. rewrite IH; [done|].
  intros y Hy. apply H. by apply list_elem_of_further.
Qed.

(** Grouping a list of parts by a list of field names that has every name of
    the list once rearranges the list. *)
Lemma group_by_field (order : list string) (l : list Part) :
  NoDup order → (∀ p, p ∈ l → FormName p ∈ order) →
  flat_map (λ k, List.filter (λ p, bool_decide (FormName p = k)) l) order ≡ₚ l.
Proof.
  revert l. induction order as [|k ks IH]; intros l Hnd Hin.
  - destruct l as [|p l]; [done|].
    specialize (Hin p (list_elem_of_here _ _)). by apply elem_of_nil in Hin.
  - apply NoDup_cons in Hnd as [Hk Hnd]. cbn [flat_map].
    set (l' := List.filter (λ p, negb (bool_decide (FormName p = k))) l).
    assert (Hext : flat_map (λ k0, List.filter (λ p, bool_decide (FormName p = k0)) l) ks
                   = flat_map (λ k0, List.filter (λ p, bool_decide (FormName p = k0)) l') ks).
    { apply flat_map_ext_elem. intros k' Hk'. symmetry. apply filter_filter_ne.
      by intros ->. }
    rewrite Hext, (IH l' Hnd).
    + apply filter_split.
    + intros p Hp. apply list_elem_of_In, filter_In in Hp as [Hp Hne].
      apply list_elem_of_In, Hin, elem_of_cons in Hp as [Hp|Hp]; [|done].
      apply negb_true_iff, bool_decide_eq_false_1 in Hne. done.
Qed.

Lemma flat_map_map {A B C} (g : B → C) (f : A → list B) l :
  flat_map (λ x, map g (f x)) l = map g (flat_map f l).
Proof. induction l as [|x l IH]; [done|]. cbn. by rewrite IH, map_app. Qed.

Lemma rangeOrderOK_NoDup {V} order (m : gmap string V) :
  rangeOrderOK order m → NoDup order.
Proof. intros ->. apply NoDup_fst_map_to_list. Qed.

Lemma rangeOrderOK_elem_of {V} order (m : gmap string V) k :
  rangeOrderOK order m → k ∈ order ↔ is_Some (m !! k).
Proof.
  intros ->. rewrite list_elem_of_fmap. split.
  - intros ([k' v] & -> & Hin). apply elem_of_map_to_list in Hin. by eexists.
  - intros [v Hv]. exists (k, v). split; [done|]. by apply elem_of_map_to_list.
Qed.

(** Ranging over the form in an admissible order visits every file part
    once. *)
Lemma group_by_order order parts :
  rangeOrderOK order (multipart.File (multipart.readForm parts)) →
  flat_map (λ field, partsOf field parts) order
  ≡ₚ map multipart.header (fileParts parts).
Proof.
  intros Hok. unfold partsOf.
  rewrite (flat_map_map multipart.header
             (λ field, List.filter (λ p, bool_decide (FormName p = field))
                         (fileParts parts))).
  apply Permutation_map, group_by_field.
  - by apply (rangeOrderOK_NoDup _ _ Hok).
  - intros p Hp. apply (rangeOrderOK_elem_of _ _ _ Hok), readForm_is_Some.
    unfold partsOf. intros Hnil. apply map_eq_nil in Hnil.
    assert (Hin : In p (List.filter (λ p0, bool_decide (FormName p0 = FormName p))
                          (fileParts parts))).
    { apply filter_In. split; [by apply list_elem_of_In|].
      by apply bool_decide_eq_true_2. }
    by rewrite Hnil in Hin.
Qed.

(** C2 as the specification words it fails: with one file in each of the
    fields "first" and "second", sent in that order, the runtime may range
    over the form's map from "second" on, and the handler then stores 2.txt
    before 1.txt. *)
Lemma C2_counterexample :
  let s := hostState emptyHostFs ["second"; "first"] in
  let s' := serve (handlers.UploadHandler theHandlers) (POST "/upload" twoFields) s in
  rangeOrderOK (mapOrder s) (multipart.File (multipart.readForm twoFields))
  ∧ status (w s') = Some 200%Z
  ∧ spec_processingOrder twoFields
    = [multipart.header (filePart "first" "1.txt" "one");
       multipart.header (filePart "second" "2.txt" "two")]
  ∧ opened (trace s')
    = [multipart.header (filePart "second" "2.txt" "two");
       multipart.header (filePart "first" "1.txt" "one")]
  ∧ opened (trace s') ≠ spec_processingOrder twoFields.
Proof.
  split; [|split; [|split; [|split]]].
  - unfold rangeOrderOK. refine (bool_decide_unpack _ _). by vm_compute.
  - by vm_compute.
  - by vm_compute.
  - by vm_compute.
  - vm_compute. discriminate.
Qed.

(** ** The path of the partial file *)

Lemma walk_unjail t root cur elems p :
  walk t (Some root) cur elems = Ok p → walk t None cur elems = Ok p.
Proof.
  revert cur. induction elems as [|c elems IH]; intros cur; [done|]. cbn.
  destruct (step t (Some root) cur c) as [q|e] eqn:E; [|done].
  apply step_Ok in E as [Hd Hm].
  assert (step t None cur c = Ok q) as ->; [|apply IH].
  apply step_Ok. split; [done|]. unfold move in *.
  repeat case_bool_decide; try done.
Qed.

Lemma walk_first_isDir t j cur elems p :
  elems ≠ [] → walk t j cur elems = Ok p → isDir t cur = true.
Proof.
  destruct elems as [|c elems]; [done|]. intros _. cbn.
  destruct (step t j cur c) as [q|e] eqn:E; [|done]. by apply step_Ok in E as [? _].
Qed.

Lemma move_stay j cur c : c = "" ∨ c = "." → move j cur c = Ok cur.
Proof. intros H. unfold move. by rewrite bool_decide_eq_true_2. Qed.

Lemma step_stay t j cur c :
  isDir t cur = true → c = "" ∨ c = "." → step t j cur c = Ok cur.
Proof. intros Hd Hc. apply step_Ok. split; [done|]. by apply move_stay. Qed.

Lemma move_kept j cur c : kept c → c ≠ ".." → move j cur c = Ok (cur ++ [c]).
Proof.
  intros (H1 & H2 & _) H3. unfold move.
  rewrite (bool_decide_eq_false_2 (c = "" ∨ c = ".")) by (intros [?|?]; done).
  by rewrite (bool_decide_eq_false_2 (c = "..")).
Qed.

Lemma move_up cur : move None cur ".." = Ok (removelast cur).
Proof. done. Qed.

Lemma cleanStep_kept rooted stack c :
  Forall kept stack → noSlash c = true → Forall kept (filepath.cleanStep rooted stack c).
Proof.
  intros Hs Hc. unfold filepath.cleanStep.
  case_bool_decide as H1; [done|].
  assert (Hk : kept c).
  { repeat split; [|intros ->; apply H1; by right|done]. intros ->. apply H1. by left. }
  case_bool_decide as H2.
  - destruct stack as [|top rest].
    + destruct rooted; [done|]. by constructor.
    + case_bool_decide; [by constructor|]. by inversion Hs.
  - by constructor.
Qed.

Lemma cleanElems_kept rooted elems :
  Forall (λ c, noSlash c = true) elems → Forall kept (filepath.cleanElems rooted elems).
Proof.
  unfold filepath.cleanElems. intros H. apply Forall_rev.
  assert (Hgen : ∀ stack, Forall kept stack →
            Forall kept (fold_left (filepath.cleanStep rooted) elems stack)).
  { induction H as [|c elems Hc H IH]; intros stack Hs; [done|].
    cbn. apply IH. by apply cleanStep_kept. }
  by apply Hgen.
Qed.

(** One element, looked up after the elements kept so far or taken into
    them: the same directory is reached. *)
Lemma cleanStep_walk t rooted start stack cur c cur' :
  (rooted = true → start = []) →
  Forall kept stack →
  walk t None start (rev stack) = Ok cur →
  step t None cur c = Ok cur' →
  walk t None start (rev (filepath.cleanStep rooted stack c)) = Ok cur'.
Proof.
  intros Hroot Hs Hw [Hd Hm]%step_Ok. unfold filepath.cleanStep.
  case_bool_decide as H1.
  { rewrite (move_stay _ _ _ H1) in Hm. by injection Hm as <-. }
  assert (Hstep : step t None cur c = Ok cur') by (by apply step_Ok).
  case_bool_decide as H2.
  - subst c. rewrite move_up in Hm. injection Hm as <-.
    destruct stack as [|top rest].
    + cbn in Hw. injection Hw as <-. destruct rooted.
      * by rewrite (Hroot eq_refl).
      * cbn. by rewrite Hstep.
    + case_bool_decide as H3.
      * cbn [rev]. rewrite walk_app. cbn [rev] in Hw. rewrite Hw. cbn.
        by rewrite Hstep.
      * cbn [rev] in Hw. rewrite walk_app in Hw.
        destruct (walk t None start (rev rest)) as [q|e]; [|done].
        cbn in Hw. destruct (step t None q top) as [q'|e] eqn:E; [|done].
        injection Hw as ->. apply step_Ok in E as [_ E].
        rewrite move_kept in E; [|by inversion Hs|done]. injection E as <-.
        by rewrite removelast_last.
  - cbn [rev]. rewrite walk_app, Hw. cbn. by rewrite Hstep.
Qed.

(** Looking up the cleaned elements reaches what the elements reach. *)
Lemma cleanElems_walk t rooted start elems p :
  (rooted = true → start = []) →
  Forall (λ c, noSlash c = true) elems →
  walk t None start elems = Ok p →
  walk t None start (filepath.cleanElems rooted elems) = Ok p.
Proof.
  intros Hroot Hns Hw. unfold filepath.cleanElems.
  assert (Hgen : ∀ stack cur,
            Forall kept stack → walk t None start (rev stack) = Ok cur →
            walk t None cur elems = Ok p →
            walk t None start (rev (fold_left (filepath.cleanStep rooted) elems stack))
            = Ok p).
  { clear Hw. induction Hns as [|c elems Hc Hns IH]; intros stack cur Hs Hst Hw.
    { cbn in *. by rewrite Hst. }
    cbn in Hw. destruct (step t None cur c) as [cur'|e] eqn:E; [|done].
    cbn [fold_left]. apply (IH _ cur').
    - by apply cleanStep_kept.
    - by apply (cleanStep_walk _ _ _ _ cur).
    - done. }
  by apply (Hgen [] start).
Qed.

Lemma SplitSlash_Join elems :
  elems ≠ [] → Forall (λ c, noSlash c = true) elems →
  strings.SplitSlash (strings.Join elems "/") = elems.
Proof.
  intros Hne H. induction H as [|c elems Hc H IH]; [done|].
  destruct elems as [|c' elems].
  - by apply SplitSlash_noSlash.
  - change (strings.Join (c :: c' :: elems) "/")
      with (c +:+ "/" +:+ strings.Join (c' :: elems) "/").
    rewrite SplitSlash_app, (SplitSlash_noSlash _ Hc), IH; done.
Qed.

Lemma kept_noSlash elems : Forall kept elems → Forall (λ c, noSlash c = true) elems.
Proof. intros H. eapply Forall_impl; [exact H|]. by intros c (_ & _ & ?). Qed.

Lemma HasPrefix_app_r a b : a ≠ "" → strings.HasPrefix (a +:+ b) "/" = strings.HasPrefix a "/".
Proof. by destruct a. Qed.

Lemma Join_first_kept c elems :
  kept c → strings.HasPrefix (strings.Join (c :: elems) "/") "/" = false
           ∧ strings.Join (c :: elems) "/" ≠ "".
Proof.
  intros (Hne & _ & Hs). destruct elems as [|c' elems].
  - cbn. split; [by apply noSlash_HasPrefix|done].
  - change (strings.Join (c :: c' :: elems) "/")
      with (c +:+ "/" +:+ strings.Join (c' :: elems) "/").
    split.
    + rewrite HasPrefix_app_r by done. by apply noSlash_HasPrefix.
    + by destruct c.
Qed.

(** The kernel reaches with a cleaned path name what it reaches with the
    path name. *)
Lemma hostWalk_Clean t cwd path p :
  hostWalk t cwd path = Ok p → hostWalk t cwd (filepath.Clean path) = Ok p.
Proof.
  unfold hostWalk at 1. case_bool_decide as Hne; [done|]. intros Hw.
  set (rooted := strings.HasPrefix path "/") in *.
  set (start := if rooted then [] else cwd) in *.
  assert (Hroot : rooted = true → start = []) by (subst start; by intros ->).
  pose proof (walk_first_isDir _ _ _ _ _ (SplitSlash_not_nil path) Hw) as Hd.
  pose proof (cleanElems_kept rooted _ (SplitSlash_Forall path)) as Hk.
  apply (cleanElems_walk t rooted start _ p Hroot (SplitSlash_Forall path)) in Hw.
  unfold filepath.Clean. rewrite bool_decide_eq_false_2 by done. fold rooted.
  destruct (filepath.cleanElems rooted (strings.SplitSlash path)) as [|c elems] eqn:E.
  - cbn in Hw. injection Hw as <-. subst start. destruct rooted.
    + change (hostWalk t cwd "/" = Ok []). unfold hostWalk.
      rewrite bool_decide_eq_false_2 by done.
      change (walk t None [] [""; ""] = Ok []). cbn [walk].
      by rewrite !step_stay by (done || by left).
    + change (hostWalk t cwd "." = Ok cwd). unfold hostWalk.
      rewrite bool_decide_eq_false_2 by done.
      change (walk t None cwd ["."] = Ok cwd). cbn [walk].
      by rewrite !step_stay by (done || by right).
  - inversion Hk as [|? ? Hc Hk']; subst.
    destruct (Join_first_kept c elems Hc) as [Hpre Hnon].
    assert (Hsplit : strings.SplitSlash (strings.Join (c :: elems) "/") = c :: elems).
    { apply SplitSlash_Join; [done|]. by apply kept_noSlash. }
    subst start. destruct rooted.
    + rewrite bool_decide_eq_false_2 by done. unfold hostWalk.
      rewrite bool_decide_eq_false_2 by done.
      change (strings.HasPrefix ("/" +:+ strings.Join (c :: elems) "/") "/") with true.
      change (strings.SplitSlash ("/" +:+ strings.Join (c :: elems) "/"))
        with ("" :: strings.SplitSlash (strings.Join (c :: elems) "/")).
      rewrite Hsplit. cbn [walk].
      by rewrite step_stay by (done || by left).
    + change ("" +:+ strings.Join (c :: elems) "/")
        with (strings.Join (c :: elems) "/").
      rewrite bool_decide_eq_false_2 by done. unfold hostWalk.
      rewrite bool_decide_eq_false_2 by done. by rewrite Hpre, Hsplit.
Qed.

(** What [os.Remove] is given, [filepath.Join] of the storage directory and
    the file name, names the entry that [root.Create] made for that file
    name in the root opened on the storage directory. *)
Lemma hostWalk_Join t cwd storageDir root name p :
  os.openRoot t cwd storageDir = Ok root →
  rootWalk t (os.dir root) name = Ok p →
  hostWalk t cwd (filepath.Join [storageDir; name]) = Ok p.
Proof.
  intros [Hd _]%openRoot_Ok Hw.
  assert (Hdir : storageDir ≠ "").
  { intros ->. by unfold hostWalk in Hd. }
  unfold filepath.Join. rewrite bool_decide_eq_false_2 by done.
  change (strings.Join [storageDir; name] "/") with (storageDir +:+ "/" +:+ name).
  apply hostWalk_Clean. unfold hostWalk in *.
  rewrite bool_decide_eq_false_2 in Hd by done.
  rewrite bool_decide_eq_false_2 by (by destruct storageDir).
  rewrite HasPrefix_app_r by done. rewrite SplitSlash_app, walk_app, Hd.
  unfold rootWalk in Hw. case_bool_decide; [done|].
  destruct (strings.HasPrefix name "/"); [done|]. by apply (walk_unjail _ (os.dir root)).
Qed.

(** ** A copy that breaks *)

Lemma remove_created (t : gmap (list string) entry) cwd path p data :
  hostWalk t cwd path = Ok p →
  t !! p = Some (FileE data) →
  match os.remove t cwd path with
  | Ok t' => t' = delete p t
  | Err _ => True
  end.
Proof.
  intros Hw Hp. unfold os.remove. rewrite Hw, Hp.
  case_bool_decide; [done|].
  by destruct (t !! removelast p) as [[?|[]]|].
Qed.

(** A round of the loop changes no directory, so the root stays what
    [os.OpenRoot] gave for the storage directory. *)
Lemma uploadFile_sameDirs h root fieldName fh errs s errs' s' :
  os.openRoot (fs s) (cwd s) (config.StorageDir (handlers.uploader h)) = Ok root →
  handlers.uploadFile h root fieldName fh errs s = (errs', s') →
  sameDirs (fs s) (fs s') ∧ cwd s' = cwd s.
Proof.
  intros Hr. destruct (openErr fh) eqn:Ho.
  { rewrite uploadFile_openErr by done. by intros [= <- <-]. }
  destruct (os.create (fs s) root (Filename fh)) as [[dst t1]|e] eqn:Hc.
  2:{ rewrite (uploadFile_createErr _ _ _ _ _ _ e) by done. by intros [= <- <-]. }
  pose proof Hc as (Hw & Hnd & Ht1)%create_Ok.
  destruct (copyFault fh) as [k|] eqn:Hf.
  - rewrite (uploadFile_copyErr _ _ _ _ _ _ dst t1 k) by done.
    unfold afterBrokenCopy. subst t1. rewrite insert_insert_eq.
    set (t2 := <[os.node dst := FileE (take k (content fh))]> (fs s)).
    assert (Hsame : sameDirs (fs s) t2) by (by apply sameDirs_insert_file).
    assert (Hlook : t2 !! os.node dst = Some (FileE (take k (content fh))))
      by apply lookup_insert_eq.
    pose proof (remove_created t2 (cwd s) _ _ _
                  (hostWalk_sameDirs _ _ _ _ _ Hsame (hostWalk_Join _ _ _ _ _ _ Hr Hw))
                  Hlook) as Hrm.
    destruct (os.remove t2 (cwd s) _) as [t3|e]; intros [= <- <-]; cbn.
    + split; [|done]. subst t3. apply (sameDirs_trans _ t2); [done|].
      apply sameDirs_delete_file. unfold isDir. by rewrite Hlook.
    + done.
  - rewrite (uploadFile_stored _ _ _ _ _ _ dst t1) by done. intros [= <- <-]. cbn.
    subst t1. rewrite insert_insert_eq. split; [|done].
    by apply sameDirs_insert_file.
Qed.

(** ** Names stay below the root *)

Lemma move_jail_prefix root cur c p :
  root `prefix_of` cur → move (Some root) cur c = Ok p → root `prefix_of` p.
Proof.
  intros [l ->]. unfold move.
  case_bool_decide; [intros [= <-]; by exists l|].
  case_bool_decide.
  - case_bool_decide as Hj; [done|]. intros [= <-].
    destruct l as [|x l].
    { rewrite app_nil_r in Hj. by destruct Hj. }
    rewrite removelast_app by done. by eexists.
  - intros [= <-]. rewrite <- app_assoc. by eexists.
Qed.

(** A name looked up in a root leads to the root or below it. *)
Lemma walk_jail_prefix t root elems cur p :
  root `prefix_of` cur → walk t (Some root) cur elems = Ok p → root `prefix_of` p.
Proof.
  revert cur. induction elems as [|c elems IH]; intros cur Hpre; cbn.
  { by intros [= <-]. }
  destruct (step t (Some root) cur c) as [cur'|e] eqn:Hs; [|done].
  apply step_Ok in Hs as [_ Hmv]. apply IH. by apply (move_jail_prefix _ cur c).
Qed.

Lemma rootWalk_prefix t root name p :
  rootWalk t root name = Ok p → root `prefix_of` p.
Proof.
  unfold rootWalk. case_bool_decide; [done|].
  destruct (strings.HasPrefix name "/"); [done|].
  by apply walk_jail_prefix.
Qed.

(** The entry [root.Create] gives lies in a directory: it is not "/". *)
Lemma create_node t cwd path root name f t' :
  os.openRoot t cwd path = Ok root →
  os.create t root name = Ok (f, t') →
  os.node f ≠ [].
Proof.
  intros [_ Hd]%openRoot_Ok (Hw & Hnd & _)%create_Ok Hnil.
  apply rootWalk_prefix in Hw. rewrite Hnil in Hw, Hnd.
  apply prefix_nil_inv in Hw. rewrite Hw in Hd. congruence.
Qed.

Lemma removelast_ne {A} (p : list A) : p ≠ [] → removelast p ≠ p.
Proof.
  intros Hne Heq. pose proof (f_equal (@List.length A) Heq) as Hlen.
  destruct (exists_last Hne) as (q & x & ->).
  rewrite removelast_last in Hlen. rewrite length_app in Hlen. cbn in Hlen. lia.
Qed.

(** [os.Remove] on a regular file: it goes when its directory can be
    written. *)
Lemma remove_file (t : gmap (list string) entry) cwd path p data :
  hostWalk t cwd path = Ok p →
  t !! p = Some (FileE data) →
  p ≠ [] →
  os.remove t cwd path
  = match t !! removelast p with
    | Some (DirE true) => Ok (delete p t)
    | Some (DirE false) => Err EACCES
    | _ => Err ENOENT
    end.
Proof.
  intros Hw Hp Hne. unfold os.remove. rewrite Hw, Hp.
  rewrite (bool_decide_eq_false_2 _ Hne).
  by destruct (t !! removelast p) as [[?|[]]|].
Qed.

(** C4. When the copy of a file part breaks, the handler records the error
    "error writing file '<name>'", closes the part and the destination, and
    calls [os.Remove] on a path that names the entry [root.Create] made for
    the part.  The partial file is deleted whenever the directory that
    holds it can be written, which is always so for a file the upload made
    new: the entry is gone afterwards and only the write error has been
    logged.  When that directory cannot be written (the part went over an
    existing file of a read-only directory) the partial file stays, and the
    failure of the removal is logged after the write error.  Either way
    every other entry of the host is as before, the loop goes on with the
    parts that follow, and the root is still bound to the storage
    directory. *)
Theorem C4_copy_failure_cleanup h root fieldName fh errs s dst t1 k rest :
  os.openRoot (fs s) (cwd s) (config.StorageDir (handlers.uploader h)) = Ok root →
  openErr fh = false →
  os.create (fs s) root (Filename fh) = Ok (dst, t1) →
  copyFault fh = Some k →
  let path := filepath.Join [config.StorageDir (handlers.uploader h); Filename fh] in
  let failure := {| format := "%s: %v\n";
                    args := [LStr ("error writing file '" +:+ Filename fh +:+ "'");
                             LErr ErrCopy] |} in
  ∃ s',
    handlers.uploadFile h root fieldName fh errs s
    = (errs ++ ["error writing file '" +:+ Filename fh +:+ "'"], s')
    ∧ trace s'
      = trace s ++ [PartOpen fh; SysCreate (os.dir root) (Filename fh);
                    SysWrite (os.node dst) (length (take k (content fh)));
                    PartClose fh; SysClose (os.node dst); SysRemove path]
    ∧ hostWalk (fs s) (cwd s) path = Ok (os.node dst)
    ∧ (fs s !! removelast (os.node dst) = Some (DirE true) →
       fs s' !! os.node dst = None ∧ logged s' = logged s ++ [failure])
    ∧ (fs s !! os.node dst = None → fs s' !! os.node dst = None)
    ∧ (fs s !! removelast (os.node dst) ≠ Some (DirE true) →
       ∃ e, fs s' !! os.node dst = Some (FileE (take k (content fh)))
            ∧ logged s'
              = logged s
                ++ [failure;
                    {| format := "failed to remove partial file '%s': %v";
                       args := [LStr (Filename fh); LErr e] |}])
    ∧ (∀ p, p ≠ os.node dst → fs s' !! p = fs s !! p)
    ∧ forEach (handlers.uploadFile h root fieldName) (fh :: rest) errs s
      = forEach (handlers.uploadFile h root fieldName) rest
          (errs ++ ["error writing file '" +:+ Filename fh +:+ "'"]) s'
    ∧ os.openRoot (fs s') (cwd s') (config.StorageDir (handlers.uploader h))
      = Ok root.
Proof.
  intros Hr Ho Hc Hf path failure.
  pose proof (uploadFile_copyErr h root fieldName fh errs s dst t1 k Ho Hc Hf) as Hrun.
  pose proof (uploadFile_sameDirs _ _ _ _ _ _ _ _ Hr Hrun) as [Hkeep Hcwd].
  pose proof (create_node _ _ _ _ _ _ _ Hr Hc) as Hne.
  assert (Hnew : fs s !! os.node dst = None →
                 fs s !! removelast (os.node dst) = Some (DirE true)).
  { intros Hnone. revert Hc. unfold os.create.
    destruct (rootWalk (fs s) (os.dir root) (Filename fh)) as [p|e]; [|done].
    destruct (fs s !! p) as [[d|wr]|] eqn:Hp; [|done|].
    - intros [= <- _]. cbn in Hnone. congruence.
    - destruct (fs s !! removelast p) as [[?|[]]|] eqn:Hpp; try done.
      by intros [= <- _]. }
  apply create_Ok in Hc as (Hw & Hnd & ->).
  pose proof (hostWalk_Join _ _ _ _ _ _ Hr Hw) as Hpath. fold path in Hpath.
  set (t2 := <[os.node dst := FileE (take k (content fh))]>
               (<[os.node dst := FileE []]> (fs s))).
  assert (Hsame : sameDirs (fs s) t2).
  { subst t2. rewrite insert_insert_eq. by apply sameDirs_insert_file. }
  assert (Hlook : t2 !! os.node dst = Some (FileE (take k (content fh)))).
  { subst t2. apply lookup_insert_eq. }
  assert (Hup : t2 !! removelast (os.node dst)
                = fs s !! removelast (os.node dst)).
  { subst t2. by rewrite !lookup_insert_ne by (symmetry; by apply removelast_ne). }
  assert (Hother : ∀ p, p ≠ os.node dst → t2 !! p = fs s !! p).
  { intros p Hp. subst t2. by rewrite !lookup_insert_ne. }
  pose proof (remove_file t2 (cwd s) path _ _
                (hostWalk_sameDirs _ _ _ _ _ Hsame Hpath) Hlook Hne) as Hrm.
  rewrite Hup in Hrm.
  eexists. split; [exact Hrun|].
  unfold afterBrokenCopy in *. fold path t2 in Hkeep, Hcwd |- *.
  assert (Hgone : fs s !! removelast (os.node dst) = Some (DirE true) →
                  os.remove t2 (cwd s) path = Ok (delete (os.node dst) t2)).
  { intros Hd. by rewrite Hrm, Hd. }
  split; [by destruct (os.remove t2 (cwd s) path)|].
  split; [done|]. split_and!.
  - intros Hd. rewrite (Hgone Hd). cbn. split; [apply lookup_delete_eq|done].
  - intros Hnone. rewrite (Hgone (Hnew Hnone)). cbn. apply lookup_delete_eq.
  - intros Hd. rewrite Hrm.
    destruct (fs s !! removelast (os.node dst)) as [[?|[]]|]; try done;
      by eexists.
  - intros p Hp. destruct (os.remove t2 (cwd s) path) as [t3|e]; cbn.
    + destruct (fs s !! removelast (os.node dst)) as [[?|[]]|]; try done.
      injection Hrm as ->. rewrite lookup_delete_ne by done. by apply Hother.
    + by apply Hother.
  - by rewrite forEach_cons, Hrun.
  - rewrite Hcwd. by apply (openRoot_sameDirs (fs s)).
Qed.

Lemma C4_witness :
  let path := filepath.Join ["storage"; "big.bin"] in
  let failure := {| format := "%s: %v\n";
                    args := [LStr "error writing file 'big.bin'"; LErr ErrCopy] |} in
  ∃ s',
    handlers.uploadFile theHandlers storageRoot "file" brokenHeader []
      (hostState hostFs [])
    = (["error writing file 'big.bin'"], s')
    ∧ trace s'
      = [PartOpen brokenHeader; SysCreate ["srv"; "storage"] "big.bin";
         SysWrite ["srv"; "storage"; "big.bin"] 2;
         PartClose brokenHeader; SysClose ["srv"; "storage"; "big.bin"];
         SysRemove path]
    ∧ hostWalk hostFs ["srv"] path = Ok ["srv"; "storage"; "big.bin"]
    ∧ fs s' !! ["srv"; "storage"; "big.bin"] = None
    ∧ logged s' = [failure]
    ∧ (∀ p, p ≠ ["srv"; "storage"; "big.bin"] → fs s' !! p = hostFs !! p)
    ∧ forEach (handlers.uploadFile theHandlers storageRoot "file")
        [brokenHeader; multipart.header (filePart "file" "c.txt" "sea")] []
        (hostState hostFs [])
      = forEach (handlers.uploadFile theHandlers storageRoot "file")
          [multipart.header (filePart "file" "c.txt" "sea")]
          ["error writing file 'big.bin'"] s'
    ∧ os.openRoot (fs s') (cwd s') "storage" = Ok storageRoot.
Proof.
  destruct (C4_copy_failure_cleanup theHandlers storageRoot "file" brokenHeader []
              (hostState hostFs []) {| os.node := ["srv"; "storage"; "big.bin"] |}
              (<[["srv"; "storage"; "big.bin"] := FileE []]> hostFs) 2
              [multipart.header (filePart "file" "c.txt" "sea")]
              eq_refl eq_refl eq_refl eq_refl)
    as (s' & Hrun & Htr & Hw & Hgone & _ & _ & Hframe & Hloop & Hroot).
  destruct (Hgone eq_refl) as [Hnone Hlog].
  exists s'. split_and!; [exact Hrun|exact Htr|exact Hw|exact Hnone|exact Hlog
                          |exact Hframe|exact Hloop|exact Hroot].
Defined.

(** ** Upload, then download *)

Lemma downloadResponse_length fileName size sent :
  header (downloadResponse fileName size sent) !! "Content-Length"
  = Some (fmt.Sprint size).
Proof.
  unfold downloadResponse. cbn [header].
  rewrite lookup_insert_ne by done. rewrite lookup_insert_ne by done.
  apply lookup_insert_eq.
Qed.

(** The form of a body with one file part, and the one way to range over it. *)
Lemma single_file_form parts p order :
  fileParts parts = [p] →
  rangeOrderOK order (multipart.File (multipart.readForm parts)) →
  rangeMap order (multipart.File (multipart.readForm parts))
  = [(FormName p, [multipart.header p])].
Proof.
  intros Hp Hok.
  assert (Hparts : ∀ k, partsOf k parts
                        = if bool_decide (FormName p = k) then [multipart.header p] else []).
  { intros k. unfold partsOf. rewrite Hp. cbn. by destruct (bool_decide _). }
  assert (Hkeys : ∀ k, k ∈ order ↔ k ∈ [FormName p]).
  { intros k. rewrite (rangeOrderOK_elem_of _ _ _ Hok), readForm_is_Some, Hparts.
    rewrite list_elem_of_singleton. case_bool_decide; split; done. }
  assert (Horder : order = [FormName p]).
  { apply Permutation_singleton_r. apply NoDup_Permutation.
    - apply (rangeOrderOK_NoDup _ _ Hok).
    - apply NoDup_singleton.
    - done. }
  subst order. unfold rangeMap. cbn.
  pose proof (readForm_lookup parts (FormName p)) as Hl.
  rewrite Hparts, bool_decide_eq_true_2 in Hl by done.
  destruct (multipart.File (multipart.readForm parts) !! FormName p) as [l|] eqn:E;
    cbn in Hl; [by subst l|done].
Qed.

(** The one round of the loop that records no error stores the part. *)
Lemma uploadFile_no_error h root fieldName fh s s' :
  handlers.uploadFile h root fieldName fh [] s = ([], s') →
  ∃ dst t1,
    os.create (fs s) root (Filename fh) = Ok (dst, t1)
    ∧ fs s' = <[os.node dst := FileE (content fh)]> t1
    ∧ cwd s' = cwd s.
Proof.
  destruct (openErr fh) eqn:Ho.
  { by rewrite uploadFile_openErr. }
  destruct (os.create (fs s) root (Filename fh)) as [[dst t1]|e] eqn:Hc.
  2:{ by rewrite (uploadFile_createErr _ _ _ _ _ _ e). }
  destruct (copyFault fh) as [k|] eqn:Hf.
  { by rewrite (uploadFile_copyErr _ _ _ _ _ _ dst t1 k). }
  rewrite (uploadFile_stored _ _ _ _ _ _ dst t1) by done.
  intros [= <-]. by exists dst, t1.
Qed.

(** The name under which a file part is stored, when it is stored in a
    root: a plain name, and the entry of that name in the root. *)
Lemma stored_name t root p dst t1 :
  isFilePart p = true →
  isDir t (os.dir root) = true →
  os.create t root (multipart.Part_FileName p) = Ok (dst, t1) →
  isName (multipart.Part_FileName p)
  ∧ os.node dst = os.dir root ++ [multipart.Part_FileName p]
  ∧ isDir t (os.node dst) = false
  ∧ t1 = <[os.node dst := FileE []]> t.
Proof.
  intros Hfp Hroot (Hw & Hnd & Ht1)%create_Ok.
  assert (Hbase : multipart.Part_FileName p = filepath.Base (FileName p)).
  { unfold isFilePart in Hfp. apply andb_prop in Hfp as [_ Hfp].
    apply negb_true_iff, bool_decide_eq_false_1 in Hfp.
    unfold multipart.Part_FileName in *. by case_bool_decide. }
  destruct (Base_shape (FileName p)) as [Hb|[Hne Hns]]; rewrite <- Hbase in *.
  { rewrite Hb in Hw. by unfold rootWalk in Hw. }
  destruct (rootWalk_noSlash_inv _ _ _ _ Hns Hw) as [[_ Hp]|[Hn Hp]].
  - rewrite Hp in Hnd. congruence.
  - done.
Qed.

(** C1 as the specification words it fails for the name list.txt: the file
    is stored, and the path /download/list.txt is answered by the list
    handler, with the listing and its length. *)
Lemma C1_counterexample :
  let upload := POST "/upload" [filePart "file" "list.txt" "hello"] in
  let s := hostState emptyHostFs ["file"] in
  let s1 := serveHTTP theServer upload s in
  let s2 := serveHTTP theServer (GET "/download/list.txt") s1 in
  rangeOrderOK (mapOrder s)
    (multipart.File (multipart.readForm [filePart "file" "list.txt" "hello"]))
  ∧ status (w s1) = Some 200%Z
  ∧ fs s1 !! ["srv"; "storage"; "list.txt"] = Some (FileE (bytes "hello"))
  ∧ status (w s2) = Some 200%Z
  ∧ body (w s2) = bytes ("Files currently available:" +:+ LF +:+ "list.txt" +:+ LF)
  ∧ body (w s2) ≠ bytes "hello"
  ∧ header (w s2) !! "Content-Length" = Some "36"
  ∧ header (w s2) !! "Content-Length" ≠ Some (fmt.Sprint 5).
Proof.
  repeat split; by vm_compute.
Qed.

(** C1, amended. After an upload with one file part that is answered 200,
    a GET of /download/<name> for the name the part was stored under, when
    that name is not list.txt, is answered 200 with the uploaded bytes as
    body and their number as Content-Length. *)
Theorem C1_upload_download_roundtrip cfg r s parts p r2 :
  Path r = "/upload" →
  carried (Body r) = FormData parts →
  fileParts parts = [p] →
  rangeOrderOK (mapOrder s) (multipart.File (multipart.readForm parts)) →
  let name := multipart.Part_FileName p in
  let s1 := serveHTTP (server.NewServer cfg) r s in
  status (w s1) = Some 200%Z →
  name ≠ "list.txt" →
  Method r2 = "GET" →
  Path r2 = "/download/" +:+ name →
  let s2 := serveHTTP (server.NewServer cfg) r2 s1 in
  status (w s2) = Some 200%Z
  ∧ body (w s2) = Data p
  ∧ header (w s2) !! "Content-Length" = Some (fmt.Sprint (Z.of_nat (length (Data p)))).
Proof.
  intros Hpath Hbody Hp Hok name s1 Hst Hlist Hm2 Hp2 s2.
  set (h := handlers.NewHandlers cfg).
  assert (Hs1 : s1 = serve (handlers.UploadHandler h) r s).
  { subst s1. unfold serveHTTP, serve, http.ServeHTTP.
    by rewrite (route_upload cfg r Hpath). }
  rewrite Hs1 in Hst.
  destruct (UploadHandler_loops h r s (or_introl Hst))
    as (parts' & t1 & root & errs & s0 & s1' & _ & Hb' & _ & Hroot & Hfs0 & Hcwd0
        & Hmo0 & _ & Hloop & Hfs1 & Hcwd1 & _ & Herrs).
  rewrite Hbody in Hb'. injection Hb' as <-.
  apply Herrs in Hst as ->. clear Herrs.
  unfold handlers.uploadFiles in Hloop.
  rewrite Hmo0, (single_file_form parts p _ Hp Hok) in Hloop.
  rewrite forEach_cons in Hloop.
  destruct (forEach (handlers.uploadFile h root (FormName p)) [multipart.header p] [] s0)
    as [errs1 s1''] eqn:Hin.
  cbn in Hloop. injection Hloop as -> ->.
  rewrite forEach_cons in Hin.
  destruct (handlers.uploadFile h root (FormName p) (multipart.header p) [] s0)
    as [errs2 s3] eqn:Hfile.
  cbn in Hin. injection Hin as -> ->.
  apply uploadFile_no_error in Hfile as (dst & t2 & Hcreate & Hfs3 & Hcwd3).
  cbn [Filename content multipart.header] in Hcreate, Hfs3. rewrite Hfs0 in Hcreate.
  assert (Hfp : isFilePart p = true).
  { assert (Hin : In p (fileParts parts)) by (rewrite Hp; by left).
    by apply filter_In in Hin as [_ ?]. }
  pose proof Hroot as [_ Hrootdir]%openRoot_Ok.
  destruct (stored_name _ _ _ _ _ Hfp Hrootdir Hcreate) as (Hname & Hnode & Hnd & ->).
  fold name in Hname, Hnode.
  rewrite insert_insert_eq in Hfs3.
  assert (Hfs : fs s1 = <[os.node dst := FileE (Data p)]> t1).
  { by rewrite Hs1, Hfs1, Hfs3. }
  assert (Hcwd : cwd s1 = cwd s).
  { by rewrite Hs1, Hcwd1, Hcwd3, Hcwd0. }
  assert (Hsame : sameDirs t1 (fs s1)).
  { rewrite Hfs. by apply sameDirs_insert_file. }
  assert (Hs2 : s2 = serve (handlers.DownloadHandle h) r2 s1).
  { subst s2. unfold serveHTTP, serve, http.ServeHTTP.
    by rewrite (route_download cfg r2 name Hm2 Hp2 Hname Hlist). }
  assert (Htrim : strings.TrimPrefix (Path r2) "/download/" = name).
  { by rewrite Hp2. }
  rewrite Hs2.
  rewrite (DownloadHandle_file h r2 s1 root (os.node dst) (Data p)); cbn [w].
  - rewrite Htrim. split; [done|]. split; [done|]. apply downloadResponse_length.
  - done.
  - rewrite Htrim. by destruct Hname.
  - rewrite Hcwd. by apply (openRoot_sameDirs t1).
  - rewrite Htrim, Hnode. apply rootWalk_name; [done|]. by rewrite <- Hsame.
  - rewrite Hfs. apply lookup_insert_eq.
Qed.

Lemma C1_witness :
  let upload := POST "/upload" [filePart "note" "" "a plain field";
                                filePart "file" "docs/a.txt" "hello"] in
  let s1 := serveHTTP theServer upload (hostState emptyHostFs ["file"]) in
  let s2 := serveHTTP theServer (GET "/download/a.txt") s1 in
  status (w s2) = Some 200%Z
  ∧ body (w s2) = bytes "hello"
  ∧ header (w s2) !! "Content-Length" = Some (fmt.Sprint (Z.of_nat (length (bytes "hello")))).
Proof.
  apply (C1_upload_download_roundtrip defaultConfig
           (POST "/upload" [filePart "note" "" "a plain field";
                            filePart "file" "docs/a.txt" "hello"])
           (hostState emptyHostFs ["file"])
           [filePart "note" "" "a plain field"; filePart "file" "docs/a.txt" "hello"]
           (filePart "file" "docs/a.txt" "hello") (GET "/download/a.txt")).
  - reflexivity.
  - reflexivity.
  - reflexivity.
  - unfold rangeOrderOK. refine (bool_decide_unpack _ _). by vm_compute.
  - by vm_compute.
  - by vm_compute.
  - reflexivity.
  - reflexivity.
Defined.

(** * Further properties of the handlers *)

(** ** Requests the handlers turn away *)

Lemma not_method_true (m x : string) : m ≠ x → bool_decide (m ≠ x) = true.
Proof. intros H. by apply bool_decide_eq_true_2. Qed.

(** X10. The two download handlers answer a request whose method is not GET
    with 405 "method must be GET"; they log the request, drain the body and
    make no system call: no root is opened and no directory read. *)
Theorem downloads_reject_other_methods h r s :
  Method r ≠ "GET" →
  serve (handlers.DownloadHandle h) r s
  = answered r (errorResponse "method must be GET" 405) [BodyDiscard] s
  ∧ serve (handlers.DownloadList h) r s
    = answered r (errorResponse "method must be GET" 405) [BodyDiscard] s.
Proof.
  intros Hm. unfold serve, handlers.DownloadHandle, handlers.DownloadList.
  rewrite (not_method_true _ http.MethodGet Hm).
  mrun. by rewrite Error_run.
Qed.

Lemma downloads_reject_other_methods_witness :
  serve (handlers.DownloadHandle theHandlers)
    (POST "/download/a.txt" []) (hostState hostFs [])
  = answered (POST "/download/a.txt" [])
      (errorResponse "method must be GET" 405) [BodyDiscard] (hostState hostFs [])
  ∧ serve (handlers.DownloadList theHandlers)
      (POST "/download/a.txt" []) (hostState hostFs [])
    = answered (POST "/download/a.txt" [])
        (errorResponse "method must be GET" 405) [BodyDiscard] (hostState hostFs []).
Proof.
  apply (downloads_reject_other_methods theHandlers (POST "/download/a.txt" [])
           (hostState hostFs [])).
  discriminate.
Defined.

Lemma overLimit_MaxBytesReader b n :
  http.overLimit (http.MaxBytesReader b n) = (Z.max 0 n <? wireLen b)%Z.
Proof. reflexivity. Qed.

(** X1. A POST whose body is not a multipart form, or is a form longer than
    the configured limit (a negative limit counting as 0), is answered 500
    "internal error" and the parse error is logged.  The storage directory
    is not made and no part is looked at; for a body over the limit the
    response asks for the connection to be closed. *)
Theorem upload_parse_failure h r s :
  Method r = "POST" →
  carried (Body r) = NotForm ∨ ¬ withinLimit h r →
  let s' := serve (handlers.UploadHandler h) r s in
  status (w s') = Some 500%Z
  ∧ body (w s') = list_byte_of_string ("internal error" +:+ LF)
  ∧ fs s' = fs s
  ∧ trace s' = [BodyDiscard]
  ∧ (∃ e, logged s'
          = logged s ++ [received r;
                         {| format := "error multipart parsing: %v\n";
                            args := [LErr e] |}])
  ∧ (carried (Body r) ≠ NotForm → header (w s') !! "Connection" = Some "close").
Proof.
  intros Hm Hb s'. subst s'. unfold serve, handlers.UploadHandler.
  rewrite Hm. change (bool_decide ("POST" ≠ http.MethodPost)) with false. mrun.
  destruct (carried (Body r)) as [|parts] eqn:Hc; cbn.
  - rewrite Error_run by done. cbn.
    repeat split; try done. eexists. by rewrite <- app_assoc.
  - destruct Hb as [Hb|Hb]; [done|].
    rewrite overLimit_MaxBytesReader.
    replace (_ <? _)%Z with true
      by (symmetry; apply Z.ltb_lt; unfold withinLimit in Hb; lia).
    cbn. rewrite Error_unsent by done. cbn.
    repeat split; try done. eexists. by rewrite <- app_assoc.
Qed.

Lemma upload_parse_failure_witness :
  let r := request "POST" "/upload"
             {| carried := FormData [filePart "file" "a.txt" "hello"];
                wireLen := 4 * 1024 ^ 3; limit := None |} in
  let s' := serve (handlers.UploadHandler theHandlers) r (hostState emptyHostFs []) in
  status (w s') = Some 500%Z
  ∧ body (w s') = list_byte_of_string ("internal error" +:+ LF)
  ∧ fs s' = emptyHostFs
  ∧ trace s' = [BodyDiscard]
  ∧ (∃ e, logged s'
          = [] ++ [received r;
                   {| format := "error multipart parsing: %v\n";
                      args := [LErr e] |}])
  ∧ (carried (Body r) ≠ NotForm → header (w s') !! "Connection" = Some "close").
Proof.
  apply (upload_parse_failure theHandlers
           (request "POST" "/upload"
              {| carried := FormData [filePart "file" "a.txt" "hello"];
                 wireLen := 4 * 1024 ^ 3; limit := None |})
           (hostState emptyHostFs [])).
  - reflexivity.
  - right. unfold withinLimit. vm_compute. intros H. by apply H.
Defined.

(** ** The run of an upload *)

Lemma withinLimit_overLimit h r :
  withinLimit h r →
  http.overLimit (http.MaxBytesReader (Body r)
                    (config.GetMaxUploadSize (handlers.uploader h))) = false.
Proof.
  intros Hl. rewrite overLimit_MaxBytesReader. apply Z.ltb_ge.
  unfold withinLimit in Hl. lia.
Qed.

(** A slice of strings is always marshalled. *)
Lemma MarshalIndent_Ok v : ∃ doc, json.MarshalIndent v = Ok doc.
Proof. destruct v; by eexists. Qed.

(** An upload that reaches its loops, step by step: [errs] are the messages
    the loops recorded and [s1] the state they ended in. *)
Lemma UploadHandler_run h r s parts t1 root errs s1 :
  Method r = "POST" →
  carried (Body r) = FormData parts →
  withinLimit h r →
  os.mkdirAll (fs s) (cwd s) (config.StorageDir (handlers.uploader h)) = Ok t1 →
  os.openRoot t1 (cwd s) (config.StorageDir (handlers.uploader h)) = Ok root →
  handlers.uploadFiles h root (multipart.File (multipart.readForm parts))
    (loopStart h r t1 s) = (errs, s1) →
  serve (handlers.UploadHandler h) r s
  = {| fs := fs s1; cwd := cwd s1; mapOrder := mapOrder s1;
       w := uploadResponse errs; logged := logged s1;
       trace := trace s1 ++ [SysRootClose (os.dir root); BodyDiscard] |}.
Proof.
  intros Hm Hc Hl Hmk Hr Hloop. unfold serve, handlers.UploadHandler.
  rewrite Hm. change (bool_decide ("POST" ≠ http.MethodPost)) with false. mrun.
  rewrite Hc. cbn. rewrite (withinLimit_overLimit _ _ Hl). cbn.
  rewrite Hmk. cbn. rewrite Hr. cbn.
  match goal with
  | |- context [handlers.uploadFiles h root ?f ?s0] =>
      change s0 with (loopStart h r t1 s)
  end.
  rewrite Hloop.
  pose proof (uploadFiles_opens _ _ _ _ _ _ Hloop) as (Hw & _ & _ & _).
  destruct s1 as [fs1 cwd1 mo1 w1 lg1 tr1]. cbn in Hw. subst w1.
  destruct errs as [|e errs].
  - change (bool_decide (0 < length (@nil string))) with false. cbn.
    by rewrite <- app_assoc.
  - rewrite (bool_decide_eq_true_2 (0 < length (e :: errs))) by (cbn; lia).
    unfold uploadResponse.
    destruct (MarshalIndent_Ok (e :: errs)) as [doc ->]. cbn.
    rewrite Error_run by done. cbn. by rewrite <- app_assoc.
Qed.


Lemma UploadHandler_not_parsed h r s :
  Method r = "POST" →
  carried (Body r) = NotForm ∨ ¬ withinLimit h r →
  let s' := serve (handlers.UploadHandler h) r s in
  status (w s') = Some 500%Z ∧ fs s' = fs s ∧ trace s' = [BodyDiscard]
  ∧ cwd s' = cwd s
  ∧ ∃ e, logged s'
         = logged s ++ [received r;
                        {| format := "error multipart parsing: %v\n";
                           args := [LErr e] |}].
Proof.
  intros Hm Hb s'. subst s'. unfold serve, handlers.UploadHandler.
  rewrite Hm. change (bool_decide ("POST" ≠ http.MethodPost)) with false. mrun.
  destruct (carried (Body r)) as [|parts] eqn:Hc; cbn.
  - rewrite Error_run by done. cbn. split_and!; try done.
    eexists. by rewrite <- app_assoc.
  - destruct Hb as [Hb|Hb]; [done|].
    rewrite overLimit_MaxBytesReader.
    replace (_ <? _)%Z with true
      by (symmetry; apply Z.ltb_lt; unfold withinLimit in Hb; lia).
    cbn. rewrite Error_unsent by done. cbn. split_and!; try done.
    eexists. by rewrite <- app_assoc.
Qed.

Lemma UploadHandler_no_directory h r s parts e :
  Method r = "POST" →
  carried (Body r) = FormData parts →
  withinLimit h r →
  os.mkdirAll (fs s) (cwd s) (config.StorageDir (handlers.uploader h)) = Err e →
  let s' := serve (handlers.UploadHandler h) r s in
  w s' = errorResponse "internal error" 500
  ∧ fs s' = fs s
  ∧ trace s' = [SysMkdirAll (config.StorageDir (handlers.uploader h)); BodyDiscard]
  ∧ cwd s' = cwd s
  ∧ logged s'
    = logged s ++ [received r;
                   {| format := "error creating file directory: %v\n";
                      args := [LErr e] |}].
Proof.
  intros Hm Hc Hl Hmk s'. subst s'. unfold serve, handlers.UploadHandler.
  rewrite Hm. change (bool_decide ("POST" ≠ http.MethodPost)) with false. mrun.
  rewrite Hc. cbn. rewrite (withinLimit_overLimit _ _ Hl). cbn.
  rewrite Hmk. cbn. rewrite Error_run by done. cbn. by rewrite <- app_assoc.
Qed.

Lemma UploadHandler_no_root h r s parts t1 e :
  Method r = "POST" →
  carried (Body r) = FormData parts →
  withinLimit h r →
  os.mkdirAll (fs s) (cwd s) (config.StorageDir (handlers.uploader h)) = Ok t1 →
  os.openRoot t1 (cwd s) (config.StorageDir (handlers.uploader h)) = Err e →
  let s' := serve (handlers.UploadHandler h) r s in
  w s' = errorResponse "internal error" 500
  ∧ fs s' = t1
  ∧ trace s' = [SysMkdirAll (config.StorageDir (handlers.uploader h));
                SysOpenRoot (config.StorageDir (handlers.uploader h));
                BodyDiscard]
  ∧ cwd s' = cwd s
  ∧ logged s'
    = logged s ++ [received r;
                   {| format := "error root opening: %v\n";
                      args := [LErr e] |}].
Proof.
  intros Hm Hc Hl Hmk Hr s'. subst s'. unfold serve, handlers.UploadHandler.
  rewrite Hm. change (bool_decide ("POST" ≠ http.MethodPost)) with false. mrun.
  rewrite Hc. cbn. rewrite (withinLimit_overLimit _ _ Hl). cbn.
  rewrite Hmk. cbn. rewrite Hr. cbn. rewrite Error_run by done. cbn.
  by rewrite <- app_assoc.
Qed.

(** Whatever the request and the state, the handler ends in one of the
    five ways. *)
Lemma UploadHandler_cases h r s :
  uploadOutcome h r s (serve (handlers.UploadHandler h) r s).
Proof.
  destruct (decide (Method r = "POST")) as [Hm|Hm].
  2:{ replace (serve (handlers.UploadHandler h) r s)
        with (answered r (errorResponse "method must be POST" 405) [BodyDiscard] s).
      { by constructor. }
      unfold serve, handlers.UploadHandler.
      rewrite (not_method_true _ http.MethodPost Hm). mrun.
      by rewrite Error_run. }
  destruct (carried (Body r)) as [|parts] eqn:Hc.
  { destruct (UploadHandler_not_parsed h r s Hm (or_introl Hc))
      as (? & ? & ? & ? & ?).
    by eapply UploadNotParsed; [|left|..]. }
  destruct (Z_le_dec (wireLen (Body r))
              (Z.max 0 (config.GetMaxUploadSize (handlers.uploader h))))
    as [Hl|Hl].
  2:{ destruct (UploadHandler_not_parsed h r s Hm (or_intror Hl))
        as (? & ? & ? & ? & ?).
      by eapply UploadNotParsed; [|right|..]. }
  destruct (os.mkdirAll (fs s) (cwd s) (config.StorageDir (handlers.uploader h)))
    as [t1|e] eqn:Hmk.
  2:{ destruct (UploadHandler_no_directory h r s parts e Hm Hc Hl Hmk)
        as (? & ? & ? & ? & ?).
      by eapply UploadNoDirectory. }
  destruct (os.openRoot t1 (cwd s) (config.StorageDir (handlers.uploader h)))
    as [root|e] eqn:Hr.
  2:{ destruct (UploadHandler_no_root h r s parts t1 e Hm Hc Hl Hmk Hr)
        as (? & ? & ? & ? & ?).
      by eapply UploadNoRoot. }
  destruct (handlers.uploadFiles h root (multipart.File (multipart.readForm parts))
              (loopStart h r t1 s)) as [errs s1] eqn:Hloop.
  rewrite (UploadHandler_run h r s parts t1 root errs s1 Hm Hc Hl Hmk Hr Hloop).
  by eapply UploadLooped.
Qed.

(** ** The rounds of the upload loops *)

Lemma closed_app tr1 tr2 : closed (tr1 ++ tr2) = closed tr1 ++ closed tr2.
Proof.
  induction tr1 as [|e tr1 IH]; [done|]. destruct e; cbn; by rewrite ?IH.
Qed.

Lemma written_app tr1 tr2 : written (tr1 ++ tr2) = written tr1 ++ written tr2.
Proof.
  induction tr1 as [|e tr1 IH]; [done|]. destruct e; cbn; by rewrite ?IH.
Qed.

Lemma filesClosed_app tr1 tr2 :
  filesClosed (tr1 ++ tr2) = filesClosed tr1 ++ filesClosed tr2.
Proof.
  induction tr1 as [|e tr1 IH]; [done|]. destruct e; cbn; by rewrite ?IH.
Qed.

(** What [root.Create] makes of a name [filepath.Base] gave: the entry of
    that name in the root, when it makes anything. *)
Lemma create_baseName t root name dst t1 :
  baseName name →
  isDir t (os.dir root) = true →
  os.create t root name = Ok (dst, t1) →
  isName name
  ∧ os.node dst = os.dir root ++ [name]
  ∧ isDir t (os.node dst) = false
  ∧ t1 = <[os.node dst := FileE []]> t.
Proof.
  intros Hb Hroot (Hw & Hnd & Ht1)%create_Ok.
  destruct Hb as [->|[Hne Hns]].
  { by unfold rootWalk in Hw. }
  destruct (rootWalk_noSlash_inv _ _ _ _ Hns Hw) as [[_ Hp]|[Hn Hp]].
  - rewrite Hp in Hnd. congruence.
  - done.
Qed.

(** One round of the loop, whatever its outcome: what it keeps, what it
    may change, which handles it closes, and how it ends. *)
Lemma uploadFile_summary h root fieldName fh errs s errs' s' :
  os.openRoot (fs s) (cwd s) (config.StorageDir (handlers.uploader h)) = Ok root →
  baseName (Filename fh) →
  handlers.uploadFile h root fieldName fh errs s = (errs', s') →
  let p := os.dir root ++ [Filename fh] in
  (cwd s' = cwd s ∧ mapOrder s' = mapOrder s ∧ w s' = w s)
  ∧ sameDirs (fs s) (fs s')
  ∧ (∀ k, k ≠ p → fs s' !! k = fs s !! k)
  ∧ (fs s' = fs s ∨ isDir (fs s) p = false)
  ∧ opened (trace s') = opened (trace s) ++ [fh]
  ∧ closed (trace s')
    = closed (trace s) ++ (if openErr fh then [] else [fh])
  ∧ (∃ l, written (trace s') = written (trace s) ++ l
          ∧ filesClosed (trace s') = filesClosed (trace s) ++ l)
  ∧ ((errs' = errs ∧ openErr fh = false ∧ copyFault fh = None
      ∧ isName (Filename fh) ∧ fs s' !! p = Some (FileE (content fh)))
     ∨ (errs' = errs ++ [msgOpen fieldName fh] ∧ openErr fh = true
        ∧ fs s' = fs s)
     ∨ (errs' = errs ++ [msgCreate fh] ∧ openErr fh = false ∧ fs s' = fs s
        ∧ ∃ e, os.create (fs s) root (Filename fh) = Err e)
     ∨ (errs' = errs ++ [msgWrite fh] ∧ openErr fh = false
        ∧ isName (Filename fh)
        ∧ ∃ k, copyFault fh = Some k
               ∧ (fs s' !! p = None
                  ∨ fs s' !! p = Some (FileE (take k (content fh)))))).
Proof.
  intros Hr Hb Hrun p.
  pose proof Hr as [_ Hroot]%openRoot_Ok.
  revert Hrun. destruct (openErr fh) eqn:Ho.
  { rewrite uploadFile_openErr by done. intros [= <- <-]. cbn.
    rewrite opened_app, closed_app, written_app, filesClosed_app. cbn.
    split_and!; try done.
    - by left.
    - exists []. by rewrite !app_nil_r.
    - right; left. done. }
  destruct (os.create (fs s) root (Filename fh)) as [[dst t1]|e] eqn:Hc.
  2:{ rewrite (uploadFile_createErr _ _ _ _ _ _ e) by done. intros [= <- <-]. cbn.
      rewrite opened_app, closed_app, written_app, filesClosed_app. cbn.
      split_and!; try done.
      - by left.
      - exists []. by rewrite !app_nil_r.
      - right; right; left. split_and!; try done. by exists e. }
  destruct (create_baseName _ _ _ _ _ Hb Hroot Hc) as (Hn & Hp & Hnd & Ht1).
  fold p in Hp.
  pose proof Hc as (Hw & _ & _)%create_Ok.
  destruct (copyFault fh) as [k|] eqn:Hf.
  - rewrite (uploadFile_copyErr _ _ _ _ _ _ dst t1 k) by done.
    unfold afterBrokenCopy. subst t1. rewrite insert_insert_eq. rewrite Hp in *.
    set (t2 := <[p := FileE (take k (content fh))]> (fs s)).
    assert (Hsame : sameDirs (fs s) t2) by (by apply sameDirs_insert_file).
    assert (Hlook : t2 !! p = Some (FileE (take k (content fh))))
      by apply lookup_insert_eq.
    pose proof (remove_created t2 (cwd s) _ _ _
                  (hostWalk_sameDirs _ _ _ _ _ Hsame (hostWalk_Join _ _ _ _ _ _ Hr Hw))
                  Hlook) as Hrm.
    destruct (os.remove t2 (cwd s) _) as [t3|e]; intros [= <- <-]; cbn;
      rewrite opened_app, closed_app, written_app, filesClosed_app; cbn.
    + subst t3. split_and!; try done.
      * apply (sameDirs_trans _ t2); [done|].
        apply sameDirs_delete_file. unfold isDir. by rewrite Hlook.
      * intros k' Hk. rewrite lookup_delete_ne by done.
        unfold t2. by rewrite lookup_insert_ne.
      * by right.
      * by exists [p].
      * right; right; right. split_and!; try done.
        exists k. split; [done|]. left. apply lookup_delete_eq.
    + split_and!; try done.
      * intros k' Hk. unfold t2. by rewrite lookup_insert_ne.
      * by right.
      * by exists [p].
      * right; right; right. split_and!; try done.
        exists k. split; [done|]. by right.
  - rewrite (uploadFile_stored _ _ _ _ _ _ dst t1) by done. intros [= <- <-]. cbn.
    rewrite opened_app, closed_app, written_app, filesClosed_app. cbn.
    subst t1. rewrite insert_insert_eq. rewrite Hp in *.
    split_and!; try done.
    + by apply sameDirs_insert_file.
    + intros k' Hk. by rewrite lookup_insert_ne.
    + by right.
    + by exists [p].
    + left. split_and!; try done. apply lookup_insert_eq.
Qed.

Lemma rounds_app h root l1 l2 errs s errs1 s1 errs' s' :
  rounds h root l1 errs s errs1 s1 →
  rounds h root l2 errs1 s1 errs' s' →
  rounds h root (l1 ++ l2) errs s errs' s'.
Proof.
  induction 1 as [|? ? ? ? ? ? ? ? ? Hrun _ IH]; [done|].
  intros H2. cbn. eapply rounds_cons; [exact Hrun|]. by apply IH.
Qed.

Lemma uploadField_rounds h root fieldName fhs errs s errs' s' :
  forEach (handlers.uploadFile h root fieldName) fhs errs s = (errs', s') →
  rounds h root (map (pair fieldName) fhs) errs s errs' s'.
Proof.
  revert errs s. induction fhs as [|fh fhs IH]; intros errs s.
  { intros [= <- <-]. constructor. }
  rewrite forEach_cons.
  destruct (handlers.uploadFile h root fieldName fh errs s) as [errs1 s1] eqn:Hrun.
  intros Hrest. cbn. eapply rounds_cons; [exact Hrun|]. by apply IH.
Qed.

Lemma uploadFields_rounds h root (fields : list (string * list FileHeader))
    errs s errs' s' :
  forEach (λ '(fieldName, fileHeaders) uploadErrors,
             forEach (handlers.uploadFile h root fieldName) fileHeaders
               uploadErrors) fields errs s = (errs', s') →
  rounds h root (tagged fields) errs s errs' s'.
Proof.
  revert errs s. induction fields as [|[fieldName fhs] fields IH]; intros errs s.
  { intros [= <- <-]. constructor. }
  rewrite forEach_cons.
  destruct (forEach (handlers.uploadFile h root fieldName) fhs errs s)
    as [errs1 s1] eqn:Hin.
  intros Hrest. unfold tagged. cbn. eapply rounds_app.
  - by apply uploadField_rounds.
  - by apply IH.
Qed.

Lemma uploadFiles_rounds h root files s errs' s' :
  handlers.uploadFiles h root files s = (errs', s') →
  rounds h root (tagged (rangeMap (mapOrder s) files)) [] s errs' s'.
Proof. unfold handlers.uploadFiles. apply uploadFields_rounds. Qed.

(** What the rounds keep: the working directory, the response writer, the
    root, every directory, and every entry that is not the file of one of
    the parts in the root. *)
Lemma rounds_frame h root l errs s errs' s' :
  rounds h root l errs s errs' s' →
  os.openRoot (fs s) (cwd s) (config.StorageDir (handlers.uploader h)) = Ok root →
  Forall (λ x, baseName (Filename x.2)) l →
  (cwd s' = cwd s ∧ mapOrder s' = mapOrder s ∧ w s' = w s)
  ∧ os.openRoot (fs s') (cwd s') (config.StorageDir (handlers.uploader h)) = Ok root
  ∧ sameDirs (fs s) (fs s')
  ∧ (∀ k, isDir (fs s) k = true → fs s' !! k = fs s !! k)
  ∧ (∀ k, (∀ x, x ∈ l → k ≠ os.dir root ++ [Filename x.2]) →
          fs s' !! k = fs s !! k).
Proof.
  induction 1 as [errs s|fieldName fh l errs s errs1 s1 errs' s' Hrun _ IH];
    intros Hr Hb.
  { split_and!; done. }
  apply Forall_cons in Hb as [Hb1 Hb].
  destruct (uploadFile_summary _ _ _ _ _ _ _ _ Hr Hb1 Hrun)
    as ((Hcwd & Hmo & Hw) & Hsame & Hframe & Hdir & _).
  assert (Hr1 : os.openRoot (fs s1) (cwd s1)
                  (config.StorageDir (handlers.uploader h)) = Ok root).
  { rewrite Hcwd. by apply (openRoot_sameDirs (fs s)). }
  destruct (IH Hr1 Hb) as ((Hcwd' & Hmo' & Hw') & Hr' & Hsame' & Hdirs' & Hframe').
  split_and!; [congruence..| |].
  - intros k Hk. rewrite Hdirs' by (by rewrite <- Hsame).
    destruct Hdir as [->|Hnd]; [done|].
    apply Hframe. intros ->. cbn in *. congruence.
  - intros k Hk. rewrite Hframe'.
    + apply Hframe. apply (Hk (fieldName, fh)). left.
    + intros x Hx. apply Hk. by right.
Qed.

(** The handles the rounds open and close: every part is opened, every
    part that could be opened is closed, and every file written to is
    closed. *)
Lemma rounds_handles h root l errs s errs' s' :
  rounds h root l errs s errs' s' →
  os.openRoot (fs s) (cwd s) (config.StorageDir (handlers.uploader h)) = Ok root →
  Forall (λ x, baseName (Filename x.2)) l →
  opened (trace s') = opened (trace s) ++ l.*2
  ∧ closed (trace s')
    = closed (trace s) ++ List.filter (λ fh, negb (openErr fh)) l.*2
  ∧ ∃ fl, written (trace s') = written (trace s) ++ fl
          ∧ filesClosed (trace s') = filesClosed (trace s) ++ fl.
Proof.
  induction 1 as [errs s|fieldName fh l errs s errs1 s1 errs' s' Hrun Hrest IH];
    intros Hr Hb.
  { cbn. rewrite !app_nil_r. split_and!; try done. exists []. by rewrite !app_nil_r. }
  apply Forall_cons in Hb as [Hb1 Hb].
  destruct (uploadFile_summary _ _ _ _ _ _ _ _ Hr Hb1 Hrun)
    as ((Hcwd & _ & _) & Hsame & _ & _ & Ho & Hc & (fl1 & Hw1 & Hf1) & _).
  assert (Hr1 : os.openRoot (fs s1) (cwd s1)
                  (config.StorageDir (handlers.uploader h)) = Ok root).
  { rewrite Hcwd. by apply (openRoot_sameDirs (fs s)). }
  destruct (IH Hr1 Hb) as (Ho' & Hc' & (fl & Hw' & Hf')).
  rewrite Ho', Hc', Hw', Hf', Ho, Hc, Hw1, Hf1. cbn.
  rewrite <- !app_assoc. split_and!; try done.
  - by destruct (openErr fh).
  - by exists (fl1 ++ fl).
Qed.

(** The directories [os.MkdirAll] makes are new; it changes nothing else. *)
Lemma mkdirWalk_extends elems t cur t' :
  os.mkdirWalk t cur elems = Ok t' →
  ∀ k, t' !! k = t !! k ∨ (t !! k = None ∧ t' !! k = Some (DirE true)).
Proof.
  revert t cur. induction elems as [|c elems IH]; intros t cur; cbn.
  { intros [= <-] k. by left. }
  destruct (t !! cur) as [[d|wr]|] eqn:Hcur; [done| |done].
  case_bool_decide; [by apply IH|].
  case_bool_decide; [by apply IH|].
  destruct (t !! (cur ++ [c])) as [[d|wr']|] eqn:Hnew; [done|by apply IH|].
  destruct wr; [|done].
  intros Hrec k. destruct (IH _ _ Hrec k) as [Hk|[Hk1 Hk2]].
  - destruct (decide (k = cur ++ [c])) as [->|Hne].
    + right. rewrite Hk, lookup_insert_eq. done.
    + left. by rewrite Hk, lookup_insert_ne.
  - right. split; [|done].
    destruct (decide (k = cur ++ [c])) as [->|Hne]; [done|].
    by rewrite lookup_insert_ne in Hk1.
Qed.

Lemma mkdirAll_extends t cwd path t' :
  os.mkdirAll t cwd path = Ok t' →
  ∀ k, t' !! k = t !! k ∨ (t !! k = None ∧ t' !! k = Some (DirE true)).
Proof.
  unfold os.mkdirAll. case_bool_decide; [done|]. apply mkdirWalk_extends.
Qed.

(** The name of a file part is one [filepath.Base] gave. *)
Lemma filePart_baseName p :
  isFilePart p = true → baseName (multipart.Part_FileName p).
Proof.
  intros Hfp. unfold isFilePart in Hfp. apply andb_prop in Hfp as [_ Hfp].
  apply negb_true_iff, bool_decide_eq_false_1 in Hfp.
  unfold multipart.Part_FileName in *. case_bool_decide; [done|].
  apply Base_shape.
Qed.

Lemma elem_of_fileParts p parts :
  p ∈ fileParts parts ↔ p ∈ parts ∧ isFilePart p = true.
Proof.
  unfold fileParts. rewrite !list_elem_of_In, List.filter_In. done.
Qed.

Lemma elem_of_partsOf fh field parts :
  fh ∈ partsOf field parts
  ↔ ∃ p, p ∈ fileParts parts ∧ FormName p = field ∧ fh = multipart.header p.
Proof.
  unfold partsOf. rewrite list_elem_of_fmap. split.
  - intros (p & -> & Hp). exists p.
    apply list_elem_of_In, List.filter_In in Hp as [Hp Hf].
    apply bool_decide_eq_true_1 in Hf. by apply list_elem_of_In in Hp.
  - intros (p & Hp & Hf & ->). exists p. split; [done|].
    apply list_elem_of_In, List.filter_In. split.
    + by apply list_elem_of_In.
    + by apply bool_decide_eq_true_2.
Qed.

Lemma elem_of_rangeMap {V} order (m : gmap string V) k v :
  (k, v) ∈ rangeMap order m ↔ k ∈ order ∧ m !! k = Some v.
Proof.
  unfold rangeMap. rewrite list_elem_of_omap. split.
  - intros (k' & Hk & Hv). destruct (m !! k') as [v'|] eqn:E; [|done].
    cbn in Hv. by injection Hv as <- <-.
  - intros [Hk Hv]. exists k. by rewrite Hv.
Qed.

Lemma elem_of_tagged fields fieldName fh :
  (fieldName, fh) ∈ tagged fields
  ↔ ∃ fhs, (fieldName, fhs) ∈ fields ∧ fh ∈ fhs.
Proof.
  unfold tagged. rewrite list_elem_of_In, in_flat_map. split.
  - intros ([f fhs] & Hin & Hx). apply list_elem_of_In in Hin.
    apply list_elem_of_In, list_elem_of_fmap in Hx as (fh' & [= -> ->] & Hfh).
    by exists fhs.
  - intros (fhs & Hin & Hfh). exists (fieldName, fhs).
    split; [by apply list_elem_of_In|].
    apply list_elem_of_In, list_elem_of_fmap. by exists fh.
Qed.

(** The rounds of an upload are those of the file parts of its body, each
    under the name of its field. *)
Lemma tagged_parts order parts fieldName fh :
  (fieldName, fh) ∈ tagged (rangeMap order (multipart.File (multipart.readForm parts)))
  → ∃ p, p ∈ fileParts parts ∧ FormName p = fieldName ∧ fh = multipart.header p.
Proof.
  intros (fhs & [_ Hl]%elem_of_rangeMap & Hfh)%elem_of_tagged.
  pose proof (readForm_lookup parts fieldName) as Hp. rewrite Hl in Hp. cbn in Hp.
  subst fhs. by apply elem_of_partsOf.
Qed.

Lemma parts_tagged order parts p :
  rangeOrderOK order (multipart.File (multipart.readForm parts)) →
  p ∈ fileParts parts →
  (FormName p, multipart.header p)
    ∈ tagged (rangeMap order (multipart.File (multipart.readForm parts))).
Proof.
  intros Hok Hp.
  assert (Hin : multipart.header p ∈ partsOf (FormName p) parts).
  { apply elem_of_partsOf. by exists p. }
  assert (Hsome : is_Some (multipart.File (multipart.readForm parts) !! FormName p)).
  { apply readForm_is_Some. intros Hnil. rewrite Hnil in Hin. by inversion Hin. }
  destruct Hsome as [fhs Hl].
  apply elem_of_tagged. exists fhs. split.
  - apply elem_of_rangeMap. split; [|done].
    apply (rangeOrderOK_elem_of _ _ _ Hok). by exists fhs.
  - pose proof (readForm_lookup parts (FormName p)) as Hp'. rewrite Hl in Hp'.
    cbn in Hp'. by subst fhs.
Qed.

Lemma tagged_baseName order parts :
  Forall (λ x, baseName (Filename x.2))
    (tagged (rangeMap order (multipart.File (multipart.readForm parts)))).
Proof.
  apply Forall_forall. intros [fieldName fh] (p & Hp & _ & ->)%tagged_parts. cbn.
  apply filePart_baseName. by apply elem_of_fileParts in Hp as [_ Hp].
Qed.

Lemma tagged_snd fields : (tagged fields).*2 = flat_map snd fields.
Proof.
  induction fields as [|[f fhs] fields IH]; [done|].
  unfold tagged in *. cbn. rewrite fmap_app, IH. f_equal.
  rewrite <- list_fmap_compose. by rewrite list_fmap_id.
Qed.

(** The messages the rounds record: at most one for each part, each naming
    its part; a part that cannot be opened or whose copy breaks is never
    passed over in silence. *)
Lemma rounds_errors h root l errs s errs' s' :
  rounds h root l errs s errs' s' →
  os.openRoot (fs s) (cwd s) (config.StorageDir (handlers.uploader h)) = Ok root →
  Forall (λ x, baseName (Filename x.2)) l →
  ∃ new,
    errs' = errs ++ new
    ∧ (List.length new ≤ List.length l)%nat
    ∧ (∀ m, m ∈ new →
            ∃ x, x ∈ l ∧ (m = msgOpen x.1 x.2 ∨ m = msgCreate x.2
                          ∨ m = msgWrite x.2))
    ∧ (∀ x, x ∈ l → openErr x.2 = true → msgOpen x.1 x.2 ∈ new)
    ∧ (∀ x, x ∈ l → openErr x.2 = false → copyFault x.2 ≠ None →
            msgCreate x.2 ∈ new ∨ msgWrite x.2 ∈ new)
    ∧ (new = [] → ∀ x, x ∈ l → openErr x.2 = false ∧ copyFault x.2 = None
                                ∧ isName (Filename x.2)).
Proof.
  induction 1 as [errs s|fieldName fh l errs s errs1 s1 errs' s' Hrun Hrest IH];
    intros Hr Hb.
  { exists []. rewrite app_nil_r. split_and!; try done.
    - intros m Hm. by inversion Hm.
    - intros x Hx. by inversion Hx.
    - intros x Hx. by inversion Hx.
    - intros _ x Hx. by inversion Hx. }
  apply Forall_cons in Hb as [Hb1 Hb].
  destruct (uploadFile_summary _ _ _ _ _ _ _ _ Hr Hb1 Hrun)
    as ((Hcwd & _ & _) & Hsame & _ & _ & _ & _ & _ & Hout).
  assert (Hr1 : os.openRoot (fs s1) (cwd s1)
                  (config.StorageDir (handlers.uploader h)) = Ok root).
  { rewrite Hcwd. by apply (openRoot_sameDirs (fs s)). }
  destruct (IH Hr1 Hb) as (new & -> & Hlen & Hsound & Hopen & Hcopy & Hnone).
  clear IH. cbn in Hout.
  assert (Hhead : ∃ new1,
             errs1 = errs ++ new1 ∧ (List.length new1 ≤ 1)%nat
             ∧ (∀ m, m ∈ new1 → m = msgOpen fieldName fh ∨ m = msgCreate fh
                                ∨ m = msgWrite fh)
             ∧ (openErr fh = true → msgOpen fieldName fh ∈ new1)
             ∧ (openErr fh = false → copyFault fh ≠ None →
                msgCreate fh ∈ new1 ∨ msgWrite fh ∈ new1)
             ∧ (new1 = [] → openErr fh = false ∧ copyFault fh = None
                            ∧ isName (Filename fh))).
  { destruct Hout as [(-> & Ho & Hf & Hn & _)
                     |[(-> & Ho & _)|[(-> & Ho & _)|(-> & Ho & _)]]].
    - exists []. rewrite app_nil_r. split_and!; try done; try congruence.
      + cbn. lia.
      + intros m Hm. by inversion Hm.
    - exists [msgOpen fieldName fh]. split_and!; try done; try congruence.
      + intros m ->%list_elem_of_singleton. by left.
      + intros _. by apply list_elem_of_singleton.
    - exists [msgCreate fh]. split_and!; try done; try congruence.
      + intros m ->%list_elem_of_singleton. right. by left.
      + intros _ _. left. by apply list_elem_of_singleton.
    - exists [msgWrite fh]. split_and!; try done; try congruence.
      + intros m ->%list_elem_of_singleton. right. by right.
      + intros _ _. right. by apply list_elem_of_singleton. }
  destruct Hhead as (new1 & -> & Hlen1 & Hsound1 & Hopen1 & Hcopy1 & Hnone1).
  exists (new1 ++ new). rewrite <- app_assoc. split_and!; try done.
  - rewrite length_app. cbn. lia.
  - intros m [Hm|Hm]%elem_of_app.
    + exists (fieldName, fh). split; [left|]. by apply Hsound1.
    + destruct (Hsound m Hm) as (x & Hx & Hmx). exists x. split; [by right|done].
  - intros x [->|Hx]%elem_of_cons Ho; apply elem_of_app.
    + left. by apply Hopen1.
    + right. by apply Hopen.
  - intros x [->|Hx]%elem_of_cons Ho Hf.
    + destruct (Hcopy1 Ho Hf); [left|right]; apply elem_of_app; by left.
    + destruct (Hcopy x Hx Ho Hf); [left|right]; apply elem_of_app; by right.
  - intros [-> ->]%app_eq_nil x [->|Hx]%elem_of_cons.
    + by apply Hnone1.
    + by apply Hnone.
Qed.

Lemma filter_name_nil (name : string) (l : list (string * FileHeader)) :
  (∀ x, x ∈ l → Filename x.2 ≠ name) →
  List.filter (λ y, bool_decide (Filename y = name)) l.*2 = [].
Proof.
  induction l as [|x l IH]; [done|]. intros Hne. cbn.
  rewrite bool_decide_eq_false_2 by (apply Hne; left).
  apply IH. intros y Hy. apply Hne. by right.
Qed.

Lemma filter_name_not_nil (name : string) (l : list (string * FileHeader)) x :
  x ∈ l → Filename x.2 = name →
  List.filter (λ y, bool_decide (Filename y = name)) l.*2 ≠ [].
Proof.
  intros Hx Hn Hnil.
  assert (Hin : x.2 ∈ List.filter (λ y, bool_decide (Filename y = name)) l.*2).
  { apply list_elem_of_In, List.filter_In. split.
    - apply list_elem_of_In, list_elem_of_fmap. by exists x.
    - by apply bool_decide_eq_true_2. }
  rewrite Hnil in Hin. by inversion Hin.
Qed.

(** Rounds that record no message store every part: the file of a name
    holds the content of the last part processed under that name. *)
Lemma rounds_stored h root l errs s errs' s' :
  rounds h root l errs s errs' s' →
  errs' = errs →
  os.openRoot (fs s) (cwd s) (config.StorageDir (handlers.uploader h)) = Ok root →
  Forall (λ x, baseName (Filename x.2)) l →
  ∀ x, x ∈ l →
    ∃ fh', last (List.filter (λ y, bool_decide (Filename y = Filename x.2)) l.*2)
           = Some fh'
           ∧ fs s' !! (os.dir root ++ [Filename x.2]) = Some (FileE (content fh')).
Proof.
  induction 1 as [errs s|fieldName fh l errs s errs1 s1 errs' s' Hrun Hrest IH];
    intros Heq Hr Hb x Hx.
  { by inversion Hx. }
  apply Forall_cons in Hb as [Hb1 Hb].
  destruct (uploadFile_summary _ _ _ _ _ _ _ _ Hr Hb1 Hrun)
    as ((Hcwd & _ & _) & Hsame & _ & _ & _ & _ & _ & Hout).
  assert (Hr1 : os.openRoot (fs s1) (cwd s1)
                  (config.StorageDir (handlers.uploader h)) = Ok root).
  { rewrite Hcwd. by apply (openRoot_sameDirs (fs s)). }
  destruct (rounds_errors _ _ _ _ _ _ _ Hrest Hr1 Hb) as (new & Hnew & _).
  destruct (rounds_frame _ _ _ _ _ _ _ Hrest Hr1 Hb) as (_ & _ & _ & _ & Hframe).
  cbn in Hout.
  assert (Hhead : errs1 = errs
                  ∧ fs s1 !! (os.dir root ++ [Filename fh])
                    = Some (FileE (content fh))).
  { subst errs'.
    destruct Hout as [(-> & _ & _ & _ & Hst)
                     |[(-> & _)|[(-> & _)|(-> & _)]]]; [done|..];
      apply (f_equal (@List.length string)) in Hnew;
      rewrite !length_app in Hnew; cbn in Hnew; lia. }
  destruct Hhead as [-> Hst]. specialize (IH Heq Hr1 Hb).
  set (name := Filename x.2).
  destruct (decide (Exists (λ y, Filename y.2 = name) l)) as [Hex|Hex].
  - apply Exists_exists in Hex as (y & Hy & Hyn).
    destruct (IH y Hy) as (fh' & Hlast & Hlook). rewrite Hyn in Hlast, Hlook.
    exists fh'. split; [|done]. cbn.
    destruct (bool_decide (Filename fh = name)); [|done].
    destruct (List.filter _ l.*2) as [|z zs] eqn:Hf; [done|].
    by rewrite last_cons, Hlast.
  - assert (Hnone : ∀ y, y ∈ l → Filename y.2 ≠ name).
    { intros y Hy Hyn. apply Hex, Exists_exists. by exists y. }
    apply elem_of_cons in Hx as [->|Hx]; [|by destruct (Hnone x Hx)].
    exists fh. cbn. rewrite bool_decide_eq_true_2 by done.
    rewrite (filter_name_nil _ _ Hnone). split; [done|].
    rewrite Hframe; [done|].
    intros y Hy [=]%(inj (app (os.dir root))). by apply (Hnone y Hy).
Qed.

(** ** What an upload changes, and what it leaves open *)

Lemma uploadResponse_status errs :
  status (uploadResponse errs)
  = Some (match errs with [] => 200 | _ => 207 end)%Z.
Proof.
  destruct errs as [|e errs]; [done|]. unfold uploadResponse.
  by destruct (json.MarshalIndent _).
Qed.

(** An entry that is not a directory before or after. *)
Lemma isDir_lookup_eq (t t' : gmap (list string) entry) k :
  t' !! k = t !! k → isDir t' k = isDir t k.
Proof. unfold isDir. by intros ->. Qed.

(** X7. Whatever the request, as long as the parser keeps the file parts of
    its form in memory (their sizes add up to no more than the form memory
    limit, so that no temporary file is made on the host), an upload leaves
    every path of the host as it was, with two exceptions: the directories
    [os.MkdirAll] makes for the storage path, which did not exist before,
    and the entries of the storage directory that bear the file name of one
    of the request's file parts, and then only where no directory stands.
    No directory is changed or removed, and nothing in a sub-directory of
    the storage directory or outside of it is touched.  (What the injected
    logger does with the lines it is given is not the handler's; it is kept
    in [logged].) *)
Theorem upload_changes_only_its_files h r s k :
  inMemory h r →
  let s' := serve (handlers.UploadHandler h) r s in
  fs s' !! k = fs s !! k
  ∨ (fs s !! k = None ∧ fs s' !! k = Some (DirE true))
  ∨ ∃ parts p root,
      carried (Body r) = FormData parts
      ∧ p ∈ fileParts parts
      ∧ os.openRoot (fs s') (cwd s) (config.StorageDir (handlers.uploader h))
        = Ok root
      ∧ k = os.dir root ++ [multipart.Part_FileName p]
      ∧ isDir (fs s) k = false ∧ isDir (fs s') k = false.
Proof.
  intros _ s'. subst s'.
  pose proof (UploadHandler_cases h r s) as Hcase.
  remember (serve (handlers.UploadHandler h) r s) as s' eqn:Hs'. clear Hs'.
  destruct Hcase as [Hm|s' Hm Hb Hst Hfs Htr|parts e s' Hm Hc Hl Hmk Hw Hfs Htr
                    |parts t1 e s' Hm Hc Hl Hmk Hr Hw Hfs Htr
                    |parts t1 root errs s1 Hm Hc Hl Hmk Hr Hloop].
  - by left.
  - left. by rewrite Hfs.
  - left. by rewrite Hfs.
  - rewrite Hfs. destruct (mkdirAll_extends _ _ _ _ Hmk k) as [?|?]; [by left|].
    right. by left.
  - cbn.
    apply uploadFiles_rounds in Hloop. cbn in Hloop.
    destruct (rounds_frame _ _ _ _ _ _ _ Hloop Hr (tagged_baseName _ _))
      as ((Hcwd & _) & Hr1 & Hsame & Hdirs & Hframe).
    cbn in Hcwd, Hr1, Hsame, Hdirs, Hframe. rewrite Hcwd in Hr1.
    set (l := tagged (rangeMap (mapOrder s)
                        (multipart.File (multipart.readForm parts)))) in *.
    assert (Hmkdir := mkdirAll_extends _ _ _ _ Hmk k).
    destruct (decide (Exists (λ x, k = os.dir root ++ [Filename x.2]) l))
      as [Hex|Hex].
    + destruct (isDir t1 k) eqn:Hd.
      { rewrite (Hdirs k Hd). destruct Hmkdir as [?|?]; [by left|]. right. by left. }
      apply Exists_exists in Hex as ([fieldName fh] & Hx & Hk).
      apply tagged_parts in Hx as (p & Hp & _ & ->). cbn in Hk.
      right. right. exists parts, p, root. split_and!; try done.
      * destruct Hmkdir as [Heq|[Hnone _]].
        -- by rewrite <- (isDir_lookup_eq _ _ _ Heq).
        -- unfold isDir. by rewrite Hnone.
      * by rewrite <- Hsame.
    + rewrite Hframe.
      * destruct Hmkdir as [?|?]; [by left|]. right. by left.
      * intros x Hx ->. apply Hex, Exists_exists. by exists x.
Qed.

Lemma upload_changes_only_its_files_witness :
  let r := POST "/upload" [filePart "file" "c.txt" "sea"] in
  let s' := serve (handlers.UploadHandler theHandlers) r (hostState hostFs ["file"]) in
  inMemory theHandlers r
  ∧ (fs s' !! ["etc"; "passwd"] = hostFs !! ["etc"; "passwd"]
     ∨ (hostFs !! ["etc"; "passwd"] = None
        ∧ fs s' !! ["etc"; "passwd"] = Some (DirE true))
     ∨ ∃ parts p root,
         carried (Body r) = FormData parts
         ∧ p ∈ fileParts parts
         ∧ os.openRoot (fs s') ["srv"] "storage" = Ok root
         ∧ ["etc"; "passwd"] = os.dir root ++ [multipart.Part_FileName p]
         ∧ isDir hostFs ["etc"; "passwd"] = false
         ∧ isDir (fs s') ["etc"; "passwd"] = false).
Proof.
  assert (Hmem : inMemory theHandlers (POST "/upload" [filePart "file" "c.txt" "sea"])).
  { intros parts [= <-]. reflexivity. }
  split; [exact Hmem|].
  exact (upload_changes_only_its_files theHandlers
           (POST "/upload" [filePart "file" "c.txt" "sea"])
           (hostState hostFs ["file"]) ["etc"; "passwd"] Hmem).
Defined.

(** X8. No handle is left open by an upload, whatever the request: every part
    that [fh.Open] opened has been closed, every file the handler wrote to
    has been closed, each once and in the order of opening, and the last
    thing the handler does is to drain and close the request body. *)
Theorem upload_closes_what_it_opens h r s :
  let tr := trace (serve (handlers.UploadHandler h) r s) in
  closed tr = List.filter (λ fh, negb (openErr fh)) (opened tr)
  ∧ filesClosed tr = written tr
  ∧ last tr = Some BodyDiscard.
Proof.
  intros tr. subst tr.
  pose proof (UploadHandler_cases h r s) as Hcase.
  remember (serve (handlers.UploadHandler h) r s) as s' eqn:Hs'. clear Hs'.
  destruct Hcase as [Hm|s' Hm Hb Hst Hfs Htr|parts e s' Hm Hc Hl Hmk Hw Hfs Htr
                    |parts t1 e s' Hm Hc Hl Hmk Hr Hw Hfs Htr
                    |parts t1 root errs s1 Hm Hc Hl Hmk Hr Hloop];
    [done|by rewrite Htr..|].
  cbn. apply uploadFiles_rounds in Hloop. cbn in Hloop.
  destruct (rounds_handles _ _ _ _ _ _ _ Hloop Hr (tagged_baseName _ _))
    as (Ho & Hc' & fl & Hw & Hf).
  cbn in Ho, Hc', Hw, Hf.
  rewrite opened_app, closed_app, written_app, filesClosed_app.
  cbn. rewrite !app_nil_r. rewrite Ho, Hc', Hw, Hf. split_and!; try done.
  change [SysRootClose (os.dir root); BodyDiscard]
    with ([SysRootClose (os.dir root)] ++ [BodyDiscard]).
  by rewrite app_assoc, last_snoc.
Qed.

(** ** The order of processing, for every request *)

(** C2, amended. The file parts the handler processes, it processes field by
    field: the fields in the order in which the runtime ranges over the
    form's map (which is any order of the fields, not the order of their
    insertion), and the parts of one field in the order they were
    submitted.  When the request is answered 200 or 207 these are all the
    file parts of the form, each once; when it is turned away (405, 500)
    no part is processed. *)
Theorem C2_processing_order h r s parts :
  carried (Body r) = FormData parts →
  rangeOrderOK (mapOrder s) (multipart.File (multipart.readForm parts)) →
  let s' := serve (handlers.UploadHandler h) r s in
  (status (w s') = Some 200%Z ∨ status (w s') = Some 207%Z →
   opened (trace s') = flat_map (λ field, partsOf field parts) (mapOrder s)
   ∧ opened (trace s') ≡ₚ map multipart.header (fileParts parts))
  ∧ (¬ (status (w s') = Some 200%Z ∨ status (w s') = Some 207%Z) →
     opened (trace s') = []).
Proof.
  intros Hb Hok s'. split.
  - intros Hst.
    destruct (UploadHandler_loops h r s Hst)
      as (parts' & t1 & root & errs & s0 & s1 & _ & Hb' & _ & _ & _ & _ & Hmo & Htr0
          & Hloop & _ & _ & Htr & _).
    rewrite Hb in Hb'. injection Hb' as <-.
    apply uploadFiles_opens in Hloop as (_ & _ & _ & Ho).
    assert (Heq : opened (trace s')
                  = flat_map (λ field, partsOf field parts) (mapOrder s)).
    { fold s' in Htr. by rewrite Htr, Ho, Htr0, Hmo, rangeMap_parts. }
    split; [done|]. rewrite Heq. by apply group_by_order.
  - subst s'. pose proof (UploadHandler_cases h r s) as Hcase.
    remember (serve (handlers.UploadHandler h) r s) as s' eqn:Hs'. clear Hs'.
    destruct Hcase as [Hm|s' Hm Hb' Hst Hfs Htr|parts' e s' Hm Hc Hl Hmk Hw Hfs Htr
                      |parts' t1 e s' Hm Hc Hl Hmk Hr Hw Hfs Htr
                      |parts' t1 root errs s1 Hm Hc Hl Hmk Hr Hloop];
      [done|by rewrite Htr..|].
    cbn. rewrite uploadResponse_status. intros Hst. exfalso. apply Hst.
    destruct errs; auto.
Qed.

Lemma C2_witness :
  let s := hostState emptyHostFs ["second"; "first"] in
  let s' := serve (handlers.UploadHandler theHandlers) (POST "/upload" twoFields) s in
  let stopped := serve (handlers.UploadHandler theHandlers) (POST "/upload" twoFields)
                   (hostState blockedFs ["second"; "first"]) in
  (opened (trace s') = flat_map (λ field, partsOf field twoFields) ["second"; "first"]
   ∧ opened (trace s') ≡ₚ map multipart.header (fileParts twoFields))
  ∧ opened (trace stopped) = [].
Proof.
  split.
  - apply (C2_processing_order theHandlers (POST "/upload" twoFields)
             (hostState emptyHostFs ["second"; "first"]) twoFields).
    + reflexivity.
    + unfold rangeOrderOK. refine (bool_decide_unpack _ _). by vm_compute.
    + left. by vm_compute.
  - apply (C2_processing_order theHandlers (POST "/upload" twoFields)
             (hostState blockedFs ["second"; "first"]) twoFields).
    + reflexivity.
    + unfold rangeOrderOK. refine (bool_decide_unpack _ _). by vm_compute.
    + vm_compute. intros [H|H]; discriminate.
Defined.

(** ** What the answer of an upload says about its parts *)

(** An upload that ran its loops, with the rounds spelled out. *)
Lemma UploadHandler_rounds h r s parts :
  carried (Body r) = FormData parts →
  let s' := serve (handlers.UploadHandler h) r s in
  status (w s') = Some 200%Z ∨ status (w s') = Some 207%Z →
  ∃ t1 root errs s1,
    os.mkdirAll (fs s) (cwd s) (config.StorageDir (handlers.uploader h)) = Ok t1
    ∧ os.openRoot t1 (cwd s) (config.StorageDir (handlers.uploader h)) = Ok root
    ∧ rounds h root
        (tagged (rangeMap (mapOrder s) (multipart.File (multipart.readForm parts))))
        [] (loopStart h r t1 s) errs s1
    ∧ w s' = uploadResponse errs
    ∧ fs s' = fs s1
    ∧ trace s' = trace s1 ++ [SysRootClose (os.dir root); BodyDiscard].
Proof.
  intros Hb s'. subst s'.
  pose proof (UploadHandler_cases h r s) as Hcase.
  remember (serve (handlers.UploadHandler h) r s) as s' eqn:Hs'. clear Hs'.
  destruct Hcase as [Hm|s' Hm Hb' Hst Hfs Htr|parts' e s' Hm Hc Hl Hmk Hw Hfs Htr
                    |parts' t1 e s' Hm Hc Hl Hmk Hr Hw Hfs Htr
                    |parts' t1 root errs s1 Hm Hc Hl Hmk Hr Hloop].
  - cbn. by intros [?|?].
  - rewrite Hst. by intros [?|?].
  - rewrite Hw. cbn. by intros [?|?].
  - rewrite Hw. cbn. by intros [?|?].
  - intros _. rewrite Hb in Hc. injection Hc as <-.
    apply uploadFiles_rounds in Hloop. by exists t1, root, errs, s1.
Qed.

(** The file headers the loops go through are as many as the file parts. *)
Lemma tagged_length order parts :
  rangeOrderOK order (multipart.File (multipart.readForm parts)) →
  List.length (tagged (rangeMap order (multipart.File (multipart.readForm parts))))
  = List.length (fileParts parts).
Proof.
  intros Hok.
  rewrite <- (length_fmap snd), tagged_snd, rangeMap_parts.
  rewrite (Permutation_length (group_by_order _ _ Hok)). apply length_map.
Qed.

Lemma UploadHandler_stores h r s parts p :
  carried (Body r) = FormData parts →
  rangeOrderOK (mapOrder s) (multipart.File (multipart.readForm parts)) →
  let s' := serve (handlers.UploadHandler h) r s in
  status (w s') = Some 200%Z →
  p ∈ fileParts parts →
  w s' = uploadedResponse
  ∧ spoolLost p = false ∧ breaksAt p = None
  ∧ isName (multipart.Part_FileName p)
  ∧ ∃ root p',
      os.openRoot (fs s') (cwd s) (config.StorageDir (handlers.uploader h))
        = Ok root
      ∧ p' ∈ fileParts parts
      ∧ last (List.filter
                (λ fh, bool_decide (Filename fh = multipart.Part_FileName p))
                (opened (trace s')))
        = Some (multipart.header p')
      ∧ fs s' !! (os.dir root ++ [multipart.Part_FileName p])
        = Some (FileE (Data p')).
Proof.
  intros Hb Hok s' Hst Hp.
  destruct (UploadHandler_rounds h r s parts Hb (or_introl Hst))
    as (t1 & root & errs & s1 & Hmk & Hr & Hrounds & Hw & Hfs & Htr).
  fold s' in Hw, Hfs, Htr.
  set (l := tagged (rangeMap (mapOrder s)
                      (multipart.File (multipart.readForm parts)))) in *.
  assert (Hbase : Forall (λ x, baseName (Filename x.2)) l)
    by apply tagged_baseName.
  assert (errs = []) as ->.
  { rewrite Hw, uploadResponse_status in Hst. by destruct errs. }
  destruct (rounds_errors _ _ _ _ _ _ _ Hrounds Hr Hbase)
    as (new & Hnew & _ & _ & _ & _ & Hnone).
  cbn in Hnew. subst new.
  pose proof (parts_tagged _ _ _ Hok Hp) as Hin. fold l in Hin.
  destruct (Hnone eq_refl _ Hin) as (Ho & Hf & Hn). cbn in Ho, Hf, Hn.
  split_and!; try done.
  destruct (rounds_frame _ _ _ _ _ _ _ Hrounds Hr Hbase)
    as ((Hcwd & _) & Hr1 & _).
  destruct (rounds_handles _ _ _ _ _ _ _ Hrounds Hr Hbase) as (Hopened & _).
  destruct (rounds_stored _ _ _ _ _ _ _ Hrounds eq_refl Hr Hbase _ Hin)
    as (fh' & Hlast & Hlook).
  cbn in Hcwd, Hr1, Hopened, Hlast, Hlook.
  assert (Hfh' : fh' ∈ l.*2).
  { apply last_Some_elem_of in Hlast.
    by apply list_elem_of_In, List.filter_In in Hlast as [?%list_elem_of_In _]. }
  apply list_elem_of_fmap in Hfh' as ([fieldName fh''] & -> & Hx).
  apply tagged_parts in Hx as (p' & Hp' & _ & ->). cbn in Hlast, Hlook.
  exists root, p'. rewrite Hfs, Htr, opened_app. cbn. rewrite app_nil_r, Hopened.
  split_and!; try done. by rewrite <- Hcwd.
Qed.

(** X6. An upload answered 200 says "All files uploaded successfully" as
    plain text, and it has stored every file part of the request: no part
    was lost or broke, the file name of each is a plain name (not ".", ".."
    or "/"), and the entry of the storage directory that bears the name of
    a part is a file with the content of the part of that name that was
    processed last. *)
Theorem upload_ok_stores_every_part h r s parts p :
  carried (Body r) = FormData parts →
  rangeOrderOK (mapOrder s) (multipart.File (multipart.readForm parts)) →
  let s' := serve (handlers.UploadHandler h) r s in
  status (w s') = Some 200%Z →
  p ∈ fileParts parts →
  w s' = uploadedResponse
  ∧ spoolLost p = false ∧ breaksAt p = None
  ∧ isName (multipart.Part_FileName p)
  ∧ ∃ root p',
      os.openRoot (fs s') (cwd s) (config.StorageDir (handlers.uploader h))
        = Ok root
      ∧ p' ∈ fileParts parts
      ∧ last (List.filter
                (λ fh, bool_decide (Filename fh = multipart.Part_FileName p))
                (opened (trace s')))
        = Some (multipart.header p')
      ∧ fs s' !! (os.dir root ++ [multipart.Part_FileName p])
        = Some (FileE (Data p')).
Proof. apply UploadHandler_stores. Qed.

Lemma upload_ok_stores_every_part_witness :
  let parts := [filePart "file" "a.txt" "first"; filePart "note" "" "a value";
                filePart "copy" "docs/a.txt" "second"] in
  let s' := serve (handlers.UploadHandler theHandlers) (POST "/upload" parts)
              (hostState emptyHostFs ["file"; "copy"]) in
  w s' = uploadedResponse
  ∧ spoolLost (filePart "file" "a.txt" "first") = false
  ∧ breaksAt (filePart "file" "a.txt" "first") = None
  ∧ isName (multipart.Part_FileName (filePart "file" "a.txt" "first"))
  ∧ ∃ root p',
      os.openRoot (fs s') ["srv"] "storage" = Ok root
      ∧ p' ∈ fileParts parts
      ∧ last (List.filter (λ fh, bool_decide (Filename fh = "a.txt"))
                (opened (trace s')))
        = Some (multipart.header p')
      ∧ fs s' !! (os.dir root ++ ["a.txt"]) = Some (FileE (Data p')).
Proof.
  apply (upload_ok_stores_every_part theHandlers
           (POST "/upload" [filePart "file" "a.txt" "first";
                            filePart "note" "" "a value";
                            filePart "copy" "docs/a.txt" "second"])
           (hostState emptyHostFs ["file"; "copy"])
           [filePart "file" "a.txt" "first"; filePart "note" "" "a value";
            filePart "copy" "docs/a.txt" "second"]
           (filePart "file" "a.txt" "first")).
  - reflexivity.
  - unfold rangeOrderOK. refine (bool_decide_unpack _ _). by vm_compute.
  - by vm_compute.
  - apply elem_of_fileParts. split; [left|reflexivity].
Defined.

(** X5. An upload answered 207 carries, as a JSON array, the messages of its
    failed parts: at least one and at most one for each file part, each
    naming a file part of the request; a part whose content cannot be
    opened is reported as such, and a part whose copy would break is
    reported with a creation or a write failure. *)
Theorem upload_reports_failed_parts h r s parts :
  carried (Body r) = FormData parts →
  rangeOrderOK (mapOrder s) (multipart.File (multipart.readForm parts)) →
  let s' := serve (handlers.UploadHandler h) r s in
  status (w s') = Some 207%Z →
  ∃ errs doc,
    errs ≠ []
    ∧ json.MarshalIndent errs = Ok doc
    ∧ w s' = errorResponse doc 207
    ∧ (List.length errs ≤ List.length (fileParts parts))%nat
    ∧ (∀ m, m ∈ errs →
            ∃ p, p ∈ fileParts parts
                 ∧ (m = msgOpen (FormName p) (multipart.header p)
                    ∨ m = msgCreate (multipart.header p)
                    ∨ m = msgWrite (multipart.header p)))
    ∧ (∀ p, p ∈ fileParts parts → spoolLost p = true →
            msgOpen (FormName p) (multipart.header p) ∈ errs)
    ∧ (∀ p, p ∈ fileParts parts → spoolLost p = false → breaksAt p ≠ None →
            msgCreate (multipart.header p) ∈ errs
            ∨ msgWrite (multipart.header p) ∈ errs).
Proof.
  intros Hb Hok s' Hst.
  destruct (UploadHandler_rounds h r s parts Hb (or_intror Hst))
    as (t1 & root & errs & s1 & Hmk & Hr & Hrounds & Hw & Hfs & Htr).
  fold s' in Hw, Hfs, Htr.
  set (l := tagged (rangeMap (mapOrder s)
                      (multipart.File (multipart.readForm parts)))) in *.
  assert (Hbase : Forall (λ x, baseName (Filename x.2)) l)
    by apply tagged_baseName.
  destruct (rounds_errors _ _ _ _ _ _ _ Hrounds Hr Hbase)
    as (new & Hnew & Hlen & Hsound & Hopen & Hcopy & _).
  cbn in Hnew. subst new.
  destruct (MarshalIndent_Ok errs) as [doc Hdoc].
  exists errs, doc.
  assert (Hne : errs ≠ []).
  { intros ->. by rewrite Hw in Hst. }
  split_and!; try done.
  - rewrite Hw. unfold uploadResponse. rewrite Hdoc. by destruct errs.
  - unfold l in Hlen. by rewrite tagged_length in Hlen.
  - intros m Hm. destruct (Hsound m Hm) as ([fieldName fh] & Hx & Hmx).
    apply tagged_parts in Hx as (p & Hp & <- & ->). by exists p.
  - intros p Hp Ho. by apply (Hopen _ (parts_tagged _ _ _ Hok Hp)).
  - intros p Hp Ho Hf. by apply (Hcopy _ (parts_tagged _ _ _ Hok Hp)).
Qed.

Lemma upload_reports_failed_parts_witness :
  let parts := [filePart "a" "a.txt" "hello"; lostPart "b" "b.txt" "world";
                {| FormName := "a"; FileName := "c.txt"; Data := bytes "sea";
                   spoolLost := false; breaksAt := Some 1 |}] in
  let s' := serve (handlers.UploadHandler theHandlers) (POST "/upload" parts)
              (hostState emptyHostFs ["b"; "a"]) in
  ∃ errs doc,
    errs ≠ []
    ∧ json.MarshalIndent errs = Ok doc
    ∧ w s' = errorResponse doc 207
    ∧ (List.length errs ≤ List.length (fileParts parts))%nat
    ∧ (∀ m, m ∈ errs →
            ∃ p, p ∈ fileParts parts
                 ∧ (m = msgOpen (FormName p) (multipart.header p)
                    ∨ m = msgCreate (multipart.header p)
                    ∨ m = msgWrite (multipart.header p)))
    ∧ (∀ p, p ∈ fileParts parts → spoolLost p = true →
            msgOpen (FormName p) (multipart.header p) ∈ errs)
    ∧ (∀ p, p ∈ fileParts parts → spoolLost p = false → breaksAt p ≠ None →
            msgCreate (multipart.header p) ∈ errs
            ∨ msgWrite (multipart.header p) ∈ errs).
Proof.
  apply (upload_reports_failed_parts theHandlers
           (POST "/upload"
              [filePart "a" "a.txt" "hello"; lostPart "b" "b.txt" "world";
               {| FormName := "a"; FileName := "c.txt"; Data := bytes "sea";
                  spoolLost := false; breaksAt := Some 1 |}])
           (hostState emptyHostFs ["b"; "a"])
           [filePart "a" "a.txt" "hello"; lostPart "b" "b.txt" "world";
            {| FormName := "a"; FileName := "c.txt"; Data := bytes "sea";
               spoolLost := false; breaksAt := Some 1 |}]).
  - reflexivity.
  - unfold rangeOrderOK. refine (bool_decide_unpack _ _). by vm_compute.
  - by vm_compute.
Defined.

(** ** The ways a download ends *)

Lemma DownloadHandle_not_get h r s :
  Method r ≠ "GET" →
  serve (handlers.DownloadHandle h) r s
  = answered r (errorResponse "method must be GET" 405) [BodyDiscard] s.
Proof.
  intros Hm. unfold serve, handlers.DownloadHandle.
  rewrite (not_method_true _ http.MethodGet Hm). mrun. by rewrite Error_run.
Qed.

Lemma DownloadList_not_get h r s :
  Method r ≠ "GET" →
  serve (handlers.DownloadList h) r s
  = answered r (errorResponse "method must be GET" 405) [BodyDiscard] s.
Proof.
  intros Hm. unfold serve, handlers.DownloadList.
  rewrite (not_method_true _ http.MethodGet Hm). mrun. by rewrite Error_run.
Qed.

Lemma DownloadHandle_no_name h r s :
  Method r = "GET" →
  strings.TrimPrefix (Path r) "/download/" = "" →
  serve (handlers.DownloadHandle h) r s
  = answered r (errorResponse "file name is not indicated" 400) [BodyDiscard] s.
Proof.
  intros Hm Hn. unfold serve, handlers.DownloadHandle, handlers.downloadPrefix.
  rewrite Hm, Hn.
  change (bool_decide ("GET" ≠ http.MethodGet)) with false.
  change (bool_decide ("" = "")) with true.
  mrun. by rewrite Error_run.
Qed.

Lemma DownloadHandle_no_root h r s e :
  Method r = "GET" →
  strings.TrimPrefix (Path r) "/download/" ≠ "" →
  os.openRoot (fs s) (cwd s) (config.StorageDir (handlers.uploader h)) = Err e →
  serve (handlers.DownloadHandle h) r s
  = answered r (errorResponse "internal error" 500)
      [SysOpenRoot (config.StorageDir (handlers.uploader h)); BodyDiscard] s.
Proof.
  intros Hm Hn Hr. unfold serve, handlers.DownloadHandle, handlers.downloadPrefix.
  rewrite Hm, (bool_decide_eq_false_2 _ Hn).
  change (bool_decide ("GET" ≠ http.MethodGet)) with false.
  mrun. rewrite Hr. cbn. by rewrite Error_run.
Qed.

Lemma DownloadHandle_directory h r s root p wr :
  Method r = "GET" →
  strings.TrimPrefix (Path r) "/download/" ≠ "" →
  os.openRoot (fs s) (cwd s) (config.StorageDir (handlers.uploader h)) = Ok root →
  rootWalk (fs s) (os.dir root) (strings.TrimPrefix (Path r) "/download/") = Ok p →
  fs s !! p = Some (DirE wr) →
  serve (handlers.DownloadHandle h) r s = directoryAnswer h r root p s.
Proof.
  intros Hm Hn Hr Hp Hd.
  assert (Ho : os.open (fs s) root (strings.TrimPrefix (Path r) "/download/")
               = Ok {| os.node := p |}).
  { apply open_Ok. simpl. split; [done|]. by rewrite Hd. }
  unfold serve, handlers.DownloadHandle, handlers.downloadPrefix.
  rewrite Hm. rewrite (bool_decide_eq_false_2 _ Hn).
  change (bool_decide ("GET" ≠ http.MethodGet)) with false.
  mrun. rewrite Hr. cbn. rewrite Ho. cbn.
  unfold os.stat. cbn. repeat (rewrite Hd; cbn).
  unfold directoryAnswer. by rewrite <- app_assoc.
Qed.

Lemma DownloadHandle_cases h r s :
  downloadOutcome h r s (serve (handlers.DownloadHandle h) r s).
Proof.
  destruct (decide (Method r = "GET")) as [Hm|Hm].
  2:{ rewrite DownloadHandle_not_get by done. by constructor. }
  destruct (decide (strings.TrimPrefix (Path r) "/download/" = "")) as [Hn|Hn].
  { rewrite DownloadHandle_no_name by done. by constructor. }
  destruct (os.openRoot (fs s) (cwd s) (config.StorageDir (handlers.uploader h)))
    as [root|e] eqn:Hr.
  2:{ rewrite (DownloadHandle_no_root _ _ _ e) by done. by econstructor. }
  destruct (os.open (fs s) root (strings.TrimPrefix (Path r) "/download/"))
    as [file|e] eqn:Ho.
  2:{ rewrite (DownloadHandle_open_failure _ _ _ root e) by done.
      by eapply DownloadNotFound. }
  apply open_Ok in Ho as [Hp [[data|wr] Hd]].
  - rewrite (DownloadHandle_file _ _ _ root _ data) by done.
    by eapply DownloadFile.
  - rewrite (DownloadHandle_directory _ _ _ root _ wr) by done.
    by eapply DownloadDirectory.
Qed.

Lemma DownloadList_no_directory h r s e :
  Method r = "GET" →
  os.readDir (fs s) (cwd s) (config.StorageDir (handlers.uploader h)) = Err e →
  serve (handlers.DownloadList h) r s
  = answered r (errorResponse "internal error" 500)
      [SysReadDir (config.StorageDir (handlers.uploader h)); BodyDiscard] s.
Proof.
  intros Hm Hd. unfold serve, handlers.DownloadList.
  rewrite Hm. change (bool_decide ("GET" ≠ http.MethodGet)) with false.
  mrun. rewrite Hd. cbn. by rewrite Error_run.
Qed.

Lemma DownloadList_cases h r s :
  listOutcome h r s (serve (handlers.DownloadList h) r s).
Proof.
  destruct (decide (Method r = "GET")) as [Hm|Hm].
  2:{ rewrite DownloadList_not_get by done. by constructor. }
  destruct (os.readDir (fs s) (cwd s) (config.StorageDir (handlers.uploader h)))
    as [files|e] eqn:Hd.
  - rewrite (DownloadList_run _ _ _ files) by done. by eapply ListSent.
  - rewrite (DownloadList_no_directory _ _ _ e) by done. by eapply ListNoDirectory.
Qed.

(** ** Downloads: the storage directory, and nothing but it *)

Lemma readDir_openRoot t cwd path e :
  os.openRoot t cwd path = Err e → os.readDir t cwd path = Err e.
Proof.
  unfold os.openRoot, os.readDir.
  destruct (hostWalk t cwd path) as [p|e']; [|by intros [= ->]].
  destruct (t !! p) as [[d|wr]|]; [|done|]; by intros [= ->].
Qed.

(** X11. While the storage directory is missing (as it is until the first
    upload makes it), or is not a directory, every download of a name and
    every listing is answered 500 "internal error", not 404; the cause is
    not logged, and the handlers do nothing else. *)
Theorem downloads_without_storage h r s e :
  Method r = "GET" →
  os.openRoot (fs s) (cwd s) (config.StorageDir (handlers.uploader h)) = Err e →
  (strings.TrimPrefix (Path r) "/download/" ≠ "" →
   serve (handlers.DownloadHandle h) r s
   = answered r (errorResponse "internal error" 500)
       [SysOpenRoot (config.StorageDir (handlers.uploader h)); BodyDiscard] s)
  ∧ serve (handlers.DownloadList h) r s
    = answered r (errorResponse "internal error" 500)
        [SysReadDir (config.StorageDir (handlers.uploader h)); BodyDiscard] s.
Proof.
  intros Hm Hr. split.
  - intros Hn. by apply (DownloadHandle_no_root _ _ _ e).
  - apply (DownloadList_no_directory _ _ _ e); [done|]. by apply readDir_openRoot.
Qed.

Lemma downloads_without_storage_witness :
  (strings.TrimPrefix (Path (GET "/download/a.txt")) "/download/" ≠ "" →
   serve (handlers.DownloadHandle theHandlers) (GET "/download/a.txt")
     (hostState emptyHostFs [])
   = answered (GET "/download/a.txt") (errorResponse "internal error" 500)
       [SysOpenRoot "storage"; BodyDiscard] (hostState emptyHostFs []))
  ∧ serve (handlers.DownloadList theHandlers) (GET "/download/a.txt")
      (hostState emptyHostFs [])
    = answered (GET "/download/a.txt") (errorResponse "internal error" 500)
        [SysReadDir "storage"; BodyDiscard] (hostState emptyHostFs []).
Proof.
  apply (downloads_without_storage theHandlers (GET "/download/a.txt")
           (hostState emptyHostFs []) ENOENT).
  - reflexivity.
  - by vm_compute.
Defined.

(** X12. Whatever path is asked for, a download answered 200 has served an
    entry of the storage directory or of a directory below it: the body is
    the content of a file that lies there, or empty for a directory.  No
    name, with ".." or with a leading separator, gets at an entry outside. *)
Theorem download_stays_in_storage h r s :
  let s' := serve (handlers.DownloadHandle h) r s in
  status (w s') = Some 200%Z →
  ∃ root p,
    os.openRoot (fs s) (cwd s) (config.StorageDir (handlers.uploader h)) = Ok root
    ∧ os.dir root `prefix_of` p
    ∧ (fs s !! p = Some (FileE (body (w s')))
       ∨ ∃ wr, fs s !! p = Some (DirE wr) ∧ body (w s') = []).
Proof.
  intros s'. subst s'.
  pose proof (DownloadHandle_cases h r s) as Hcase.
  remember (serve (handlers.DownloadHandle h) r s) as s' eqn:Hs'. clear Hs'.
  destruct Hcase as [Hm|Hm Hn|e Hm Hn Hr|root e Hm Hn Hr Ho
                    |root p data Hm Hn Hr Hp Hd|root p wr Hm Hn Hr Hp Hd];
    try (cbn; discriminate); intros _; exists root, p.
  - split_and!; [done|by apply (rootWalk_prefix (fs s) _ _ _ Hp)|by left].
  - split_and!; [done|by apply (rootWalk_prefix (fs s) _ _ _ Hp)|].
    right. by exists wr.
Qed.

Lemma download_stays_in_storage_witness :
  let s' := serve (handlers.DownloadHandle theHandlers)
              (GET "/download/sub/../sub/b.txt") (hostState hostFs []) in
  ∃ root p,
    os.openRoot hostFs ["srv"] "storage" = Ok root
    ∧ os.dir root `prefix_of` p
    ∧ (hostFs !! p = Some (FileE (body (w s')))
       ∨ ∃ wr, hostFs !! p = Some (DirE wr) ∧ body (w s') = []).
Proof.
  apply (download_stays_in_storage theHandlers (GET "/download/sub/../sub/b.txt")
           (hostState hostFs [])).
  by vm_compute.
Defined.

(** X13. Asking for a directory of the storage directory is not an error for
    the handler: it answers 200 with the headers of a download, sends no
    body, since a directory cannot be read like a file, and logs the failed
    transfer. *)
Theorem download_of_a_directory h r s root p wr :
  Method r = "GET" →
  strings.TrimPrefix (Path r) "/download/" ≠ "" →
  os.openRoot (fs s) (cwd s) (config.StorageDir (handlers.uploader h)) = Ok root →
  rootWalk (fs s) (os.dir root) (strings.TrimPrefix (Path r) "/download/") = Ok p →
  fs s !! p = Some (DirE wr) →
  let s' := serve (handlers.DownloadHandle h) r s in
  status (w s') = Some 200%Z
  ∧ body (w s') = []
  ∧ header (w s') !! "Content-Type" = Some "application/octet-stream"
  ∧ (∃ size, os.stat (fs s) {| os.node := p |} = Ok size
             ∧ header (w s') !! "Content-Length" = Some (fmt.Sprint size))
  ∧ last (logged s')
    = Some {| format := "Error transferring file %s: %v";
              args := [LStr (strings.TrimPrefix (Path r) "/download/");
                       LErr EISDIR] |}
  ∧ fs s' = fs s.
Proof.
  intros Hm Hn Hr Hp Hd s'. subst s'.
  rewrite (DownloadHandle_directory _ _ _ root p wr) by done.
  unfold directoryAnswer. cbn. split_and!; try done.
  - exists os.dirSize. split; [|done]. unfold os.stat. cbn. by rewrite Hd.
  - change [received r; ?x] with ([received r] ++ [x]).
    by rewrite app_assoc, last_snoc.
Qed.

Lemma download_of_a_directory_witness :
  let s' := serve (handlers.DownloadHandle theHandlers) (GET "/download/sub")
              (hostState hostFs []) in
  status (w s') = Some 200%Z
  ∧ body (w s') = []
  ∧ header (w s') !! "Content-Type" = Some "application/octet-stream"
  ∧ (∃ size, os.stat hostFs {| os.node := ["srv"; "storage"; "sub"] |} = Ok size
             ∧ header (w s') !! "Content-Length" = Some (fmt.Sprint size))
  ∧ last (logged s')
    = Some {| format := "Error transferring file %s: %v";
              args := [LStr "sub"; LErr EISDIR] |}
  ∧ fs s' = hostFs.
Proof.
  apply (download_of_a_directory theHandlers (GET "/download/sub")
           (hostState hostFs []) storageRoot ["srv"; "storage"; "sub"] true).
  - reflexivity.
  - discriminate.
  - by vm_compute.
  - by vm_compute.
  - by vm_compute.
Defined.

(** X14. The two download handlers only read: whatever the request, they make
    no call that could change the host's file system, they leave it as it
    was (logging, which goes through the injected logger, apart), and they
    end by draining the request body. *)
Theorem downloads_change_nothing h r s :
  let s1 := serve (handlers.DownloadHandle h) r s in
  let s2 := serve (handlers.DownloadList h) r s in
  (fs s1 = fs s ∧ Forall (λ e, mutates e = false) (trace s1)
   ∧ last (trace s1) = Some BodyDiscard)
  ∧ (fs s2 = fs s ∧ Forall (λ e, mutates e = false) (trace s2)
     ∧ last (trace s2) = Some BodyDiscard).
Proof.
  intros s1 s2. subst s1 s2. split.
  - pose proof (DownloadHandle_cases h r s) as Hcase.
    remember (serve (handlers.DownloadHandle h) r s) as s' eqn:Hs'. clear Hs'.
    destruct Hcase; cbn; split_and!; try done; by repeat constructor.
  - pose proof (DownloadList_cases h r s) as Hcase.
    remember (serve (handlers.DownloadList h) r s) as s' eqn:Hs'. clear Hs'.
    destruct Hcase; cbn; split_and!; try done; by repeat constructor.
Qed.

(** ** The listing *)

Lemma ascii_compare_Lt_trans a b c :
  Ascii.compare a b = Lt → Ascii.compare b c = Lt → Ascii.compare a c = Lt.
Proof.
  unfold Ascii.compare. rewrite !N.compare_lt_iff. lia.
Qed.

(** The order of names [os.ReadDir] sorts by is transitive and total. *)
Lemma compare_not_Gt_trans a b c :
  String.compare a b ≠ Gt → String.compare b c ≠ Gt → String.compare a c ≠ Gt.
Proof.
  revert b c. induction a as [|x a IH]; intros [|y b] [|z c]; cbn; try done.
  destruct (Ascii.compare x y) eqn:Hxy; [| |done].
  - apply Ascii.compare_eq_iff in Hxy as ->.
    destruct (Ascii.compare y z); [apply IH|done..].
  - destruct (Ascii.compare y z) eqn:Hyz; [| |done].
    + apply Ascii.compare_eq_iff in Hyz as <-. by rewrite Hxy.
    + by rewrite (ascii_compare_Lt_trans _ _ _ Hxy Hyz).
Qed.

#[local] Instance nameLe_trans : Transitive os.nameLe.
Proof.
  intros a b c. unfold os.nameLe, String.leb. intros Hab Hbc.
  pose proof (compare_not_Gt_trans a b c) as H.
  destruct (String.compare a b), (String.compare b c), (String.compare a c);
    try done; exfalso; by apply H.
Qed.

#[local] Instance nameLe_total : Total os.nameLe.
Proof. intros a b. apply String.leb_total. Qed.

Lemma NoDup_omap_inj {A B} (f : A → option B) l :
  (∀ x y z, f x = Some z → f y = Some z → x = y) →
  NoDup l → NoDup (omap f l).
Proof.
  intros Hinj. induction 1 as [|x l Hx _ IH]; cbn; [constructor|].
  destruct (f x) as [z|] eqn:Hfx; [|done].
  constructor; [|done].
  intros (y & Hy & Hfy)%list_elem_of_omap.
  by rewrite (Hinj _ _ _ Hfx Hfy) in Hx.
Qed.

Lemma childName_Some p k name :
  os.childName p k = Some name ↔ k = p ++ [name].
Proof.
  unfold os.childName. case_bool_decide as Hk.
  - destruct Hk as [<- Hne]. split.
    + intros [= <-]. by apply app_removelast_last.
    + intros Hk. f_equal. rewrite Hk at 1. apply last_last.
  - split; [done|]. intros ->. destruct Hk. split.
    + apply removelast_last.
    + by destruct p.
Qed.

(** What [os.ReadDir] returns for a directory: the names of its entries,
    each once, in the order of the names. *)
Lemma readDir_Ok (t : gmap (list string) entry) cwd path files :
  os.readDir t cwd path = Ok files →
  ∃ root,
    os.openRoot t cwd path = Ok root
    ∧ StronglySorted os.nameLe files
    ∧ NoDup files
    ∧ ∀ name, name ∈ files ↔ is_Some (t !! (os.dir root ++ [name])).
Proof.
  unfold os.readDir, os.openRoot.
  destruct (hostWalk t cwd path) as [p|e]; [|done].
  destruct (t !! p) as [[d|wr]|]; [done| |done].
  intros [= <-]. exists {| os.dir := p |}. cbn.
  set (names := omap (os.childName p) (elements (dom t))).
  assert (Hperm : merge_sort os.nameLe names ≡ₚ names)
    by apply merge_sort_Permutation.
  split_and!; [done|exact (StronglySorted_merge_sort os.nameLe names)| |].
  - rewrite Hperm. apply NoDup_omap_inj; [|apply NoDup_elements].
    intros x y z Hx%childName_Some Hy%childName_Some. congruence.
  - intros name. rewrite Hperm. unfold names.
    rewrite list_elem_of_omap, <- elem_of_dom. split.
    + intros (k & Hk%elem_of_elements & ->%childName_Some). done.
    + intros Hk. exists (p ++ [name]). split; [by apply elem_of_elements|].
      by apply childName_Some.
Qed.

(** X15. A listing answered 200 names every entry of the storage directory,
    files and sub-directories alike, each once and in the byte-wise order
    of the names, and nothing else. *)
Theorem list_is_sorted_and_complete h r s :
  let s' := serve (handlers.DownloadList h) r s in
  status (w s') = Some 200%Z →
  ∃ root files,
    os.openRoot (fs s) (cwd s) (config.StorageDir (handlers.uploader h)) = Ok root
    ∧ w s' = listResponse files
    ∧ StronglySorted os.nameLe files
    ∧ NoDup files
    ∧ ∀ name, name ∈ files ↔ is_Some (fs s !! (os.dir root ++ [name])).
Proof.
  intros s'. subst s'.
  pose proof (DownloadList_cases h r s) as Hcase.
  remember (serve (handlers.DownloadList h) r s) as s' eqn:Hs'. clear Hs'.
  destruct Hcase as [Hm|e Hm Hd|files Hm Hd]; try (cbn; discriminate).
  intros _. destruct (readDir_Ok _ _ _ _ Hd) as (root & Hr & Hsorted & Hnd & Hin).
  by exists root, files.
Qed.

Lemma list_is_sorted_and_complete_witness :
  let s' := serve (handlers.DownloadList theHandlers) (GET "/download/list.txt")
              (hostState hostFs []) in
  ∃ root files,
    os.openRoot hostFs ["srv"] "storage" = Ok root
    ∧ w s' = listResponse files
    ∧ StronglySorted os.nameLe files
    ∧ NoDup files
    ∧ ∀ name, name ∈ files ↔ is_Some (hostFs !! (os.dir root ++ [name])).
Proof.
  apply (list_is_sorted_and_complete theHandlers (GET "/download/list.txt")
           (hostState hostFs [])).
  by vm_compute.
Defined.

(** ** The routes of the server, path by path *)

Lemma endsWithSlash_slash p : endsWithSlash (p +:+ "/") = true.
Proof. destruct p as [|c p]; [done|]. by rewrite endsWithSlash_app. Qed.

Lemma length_append a b :
  String.length (a +:+ b) = (String.length a + String.length b)%nat.
Proof.
  induction a as [|c a IH]; [done|].
  change (String c a +:+ b) with (String c (a +:+ b)). cbn. by rewrite IH.
Qed.

Lemma append_inj_r a b c : a +:+ c = b +:+ c → a = b.
Proof.
  revert b. induction a as [|x a IH]; intros [|y b] H; [done|..].
  - apply (f_equal String.length) in H. rewrite !length_append in H. cbn in H. lia.
  - apply (f_equal String.length) in H. rewrite !length_append in H. cbn in H. lia.
  - change (String x (a +:+ c) = String y (b +:+ c)) in H.
    injection H as -> H. f_equal. by apply IH.
Qed.

Lemma HasPrefix_app_inv q p s :
  strings.HasPrefix (p +:+ s) q = true →
  strings.HasPrefix p q = true
  ∨ ∃ q2, q = p +:+ q2 ∧ q2 ≠ "" ∧ strings.HasPrefix s q2 = true.
Proof.
  revert p. induction q as [|c q IH]; intros p; [by left|].
  destruct p as [|d p].
  { intros H. right. by exists (String c q). }
  change (String d p +:+ s) with (String d (p +:+ s)). cbn.
  intros [->%Ascii.eqb_eq H]%andb_prop. rewrite Ascii.eqb_refl. cbn.
  destruct (IH p H) as [?|(q2 & -> & Hne & Hq2)]; [by left|].
  right. by exists q2.
Qed.

Lemma HasPrefix_slash_download p :
  strings.HasPrefix (p +:+ "/") "/download/" = true →
  strings.HasPrefix p "/download/" = true ∨ p = "/download".
Proof.
  intros [?|(q2 & Hq & Hne & Hq2)]%HasPrefix_app_inv; [by left|]. right.
  destruct q2 as [|c [|c' q2]];
    [done| |cbn in Hq2; by rewrite andb_false_r in Hq2].
  cbn in Hq2. rewrite andb_true_r in Hq2. apply Ascii.eqb_eq in Hq2 as ->.
  symmetry. by apply (append_inj_r _ _ "/").
Qed.

Lemma HasPrefix_app_l p rest : strings.HasPrefix (p +:+ rest) p = true.
Proof.
  induction p as [|c p IH]; [done|].
  change (String c p +:+ rest) with (String c (p +:+ rest)). cbn.
  by rewrite Ascii.eqb_refl.
Qed.

Lemma HasPrefix_app_more s p rest :
  strings.HasPrefix s p = true → strings.HasPrefix (s +:+ rest) p = true.
Proof.
  revert s. induction p as [|c p IH]; intros [|d s]; cbn; try done.
  intros [Hc H]%andb_prop.
  change (String d s +:+ rest) with (String d (s +:+ rest)). cbn.
  rewrite Hc. by apply IH.
Qed.

Lemma HasPrefix_inv s p :
  strings.HasPrefix s p = true → ∃ rest, s = p +:+ rest.
Proof.
  revert s. induction p as [|c p IH]; intros s; cbn.
  { intros _. by exists s. }
  destruct s as [|d s]; [done|].
  intros [->%Ascii.eqb_eq [rest ->]%IH]%andb_prop. by exists rest.
Qed.

(** The registration the mux picks for a path. *)
Lemma matchPath_server cfg path :
  http.matchPath (server.Handler (server.HTTP (server.NewServer cfg))) path
  = if bool_decide (path = "/download/list.txt") then Some (listRoute cfg)
    else if strings.HasPrefix path "/download/" then Some (downloadRoute cfg)
    else if bool_decide (path = "/upload") then Some (uploadRoute cfg)
    else None.
Proof.
  unfold http.matchPath. cbn [server.NewServer server.Handler
    server.HTTP http.HandleFunc http.NewServeMux app fold_left].
  unfold http.pick, http.patternMatches. cbn [http.pattern].
  change (endsWithSlash "/upload") with false.
  change (endsWithSlash "/download/") with true.
  change (endsWithSlash "/download/list.txt") with false. cbv iota.
  destruct (decide (path = "/download/list.txt")) as [->|Hl]; [done|].
  rewrite !(bool_decide_eq_false_2 _ Hl).
  destruct (decide (path = "/upload")) as [->|Hu]; [done|].
  rewrite !(bool_decide_eq_false_2 _ Hu).
  by destruct (strings.HasPrefix path "/download/").
Qed.

(** Where the mux sends a request whose path is canonical, or whose method
    is CONNECT (for which the path is taken as it is). *)
Lemma findHandler_routeOf cfg r :
  Method r = "CONNECT" ∨ http.cleanPath (Path r) = Path r →
  http.findHandler (server.Handler (server.HTTP (server.NewServer cfg))) r
  = routeOf cfg (Path r).
Proof.
  intros Hclean.
  assert (Hmatch :
    http.matchOrRedirect (server.Handler (server.HTTP (server.NewServer cfg)))
      (Path r) (Path r)
    = match routeOf cfg (Path r) with
      | http.RouteHandler e => (Some e, None)
      | http.RouteRedirect url => (None, Some url)
      | http.RouteNotFound => (None, None)
      end).
  { unfold http.matchOrRedirect, routeOf. rewrite !matchPath_server.
    set (path := Path r).
    rewrite (bool_decide_eq_false_2 (path +:+ "/" = "/download/list.txt")).
    2:{ intros H. apply (f_equal endsWithSlash) in H.
        by rewrite endsWithSlash_slash in H. }
    rewrite (bool_decide_eq_false_2 (path +:+ "/" = "/upload")).
    2:{ intros H. apply (f_equal endsWithSlash) in H.
        by rewrite endsWithSlash_slash in H. }
    case_bool_decide as Hu; [by rewrite Hu|].
    case_bool_decide as Hl; [by rewrite Hl|].
    destruct (strings.HasPrefix path "/download/") eqn:Hd.
    - rewrite (HasPrefix_app_more _ _ "/" Hd).
      unfold http.exactMatch. cbn [http.pattern downloadRoute].
      change (endsWithSlash "/download/") with true. cbv iota.
      apply HasPrefix_inv in Hd as [rest Hrest].
      case_bool_decide as He; [done|].
      rewrite (bool_decide_eq_false_2 (path +:+ "/" = "/download/")).
      2:{ rewrite Hrest. change (("/download/" +:+ rest) +:+ "/")
            with ("/download/" +:+ (rest +:+ "/")).
          intros H. apply (append_inj_l "/download/" _ "") in H.
          by destruct rest. }
      cbn. by destruct (endsWithSlash path).
    - unfold http.exactMatch at 1. cbn [negb andb].
      destruct (endsWithSlash path) eqn:Hs.
      { cbn. case_bool_decide as Hdl; [|done]. by rewrite Hdl in Hs. }
      cbn [negb].
      destruct (strings.HasPrefix (path +:+ "/") "/download/") eqn:Hd2.
      + apply HasPrefix_slash_download in Hd2 as [Hd2|Hd2]; [congruence|].
        rewrite Hd2. by cbn.
      + cbn. case_bool_decide as Hdl; [|done]. rewrite Hdl in Hd2. by cbn in Hd2. }
  unfold http.findHandler.
  case_bool_decide as Hm.
  - rewrite Hmatch. by destruct (routeOf cfg (Path r)).
  - destruct Hclean as [?|Hclean]; [done|]. cbv zeta. rewrite Hclean, Hmatch.
    rewrite (bool_decide_eq_false_2 (Path r ≠ Path r)) by (intros H; by apply H).
    by destruct (routeOf cfg (Path r)).
Qed.



Lemma NotFound_run s :
  w s = newResponse →
  http.NotFound s = (tt, setW (errorResponse "404 page not found" 404) s).
Proof. intros Hw. unfold http.NotFound. by rewrite Error_run. Qed.

(** X18. A request for a canonical path that has no route is answered by the
    mux with 404 "404 page not found": no handler runs, so nothing is
    logged, no system call is made and the request body is not drained by
    the program. *)
Theorem paths_without_a_route cfg r s :
  http.cleanPath (Path r) = Path r →
  Path r ≠ "/upload" →
  Path r ≠ "/download" →
  strings.HasPrefix (Path r) "/download/" = false →
  serveHTTP (server.NewServer cfg) r s
  = muxAnswer (errorResponse "404 page not found" 404) s.
Proof.
  intros Hc Hu Hd Hp. unfold serveHTTP, serve, http.ServeHTTP.
  rewrite (findHandler_routeOf cfg r (or_intror Hc)). unfold routeOf.
  rewrite (bool_decide_eq_false_2 _ Hu), Hp, (bool_decide_eq_false_2 _ Hd).
  rewrite (bool_decide_eq_false_2 (Path r = "/download/list.txt")).
  2:{ intros H. by rewrite H in Hp. }
  by rewrite NotFound_run.
Qed.

Lemma paths_without_a_route_witness :
  serveHTTP theServer (POST "/upload/" [filePart "file" "a.txt" "hello"])
    (hostState hostFs [])
  = muxAnswer (errorResponse "404 page not found" 404) (hostState hostFs []).
Proof.
  apply (paths_without_a_route defaultConfig
           (POST "/upload/" [filePart "file" "a.txt" "hello"])
           (hostState hostFs [])); by vm_compute.
Defined.

Lemma Redirect_run r url s :
  w s = newResponse →
  let s' := snd (http.Redirect r url http.StatusMovedPermanently s) in
  status (w s') = Some 301%Z
  ∧ header (w s') !! "Location" = Some url
  ∧ (Method r = "GET" → w s' = redirectResponse url)
  ∧ fs s' = fs s ∧ logged s' = logged s ∧ trace s' = trace s
  ∧ cwd s' = cwd s.
Proof.
  intros Hw. unfold http.Redirect. mrun. rewrite Hw. cbn.
  destruct (decide (Method r = "GET")) as [Hm|Hm].
  - rewrite Hm. cbn. split_and!; try done.
  - rewrite (bool_decide_eq_false_2 (Method r = "GET")) by done.
    case_bool_decide as Hh; cbn; split_and!; done.
Qed.

Lemma matchOrRedirect_entry cfg path upath e u :
  http.matchOrRedirect (server.Handler (server.HTTP (server.NewServer cfg)))
    path upath = (Some e, u) →
  e = uploadRoute cfg ∨ e = downloadRoute cfg ∨ e = listRoute cfg.
Proof.
  unfold http.matchOrRedirect. rewrite !matchPath_server.
  assert (Hn : ∀ n : option http.muxEntry,
             n = (if bool_decide (path = "/download/list.txt")
                  then Some (listRoute cfg)
                  else if strings.HasPrefix path "/download/"
                       then Some (downloadRoute cfg)
                       else if bool_decide (path = "/upload")
                            then Some (uploadRoute cfg) else None) →
             n = Some e →
             e = uploadRoute cfg ∨ e = downloadRoute cfg ∨ e = listRoute cfg).
  { intros n -> Hn.
    destruct (bool_decide (path = "/download/list.txt"));
      [injection Hn as <-; auto|].
    destruct (strings.HasPrefix path "/download/"); [injection Hn as <-; auto|].
    destruct (bool_decide (path = "/upload")); [injection Hn as <-; auto|done]. }
  destruct (negb _ && negb _).
  - destruct (http.exactMatch _ (path +:+ "/")); [done|].
    intros [= Hn' _]. by apply (Hn _ eq_refl).
  - intros [= Hn' _]. by apply (Hn _ eq_refl).
Qed.

(** A request is served by one of the three handlers or by the mux
    itself, which touches nothing. *)
Lemma ServeHTTP_cases cfg r s :
  let s' := serveHTTP (server.NewServer cfg) r s in
  s' = serve (handlers.UploadHandler (handlers.NewHandlers cfg)) r s
  ∨ s' = serve (handlers.DownloadHandle (handlers.NewHandlers cfg)) r s
  ∨ s' = serve (handlers.DownloadList (handlers.NewHandlers cfg)) r s
  ∨ (fs s' = fs s ∧ cwd s' = cwd s ∧ logged s' = logged s ∧ trace s' = []
     ∧ (status (w s') = Some 301%Z ∨ status (w s') = Some 404%Z)).
Proof.
  intros s'. subst s'. unfold serveHTTP, serve, http.ServeHTTP.
  destruct (http.findHandler _ r) as [e|url|] eqn:Hroute.
  - assert (He : e = uploadRoute cfg ∨ e = downloadRoute cfg
                 ∨ e = listRoute cfg).
    { unfold http.findHandler in Hroute. case_bool_decide.
      - destruct (http.matchOrRedirect _ _ _) as [[n|] [u|]] eqn:Hmr; try done.
        injection Hroute as ->. by apply (matchOrRedirect_entry _ _ _ _ _ Hmr).
      - cbv zeta in Hroute.
        destruct (http.matchOrRedirect _ _ _) as [[n|] [u|]] eqn:Hmr; try done;
          case_bool_decide; try done.
        injection Hroute as ->. by apply (matchOrRedirect_entry _ _ _ _ _ Hmr). }
    destruct He as [-> | [-> | ->]]; auto.
  - right; right; right.
    destruct (Redirect_run r url (accept s) eq_refl)
      as (Hst & _ & _ & Hfs & Hlg & Htr & Hcwd).
    split_and!; try done. by left.
  - right; right; right. rewrite NotFound_run by done.
    split_and!; try done. by right.
Qed.

(** ** The answers of the server *)

Ltac in_codes := unfold statusCodes; repeat (first [by left | right]).

Lemma UploadHandler_status h r s :
  ∃ code, status (w (serve (handlers.UploadHandler h) r s)) = Some code
          ∧ code ∈ [200; 207; 405; 500]%Z.
Proof.
  pose proof (UploadHandler_cases h r s) as Hcase.
  remember (serve (handlers.UploadHandler h) r s) as s' eqn:Hs'. clear Hs'.
  destruct Hcase as [Hm|s' Hm Hb Hst Hfs Htr|parts e s' Hm Hc Hl Hmk Hw Hfs Htr
                    |parts t1 e s' Hm Hc Hl Hmk Hr Hw Hfs Htr
                    |parts t1 root errs s1 Hm Hc Hl Hmk Hr Hloop].
  - exists 405%Z. split; [done|]. in_codes.
  - exists 500%Z. split; [done|]. in_codes.
  - exists 500%Z. rewrite Hw. split; [done|]. in_codes.
  - exists 500%Z. rewrite Hw. split; [done|]. in_codes.
  - cbn. rewrite uploadResponse_status. destruct errs.
    + exists 200%Z. split; [done|]. in_codes.
    + exists 207%Z. split; [done|]. in_codes.
Qed.

Lemma DownloadHandle_status h r s :
  ∃ code, status (w (serve (handlers.DownloadHandle h) r s)) = Some code
          ∧ code ∈ [200; 400; 404; 405; 500]%Z.
Proof.
  pose proof (DownloadHandle_cases h r s) as Hcase.
  remember (serve (handlers.DownloadHandle h) r s) as s' eqn:Hs'. clear Hs'.
  destruct Hcase; cbn; eexists; (split; [done|]); in_codes.
Qed.

Lemma DownloadList_status h r s :
  ∃ code, status (w (serve (handlers.DownloadList h) r s)) = Some code
          ∧ code ∈ [200; 405; 500]%Z.
Proof.
  pose proof (DownloadList_cases h r s) as Hcase.
  remember (serve (handlers.DownloadList h) r s) as s' eqn:Hs'. clear Hs'.
  destruct Hcase; cbn; eexists; (split; [done|]); in_codes.
Qed.

Lemma codes_included (codes : list Z) code :
  code ∈ codes → Forall (λ c, c ∈ statusCodes) codes → code ∈ statusCodes.
Proof. intros Hin Hall. by apply (proj1 (Forall_forall _ _) Hall). Qed.

Lemma ServeHTTP_status cfg r s :
  ∃ code, status (w (serveHTTP (server.NewServer cfg) r s)) = Some code
          ∧ code ∈ statusCodes.
Proof.
  destruct (ServeHTTP_cases cfg r s)
    as [-> | [-> | [-> | (_ & _ & _ & _ & [Hst|Hst])]]].
  - destruct (UploadHandler_status (handlers.NewHandlers cfg) r s)
      as (code & Hst & Hin).
    exists code. split; [exact Hst|].
    apply (codes_included _ _ Hin). repeat constructor; in_codes.
  - destruct (DownloadHandle_status (handlers.NewHandlers cfg) r s)
      as (code & Hst & Hin).
    exists code. split; [exact Hst|].
    apply (codes_included _ _ Hin). repeat constructor; in_codes.
  - destruct (DownloadList_status (handlers.NewHandlers cfg) r s)
      as (code & Hst & Hin).
    exists code. split; [exact Hst|].
    apply (codes_included _ _ Hin). repeat constructor; in_codes.
  - exists 301%Z. split; [done|in_codes].
  - exists 404%Z. split; [done|in_codes].
Qed.

(** X20. Every request is answered, whatever its method, path and body and
    whatever the state of the host: the upload handler with 200, 207, 405
    or 500, the download handler with 200, 400, 404, 405 or 500, the list
    handler with 200, 405 or 500, and the server as a whole with one of
    these or with the 301 and 404 of its mux. *)
Theorem server_always_answers cfg h r s :
  (∃ code, status (w (serve (handlers.UploadHandler h) r s)) = Some code
           ∧ code ∈ [200; 207; 405; 500]%Z)
  ∧ (∃ code, status (w (serve (handlers.DownloadHandle h) r s)) = Some code
             ∧ code ∈ [200; 400; 404; 405; 500]%Z)
  ∧ (∃ code, status (w (serve (handlers.DownloadList h) r s)) = Some code
             ∧ code ∈ [200; 405; 500]%Z)
  ∧ (∃ code, status (w (serveHTTP (server.NewServer cfg) r s)) = Some code
             ∧ code ∈ statusCodes).
Proof.
  split_and!; [apply UploadHandler_status|apply DownloadHandle_status
              |apply DownloadList_status|apply ServeHTTP_status].
Qed.

(** ** Upload, then list *)

Lemma UploadHandler_cwd h r s : cwd (serve (handlers.UploadHandler h) r s) = cwd s.
Proof.
  pose proof (UploadHandler_cases h r s) as Hcase.
  remember (serve (handlers.UploadHandler h) r s) as s' eqn:Hs'. clear Hs'.
  destruct Hcase as [Hm|s' Hm Hb Hst Hfs Htr Hcwd
                    |parts e s' Hm Hc Hl Hmk Hw Hfs Htr Hcwd
                    |parts t1 e s' Hm Hc Hl Hmk Hr Hw Hfs Htr Hcwd
                    |parts t1 root errs s1 Hm Hc Hl Hmk Hr Hloop];
    try done.
  cbn. apply uploadFiles_rounds in Hloop.
  by destruct (rounds_frame _ _ _ _ _ _ _ Hloop Hr (tagged_baseName _ _))
    as ((Hcwd & _) & _).
Qed.

(** X22. After an upload through the server that was answered 200, a listing
    through the server is answered 200 and names every file part of the
    upload. *)
Theorem uploaded_files_are_listed cfg r s parts p r2 :
  Path r = "/upload" →
  carried (Body r) = FormData parts →
  rangeOrderOK (mapOrder s) (multipart.File (multipart.readForm parts)) →
  let s1 := serveHTTP (server.NewServer cfg) r s in
  status (w s1) = Some 200%Z →
  p ∈ fileParts parts →
  Method r2 = "GET" →
  Path r2 = "/download/list.txt" →
  let s2 := serveHTTP (server.NewServer cfg) r2 s1 in
  ∃ files, w s2 = listResponse files ∧ multipart.Part_FileName p ∈ files.
Proof.
  intros Hp Hb Hok s1 Hst Hin Hm2 Hp2 s2. subst s1 s2.
  unfold serveHTTP, serve, http.ServeHTTP in *.
  rewrite (route_upload cfg r Hp) in *. rewrite (route_list cfg r2 Hp2).
  cbn [http.handler] in *.
  change (snd (handlers.UploadHandler (handlers.NewHandlers cfg) r (accept s)))
    with (serve (handlers.UploadHandler (handlers.NewHandlers cfg)) r s) in *.
  set (s1 := serve (handlers.UploadHandler (handlers.NewHandlers cfg)) r s) in *.
  destruct (UploadHandler_stores _ r s parts p Hb Hok Hst Hin)
    as (_ & _ & _ & _ & root & p' & Hr & _ & _ & Hlook).
  fold s1 in Hr, Hlook.
  assert (Hcwd : cwd s1 = cwd s) by apply UploadHandler_cwd.
  rewrite <- Hcwd in Hr.
  destruct (readDir_child _ _ _ _ _ _ Hr Hlook) as (files & Hd & Hfiles).
  exists files. split; [|done].
  change (snd (handlers.DownloadList (handlers.NewHandlers cfg) r2 (accept s1)))
    with (serve (handlers.DownloadList (handlers.NewHandlers cfg)) r2 s1).
  by rewrite (DownloadList_run _ _ _ files).
Qed.

Lemma uploaded_files_are_listed_witness :
  let parts := [filePart "file" "a.txt" "first"; filePart "more" "b.txt" "second"] in
  let s1 := serveHTTP theServer (POST "/upload" parts)
              (hostState emptyHostFs ["more"; "file"]) in
  let s2 := serveHTTP theServer (GET "/download/list.txt") s1 in
  ∃ files, w s2 = listResponse files ∧ "b.txt" ∈ files.
Proof.
  apply (uploaded_files_are_listed defaultConfig
           (POST "/upload" [filePart "file" "a.txt" "first";
                            filePart "more" "b.txt" "second"])
           (hostState emptyHostFs ["more"; "file"])
           [filePart "file" "a.txt" "first"; filePart "more" "b.txt" "second"]
           (filePart "more" "b.txt" "second") (GET "/download/list.txt")).
  - reflexivity.
  - reflexivity.
  - unfold rangeOrderOK. refine (bool_decide_unpack _ _). by vm_compute.
  - by vm_compute.
  - apply elem_of_fileParts. split; [right; left|reflexivity].
  - reflexivity.
  - reflexivity.
Defined.

(** ** Names that name no file *)

Lemma not_isName_baseName name :
  baseName name → ¬ isName name → name = "." ∨ name = ".." ∨ name = "/".
Proof.
  intros [->|[Hne Hns]] Hn; [by right; right|].
  destruct (decide (name = ".")) as [->|H1]; [by left|].
  destruct (decide (name = "..")) as [->|H2]; [by right; left|].
  by destruct Hn.
Qed.

Lemma rootWalk_dot t root :
  rootWalk t root "."
  = match t !! root with
    | Some (DirE _) => Ok root
    | Some (FileE _) => Err ENOTDIR
    | None => Err ENOENT
    end.
Proof.
  unfold rootWalk. change (bool_decide ("." = "")) with false.
  change (strings.HasPrefix "." "/") with false. cbv iota.
  change (strings.SplitSlash ".") with ["."]. cbn [walk]. unfold step.
  by destruct (t !! root) as [[d|wr]|].
Qed.

Lemma rootWalk_dotdot t root : ∃ e, rootWalk t root ".." = Err e.
Proof.
  unfold rootWalk. change (bool_decide (".." = "")) with false.
  change (strings.HasPrefix ".." "/") with false. cbv iota.
  change (strings.SplitSlash "..") with [".."]. cbn [walk]. unfold step.
  destruct (t !! root) as [[d|wr]|]; try by eexists.
  unfold move. change (bool_decide (".." = "" ∨ ".." = ".")) with false.
  change (bool_decide (".." = "..")) with true. cbv iota.
  rewrite bool_decide_eq_true_2 by done. by eexists.
Qed.

Lemma create_no_name t root name :
  name = "." ∨ name = ".." ∨ name = "/" → ∃ e, os.create t root name = Err e.
Proof.
  unfold os.create. intros [-> | [-> | ->]].
  - rewrite rootWalk_dot.
    destruct (t !! os.dir root) as [[d|wr]|] eqn:Hd; try by eexists.
    rewrite Hd. by eexists.
  - destruct (rootWalk_dotdot t (os.dir root)) as [e ->]. by eexists.
  - by eexists.
Qed.

(** X4. A file part whose file name comes out of [filepath.Base] as ".", ".."
    or "/" (sent as "..", "docs/..", "." or "/", say) is never stored and
    cannot harm: [root.Create] fails for it whatever the state of the
    storage directory, and its round leaves the file system as it was.
    When the content of the part can be opened, the round records "error
    creating file" and closes the part; when it cannot, the round records
    "error getting file" and [root.Create] is not called. *)
Theorem names_that_name_no_file h root fieldName p errs s :
  isFilePart p = true →
  ¬ isName (multipart.Part_FileName p) →
  ∃ e,
    os.create (fs s) root (multipart.Part_FileName p) = Err e
    ∧ handlers.uploadFile h root fieldName (multipart.header p) errs s
      = if spoolLost p
        then (errs ++ [msgOpen fieldName (multipart.header p)],
              {| fs := fs s; cwd := cwd s; mapOrder := mapOrder s; w := w s;
                 logged := logged s
                           ++ [{| format := "%s: %v\n";
                                  args := [LStr (msgOpen fieldName
                                                   (multipart.header p));
                                           LErr ErrSpool] |}];
                 trace := trace s ++ [PartOpen (multipart.header p)] |})
        else (errs ++ [msgCreate (multipart.header p)],
              {| fs := fs s; cwd := cwd s; mapOrder := mapOrder s; w := w s;
                 logged := logged s
                           ++ [{| format := "%s: %v\n";
                                  args := [LStr (msgCreate (multipart.header p));
                                           LErr e] |}];
                 trace := trace s
                          ++ [PartOpen (multipart.header p);
                              SysCreate (os.dir root) (multipart.Part_FileName p);
                              PartClose (multipart.header p)] |}).
Proof.
  intros Hfp Hn.
  destruct (create_no_name (fs s) root (multipart.Part_FileName p)) as [e He].
  { apply not_isName_baseName; [|done]. by apply filePart_baseName. }
  exists e. split; [done|]. destruct (spoolLost p) eqn:Ho.
  - by apply (uploadFile_openErr h root fieldName (multipart.header p) errs s).
  - by apply (uploadFile_createErr h root fieldName (multipart.header p) errs s e).
Qed.

Lemma names_that_name_no_file_witness :
  (∃ e,
     os.create hostFs storageRoot (multipart.Part_FileName dotDotPart) = Err e
     ∧ handlers.uploadFile theHandlers storageRoot "file"
         (multipart.header dotDotPart) [] (hostState hostFs [])
       = ([] ++ [msgCreate (multipart.header dotDotPart)],
          {| fs := hostFs; cwd := ["srv"]; mapOrder := []; w := newResponse;
             logged := [] ++ [{| format := "%s: %v\n";
                                 args := [LStr (msgCreate (multipart.header dotDotPart));
                                          LErr e] |}];
             trace := [] ++ [PartOpen (multipart.header dotDotPart);
                             SysCreate ["srv"; "storage"]
                               (multipart.Part_FileName dotDotPart);
                             PartClose (multipart.header dotDotPart)] |}))
  ∧ (∃ e,
       os.create hostFs storageRoot
         (multipart.Part_FileName (lostPart "file" "docs/.." "x")) = Err e
       ∧ handlers.uploadFile theHandlers storageRoot "file"
           (multipart.header (lostPart "file" "docs/.." "x")) []
           (hostState hostFs [])
         = ([] ++ [msgOpen "file" (multipart.header (lostPart "file" "docs/.." "x"))],
            {| fs := hostFs; cwd := ["srv"]; mapOrder := []; w := newResponse;
               logged := [] ++ [{| format := "%s: %v\n";
                                   args := [LStr (msgOpen "file"
                                                    (multipart.header
                                                       (lostPart "file" "docs/.." "x")));
                                            LErr ErrSpool] |}];
               trace := [] ++ [PartOpen (multipart.header
                                           (lostPart "file" "docs/.." "x"))] |})).
Proof.
  split.
  - apply (names_that_name_no_file theHandlers storageRoot "file" dotDotPart []
             (hostState hostFs [])).
    + reflexivity.
    + vm_compute. intros (_ & _ & H & _). by apply H.
  - apply (names_that_name_no_file theHandlers storageRoot "file"
             (lostPart "file" "docs/.." "x") [] (hostState hostFs [])).
    + reflexivity.
    + vm_compute. intros (_ & _ & H & _). by apply H.
Defined.

(** ** The storage directory stays *)

Lemma mkdirWalk_exists t elems cur p :
  walk t None cur elems = Ok p → isDir t p = true →
  os.mkdirWalk t cur elems = Ok t.
Proof.
  revert cur. induction elems as [|c elems IH]; intros cur; cbn; [done|].
  destruct (step t None cur c) as [cur'|e] eqn:Hs; [|done].
  intros Hw Hp. pose proof Hs as [Hd Hmv]%step_Ok.
  apply isDir_true in Hd as [wr Hd]. rewrite Hd.
  assert (Hd' : isDir t cur' = true).
  { destruct elems as [|c' elems].
    - cbn in Hw. by injection Hw as ->.
    - by apply (walk_first_isDir t None cur' (c' :: elems) p). }
  unfold move in Hmv. case_bool_decide.
  { injection Hmv as <-. by apply IH. }
  case_bool_decide.
  { cbn in Hmv. injection Hmv as <-. by apply IH. }
  injection Hmv as <-. apply isDir_true in Hd' as [wr' Hd']. rewrite Hd'.
  by apply IH.
Qed.

(** [os.MkdirAll] on a path that is a directory changes nothing. *)
Lemma mkdirAll_exists t cwd path root :
  os.openRoot t cwd path = Ok root → os.mkdirAll t cwd path = Ok t.
Proof.
  intros [Hw Hd]%openRoot_Ok. unfold os.mkdirAll, hostWalk in *.
  case_bool_decide; [done|]. by apply (mkdirWalk_exists _ _ _ (os.dir root)).
Qed.

Lemma UploadHandler_root_stays h r s root :
  os.openRoot (fs s) (cwd s) (config.StorageDir (handlers.uploader h)) = Ok root →
  let s' := serve (handlers.UploadHandler h) r s in
  os.openRoot (fs s') (cwd s') (config.StorageDir (handlers.uploader h)) = Ok root
  ∧ sameDirs (fs s) (fs s').
Proof.
  intros Hroot s'. subst s'.
  pose proof (mkdirAll_exists _ _ _ _ Hroot) as Hsame.
  pose proof (UploadHandler_cases h r s) as Hcase.
  remember (serve (handlers.UploadHandler h) r s) as s' eqn:Hs'. clear Hs'.
  destruct Hcase as [Hm|s' Hm Hb Hst Hfs Htr Hcwd
                    |parts e s' Hm Hc Hl Hmk Hw Hfs Htr Hcwd
                    |parts t1 e s' Hm Hc Hl Hmk Hr Hw Hfs Htr Hcwd
                    |parts t1 root' errs s1 Hm Hc Hl Hmk Hr Hloop].
  - done.
  - rewrite Hfs, Hcwd. done.
  - congruence.
  - congruence.
  - rewrite Hsame in Hmk. injection Hmk as <-.
    rewrite Hroot in Hr. injection Hr as <-. cbn.
    apply uploadFiles_rounds in Hloop.
    by destruct (rounds_frame _ _ _ _ _ _ _ Hloop Hroot (tagged_baseName _ _))
      as (_ & Hr1 & Hsame' & _).
Qed.

(** X21. Once the storage directory is there, it stays: whatever request the
    server serves, the storage path still leads to the same directory
    afterwards, no directory of the host has been made or removed, and an
    upload has not had to make the directory again. *)
Theorem storage_directory_stays cfg r s root :
  os.openRoot (fs s) (cwd s) (config.StorageDir (config.Uploader cfg)) = Ok root →
  let s' := serveHTTP (server.NewServer cfg) r s in
  os.openRoot (fs s') (cwd s') (config.StorageDir (config.Uploader cfg)) = Ok root
  ∧ sameDirs (fs s) (fs s')
  ∧ os.mkdirAll (fs s) (cwd s) (config.StorageDir (config.Uploader cfg))
    = Ok (fs s).
Proof.
  intros Hroot s'. subst s'.
  split_and!; [| |by apply (mkdirAll_exists _ _ _ root)].
  all: destruct (ServeHTTP_cases cfg r s) as [-> | [-> | [-> | Hmux]]].
  all: try apply (UploadHandler_root_stays (handlers.NewHandlers cfg) r s root Hroot).
  all: try (pose proof (DownloadHandle_cases (handlers.NewHandlers cfg) r s) as Hcase;
            by destruct Hcase).
  all: try (pose proof (DownloadList_cases (handlers.NewHandlers cfg) r s) as Hcase;
            by destruct Hcase).
  all: destruct Hmux as (Hfs & Hcwd & _); by rewrite Hfs, ?Hcwd.
Qed.

Lemma storage_directory_stays_witness :
  let s' := serveHTTP theServer
              (POST "/upload" [filePart "file" "sub" "not a directory"])
              (hostState hostFs ["file"]) in
  os.openRoot (fs s') (cwd s') "storage" = Ok storageRoot
  ∧ sameDirs hostFs (fs s')
  ∧ os.mkdirAll hostFs ["srv"] "storage" = Ok hostFs.
Proof.
  apply (storage_directory_stays defaultConfig
           (POST "/upload" [filePart "file" "sub" "not a directory"])
           (hostState hostFs ["file"]) storageRoot).
  by vm_compute.
Defined.

(** ** The configuration and the start of the server *)

(** X24. The size limits in bytes are the configured numbers of megabytes times
    2^20 as long as that fits an int64, that is for numbers from -2^43 up
    to, but not including, 2^43. *)
Theorem size_limits_in_bytes uc :
  (- 2 ^ 43 ≤ config.MaxUploadSizeMB uc < 2 ^ 43)%Z →
  (- 2 ^ 43 ≤ config.MaxFormMemSizeMB uc < 2 ^ 43)%Z →
  config.GetMaxUploadSize uc = (config.MaxUploadSizeMB uc * 1048576)%Z
  ∧ config.GetMaxFormMemSize uc = (config.MaxFormMemSizeMB uc * 1048576)%Z.
Proof.
  intros Hu Hf. unfold config.GetMaxUploadSize, config.GetMaxFormMemSize, int64.
  rewrite !Z.shiftl_mul_pow2 by lia.
  change (2 ^ 20)%Z with 1048576%Z. change (2 ^ 43)%Z with 8796093022208%Z in *.
  change (2 ^ 63)%Z with 9223372036854775808%Z.
  change (2 ^ 64)%Z with 18446744073709551616%Z.
  split; rewrite Z.mod_small; lia.
Qed.

Lemma size_limits_in_bytes_witness :
  config.GetMaxUploadSize (config.Uploader defaultConfig) = (3072 * 1048576)%Z
  ∧ config.GetMaxFormMemSize (config.Uploader defaultConfig) = (32 * 1048576)%Z.
Proof.
  apply (size_limits_in_bytes (config.Uploader defaultConfig)); cbn; lia.
Defined.

(** X9. With a limit from -2^43 to 0 megabytes, or from 2^43 up to, but not
    including, 2^44 megabytes (for which the number of bytes wraps around
    to a negative int64), [GetMaxUploadSize] is not positive and the upload
    handler lets no body through: every POST that carries a form, its body
    not being empty, is turned away with 500 before the storage directory
    is touched. *)
Theorem limit_without_room_rejects_uploads h r s parts :
  (- 2 ^ 43 ≤ config.MaxUploadSizeMB (handlers.uploader h) ≤ 0
   ∨ 2 ^ 43 ≤ config.MaxUploadSizeMB (handlers.uploader h) < 2 ^ 44)%Z →
  Method r = "POST" →
  carried (Body r) = FormData parts →
  (0 < wireLen (Body r))%Z →
  let s' := serve (handlers.UploadHandler h) r s in
  (config.GetMaxUploadSize (handlers.uploader h) ≤ 0)%Z
  ∧ status (w s') = Some 500%Z
  ∧ fs s' = fs s
  ∧ trace s' = [BodyDiscard].
Proof.
  intros Hmb Hm Hc Hlen s'. subst s'.
  assert (Hneg : (config.GetMaxUploadSize (handlers.uploader h) ≤ 0)%Z).
  { unfold config.GetMaxUploadSize, int64.
    rewrite Z.shiftl_mul_pow2 by lia.
    change (2 ^ 20)%Z with 1048576%Z.
    change (2 ^ 43)%Z with 8796093022208%Z in *.
    change (2 ^ 44)%Z with 17592186044416%Z in *.
    change (2 ^ 63)%Z with 9223372036854775808%Z.
    change (2 ^ 64)%Z with 18446744073709551616%Z.
    destruct Hmb as [Hmb|Hmb].
    - rewrite Z.mod_small; lia.
    - set (mb := config.MaxUploadSizeMB (handlers.uploader h)) in *.
      replace ((mb * 1048576 + 9223372036854775808) mod 18446744073709551616)%Z
        with (mb * 1048576 - 9223372036854775808)%Z; [lia|].
      apply (Z.mod_unique_pos _ _ 1); lia. }
  split; [done|].
  destruct (UploadHandler_not_parsed h r s Hm) as (Hst & Hfs & Htr & _); [|done].
  right. unfold withinLimit. lia.
Qed.

Lemma limit_without_room_rejects_uploads_witness :
  let h := {| handlers.uploader :=
                {| config.StorageDir := "storage"; config.MaxUploadSizeMB := 0;
                   config.MaxFormMemSizeMB := 32 |} |} in
  let s' := serve (handlers.UploadHandler h)
              (POST "/upload" [filePart "file" "a.txt" "hello"])
              (hostState hostFs ["file"]) in
  (config.GetMaxUploadSize (handlers.uploader h) ≤ 0)%Z
  ∧ status (w s') = Some 500%Z
  ∧ fs s' = hostFs
  ∧ trace s' = [BodyDiscard].
Proof.
  apply (limit_without_room_rejects_uploads
           {| handlers.uploader :=
                {| config.StorageDir := "storage"; config.MaxUploadSizeMB := 0;
                   config.MaxFormMemSizeMB := 32 |} |}
           (POST "/upload" [filePart "file" "a.txt" "hello"])
           (hostState hostFs ["file"]) [filePart "file" "a.txt" "hello"]).
  - left. cbn. lia.
  - reflexivity.
  - reflexivity.
  - cbn. lia.
Defined.

(** X25. [NewConfig] reads the file once and writes nothing.  It logs only when
    the file does not exist; it fails exactly when the file cannot be read
    for another reason or does not parse, with that error; and it succeeds
    with the defaults when the file does not exist and with what the
    decoder makes of the file over the defaults otherwise. *)
Theorem NewConfig_exits
    (yaml_Unmarshal : list byte → config.Config → result config.Config) path s :
  let res := fst (config.NewConfig yaml_Unmarshal path s) in
  let s' := snd (config.NewConfig yaml_Unmarshal path s) in
  fs s' = fs s
  ∧ trace s' = trace s ++ [SysReadFile path]
  ∧ (logged s' = logged s
     ∨ (os.readFile (fs s) (cwd s) path = Err ENOENT
        ∧ logged s'
          = logged s
            ++ [{| format :=
                     "warn: config file '%s' not found, using default settings.\n";
                   args := [LStr path] |}]))
  ∧ (∀ e, res = Err e ↔
          (os.readFile (fs s) (cwd s) path = Err e ∧ e ≠ ENOENT)
          ∨ ∃ data, os.readFile (fs s) (cwd s) path = Ok data
                    ∧ yaml_Unmarshal data defaultConfig = Err e)
  ∧ (∀ cfg, res = Ok cfg ↔
            (os.readFile (fs s) (cwd s) path = Err ENOENT ∧ cfg = defaultConfig)
            ∨ ∃ data, os.readFile (fs s) (cwd s) path = Ok data
                      ∧ yaml_Unmarshal data defaultConfig = Ok cfg).
Proof.
  intros res s'. subst res s'. unfold config.NewConfig. mrun.
  change {| config.Server := _; config.Uploader := _ |} with defaultConfig.
  destruct (os.readFile (fs s) (cwd s) path) as [data|e] eqn:Hrd; cbn.
  - destruct (yaml_Unmarshal data defaultConfig) as [cfg|e] eqn:Hy; cbn;
      (split_and!; [done|done|by left|..]); intros x; split;
      try discriminate;
      try (intros [= <-]; right; by exists data);
      intros [[? ?]|(d & ? & ?)]; congruence.
  - unfold os.IsNotExist. case_bool_decide as He; cbn.
    + subst e. split_and!; [done|done|by right|..]; intros x; split;
        try discriminate;
        try (intros [= <-]; by left);
        intros [[? ?]|(d & ? & ?)]; congruence.
    + split_and!; [done|done|by left|..]; intros x; split;
        try discriminate;
        try (intros [= <-]; by left);
        intros [[? ?]|(d & ? & ?)]; congruence.
Qed.

Lemma NewConfig_fs
    (yaml_Unmarshal : list byte → config.Config → result config.Config) path s :
  fs (snd (config.NewConfig yaml_Unmarshal path s)) = fs s.
Proof.
  unfold config.NewConfig. mrun.
  destruct (os.readFile (fs s) (cwd s) path) as [data|e]; cbn.
  - by destruct (yaml_Unmarshal data _).
  - by destruct (os.IsNotExist e).
Qed.

Lemma NewConfig_trace
    (yaml_Unmarshal : list byte → config.Config → result config.Config) path s :
  trace (snd (config.NewConfig yaml_Unmarshal path s))
  = trace s ++ [SysReadFile path].
Proof.
  unfold config.NewConfig. mrun.
  destruct (os.readFile (fs s) (cwd s) path) as [data|e]; cbn.
  - by destruct (yaml_Unmarshal data _).
  - by destruct (os.IsNotExist e).
Qed.

Lemma openAppend_extends t cwd path f t' k :
  os.openAppend t cwd path = Ok (f, t') →
  t' !! k = t !! k
  ∨ (hostWalk t cwd path = Ok k ∧ t !! k = None ∧ t' !! k = Some (FileE [])).
Proof.
  unfold os.openAppend. destruct (hostWalk t cwd path) as [p|e]; [|done].
  destruct (t !! p) as [[d|wr]|] eqn:Hp; [|done|].
  { intros [= _ <-]. by left. }
  destruct (t !! removelast p) as [[d|[|]]|]; try done.
  intros [= _ <-]. destruct (decide (k = p)) as [->|Hne].
  - right. by rewrite lookup_insert_eq.
  - left. by rewrite lookup_insert_ne.
Qed.

(** X26. At start-up the program opens its log file before it reads the
    configuration, and it reads nothing when the log file cannot be opened:
    it stops there.  Its system calls leave every path other than the log
    file as it was; the log file, made when it was missing, is a regular
    file once it has been opened (its content, to which the logger appends,
    is not followed).  When the program gets to listen, the server is the
    one [NewServer] builds from a configuration, and its address is the
    last thing logged. *)
Theorem startup_opens_the_log_first
    (yaml_Unmarshal : list byte → config.Config → result config.Config) s :
  let res := fst (main yaml_Unmarshal s) in
  let s' := snd (main yaml_Unmarshal s) in
  (∀ e, os.openAppend (fs s) (cwd s) "server.log" = Err e →
        res = Fatal {| format := "failed to open log file: %v\n";
                       args := [LErr e] |}
        ∧ s' = addEvent (SysOpenFile "server.log") s)
  ∧ (∀ f t, os.openAppend (fs s) (cwd s) "server.log" = Ok (f, t) →
            trace s' = trace s ++ [SysOpenFile "server.log";
                                   SysReadFile "fileserver.yaml"]
            ∧ hostWalk (fs s) (cwd s) "server.log" = Ok (os.node f)
            ∧ ∃ data, fs s' !! os.node f = Some (FileE data))
  ∧ (∀ k, hostWalk (fs s) (cwd s) "server.log" ≠ Ok k → fs s' !! k = fs s !! k)
  ∧ (∀ srv, res = Listening srv →
            ∃ cfg, srv = server.NewServer cfg
                   ∧ last (logged s')
                     = Some {| format := "starting server on %s\n";
                               args := [LStr (config.Addr (config.Server cfg))] |}).
Proof.
  intros res s'. subst res s'. unfold main.
  unfold os.OpenFile. unfold mbind, M_bind at 1 2 3 4 5.
  cbn -[config.NewConfig].
  mrun.
  destruct (os.openAppend (fs s) (cwd s) "server.log") as [[f t']|e] eqn:Hopen.
  2:{ cbn. split_and!; [by intros e' [= <-]|done|done|done]. }
  cbn.
  assert (Hlog : hostWalk (fs s) (cwd s) "server.log" = Ok (os.node f)
                 ∧ ∃ data, t' !! os.node f = Some (FileE data)).
  { revert Hopen. unfold os.openAppend.
    destruct (hostWalk (fs s) (cwd s) "server.log") as [p|e]; [|done].
    destruct (fs s !! p) as [[d|wr]|] eqn:Hp; [|done|].
    { intros [= <- <-]. split; [done|]. by exists d. }
    destruct (fs s !! removelast p) as [[d|[|]]|]; try done.
    intros [= <- <-]. split; [done|]. exists []. apply lookup_insert_eq. }
  assert (Hframe : ∀ k, hostWalk (fs s) (cwd s) "server.log" ≠ Ok k →
                        t' !! k = fs s !! k).
  { intros k Hk.
    by destruct (openAppend_extends _ _ _ _ _ k Hopen) as [?|[? _]]. }
  match goal with
  | |- context [config.NewConfig yaml_Unmarshal "fileserver.yaml" ?s0] =>
      pose proof (NewConfig_fs yaml_Unmarshal "fileserver.yaml" s0) as Hfs;
      pose proof (NewConfig_trace yaml_Unmarshal "fileserver.yaml" s0) as Htr;
      destruct (config.NewConfig yaml_Unmarshal "fileserver.yaml" s0)
        as [[cfg|e] s1] eqn:Hcfg
  end; cbn in Hfs, Htr |- *.
  - split_and!; [done| |by rewrite Hfs|].
    + intros f0 t0 [= <- <-]. rewrite Hfs, Htr, <- app_assoc. by destruct Hlog.
    + intros srv [= <-]. exists cfg. split; [done|]. by rewrite last_snoc.
  - split_and!; [done| |by rewrite Hfs|done].
    intros f0 t0 [= <- <-]. rewrite Hfs, Htr, <- app_assoc. by destruct Hlog.
Qed.

(** ** The log *)





(** ** The storage directory cannot be made *)



(** ** A form without files *)





(** ** Upload, then download, with any number of files *)

(** X23. After an upload through the server that was answered 200, whatever
    the number of its file parts, each of them can be fetched under its
    file name (list.txt apart, which the list route takes): the download
    is answered 200 with the content of the part that was processed last
    under that name, and with its length. *)
Theorem uploaded_files_can_be_downloaded cfg r s parts p r2 :
  Path r = "/upload" →
  carried (Body r) = FormData parts →
  rangeOrderOK (mapOrder s) (multipart.File (multipart.readForm parts)) →
  let name := multipart.Part_FileName p in
  let s1 := serveHTTP (server.NewServer cfg) r s in
  status (w s1) = Some 200%Z →
  p ∈ fileParts parts →
  name ≠ "list.txt" →
  Method r2 = "GET" →
  Path r2 = "/download/" +:+ name →
  let s2 := serveHTTP (server.NewServer cfg) r2 s1 in
  ∃ p',
    p' ∈ fileParts parts
    ∧ multipart.Part_FileName p' = name
    ∧ last (List.filter (λ fh, bool_decide (Filename fh = name))
              (opened (trace s1)))
      = Some (multipart.header p')
    ∧ w s2 = downloadResponse name (Z.of_nat (List.length (Data p'))) (Data p').
Proof.
  intros Hpath Hb Hok name s1 Hst Hin Hlist Hm2 Hp2 s2.
  set (h := handlers.NewHandlers cfg).
  assert (Hs1 : s1 = serve (handlers.UploadHandler h) r s).
  { subst s1. unfold serveHTTP, serve, http.ServeHTTP.
    by rewrite (route_upload cfg r Hpath). }
  rewrite Hs1 in Hst.
  destruct (UploadHandler_stores h r s parts p Hb Hok Hst Hin)
    as (_ & _ & _ & Hname & root & p' & Hr & Hp' & Hlast & Hlook).
  rewrite <- Hs1 in Hr, Hlast, Hlook. fold name in Hname, Hlast, Hlook.
  assert (Hcwd : cwd s1 = cwd s) by (rewrite Hs1; apply UploadHandler_cwd).
  rewrite <- Hcwd in Hr.
  assert (Hp'name : multipart.Part_FileName p' = name).
  { apply last_Some_elem_of, list_elem_of_In, List.filter_In in Hlast as [_ Hn].
    by apply bool_decide_eq_true_1 in Hn. }
  exists p'. split_and!; try done.
  assert (Hs2 : s2 = serve (handlers.DownloadHandle h) r2 s1).
  { subst s2. unfold serveHTTP, serve, http.ServeHTTP.
    by rewrite (route_download cfg r2 name Hm2 Hp2 Hname Hlist). }
  assert (Htrim : strings.TrimPrefix (Path r2) "/download/" = name).
  { by rewrite Hp2. }
  rewrite Hs2.
  rewrite (DownloadHandle_file h r2 s1 root (os.dir root ++ [name]) (Data p'));
    cbn [w].
  - by rewrite Htrim.
  - done.
  - rewrite Htrim. by destruct Hname.
  - done.
  - rewrite Htrim. apply rootWalk_name; [done|]. by apply openRoot_Ok in Hr as [_ ?].
  - done.
Qed.

Lemma uploaded_files_can_be_downloaded_witness :
  let parts := [filePart "file" "a.txt" "first"; filePart "more" "b.txt" "other";
                filePart "file" "docs/a.txt" "second"] in
  let s1 := serveHTTP theServer (POST "/upload" parts)
              (hostState emptyHostFs ["more"; "file"]) in
  let s2 := serveHTTP theServer (GET "/download/a.txt") s1 in
  ∃ p',
    p' ∈ fileParts parts
    ∧ multipart.Part_FileName p' = "a.txt"
    ∧ last (List.filter (λ fh, bool_decide (Filename fh = "a.txt"))
              (opened (trace s1)))
      = Some (multipart.header p')
    ∧ w s2 = downloadResponse "a.txt" (Z.of_nat (List.length (Data p'))) (Data p').
Proof.
  apply (uploaded_files_can_be_downloaded defaultConfig
           (POST "/upload" [filePart "file" "a.txt" "first";
                            filePart "more" "b.txt" "other";
                            filePart "file" "docs/a.txt" "second"])
           (hostState emptyHostFs ["more"; "file"])
           [filePart "file" "a.txt" "first"; filePart "more" "b.txt" "other";
            filePart "file" "docs/a.txt" "second"]
           (filePart "file" "a.txt" "first") (GET "/download/a.txt")).
  - reflexivity.
  - reflexivity.
  - unfold rangeOrderOK. refine (bool_decide_unpack _ _). by vm_compute.
  - by vm_compute.
  - apply elem_of_fileParts. split; [left|reflexivity].
  - discriminate.
  - reflexivity.
  - reflexivity.
Defined.

(** ** Partial success *)

Lemma msgCreate_name fh fh' :
  Filename fh = Filename fh' → msgCreate fh = msgCreate fh'.
Proof. unfold msgCreate. by intros ->. Qed.

(** The rounds store the parts of a name when none of them is faulty and
    no creation under that name is among the messages, whatever happens to
    the parts of other names. *)
Lemma rounds_stored_name h root l errs s errs' s' name :
  rounds h root l errs s errs' s' →
  os.openRoot (fs s) (cwd s) (config.StorageDir (handlers.uploader h)) = Ok root →
  Forall (λ x, baseName (Filename x.2)) l →
  (∀ x, x ∈ l → Filename x.2 = name →
        openErr x.2 = false ∧ copyFault x.2 = None) →
  (∀ new x, errs' = errs ++ new → x ∈ l → Filename x.2 = name →
            msgCreate x.2 ∉ new) →
  ∀ x, x ∈ l → Filename x.2 = name →
    ∃ fh', last (List.filter (λ y, bool_decide (Filename y = name)) l.*2)
           = Some fh'
           ∧ fs s' !! (os.dir root ++ [name]) = Some (FileE (content fh')).
Proof.
  induction 1 as [errs s|fieldName fh l errs s errs1 s1 errs' s' Hrun Hrest IH];
    intros Hr Hb Hsound Hmsg x Hx Hxn.
  { by inversion Hx. }
  apply Forall_cons in Hb as [Hb1 Hb].
  destruct (uploadFile_summary _ _ _ _ _ _ _ _ Hr Hb1 Hrun)
    as ((Hcwd & _ & _) & Hsame & _ & _ & _ & _ & _ & Hout).
  assert (Hr1 : os.openRoot (fs s1) (cwd s1)
                  (config.StorageDir (handlers.uploader h)) = Ok root).
  { rewrite Hcwd. by apply (openRoot_sameDirs (fs s)). }
  destruct (rounds_errors _ _ _ _ _ _ _ Hrest Hr1 Hb) as (new' & Hnew' & _).
  destruct (rounds_frame _ _ _ _ _ _ _ Hrest Hr1 Hb) as (_ & _ & _ & _ & Hframe).
  cbn in Hout.
  assert (Hnew1 : ∃ new1, errs1 = errs ++ new1).
  { destruct Hout as [(-> & _)|[(-> & _)|[(-> & _)|(-> & _)]]];
      [exists []; by rewrite app_nil_r|by eexists..]. }
  destruct Hnew1 as [new1 Hnew1].
  assert (IH' : ∀ y, y ∈ l → Filename y.2 = name →
                ∃ fh', last (List.filter (λ z, bool_decide (Filename z = name)) l.*2)
                       = Some fh'
                       ∧ fs s' !! (os.dir root ++ [name])
                         = Some (FileE (content fh'))).
  { apply IH; [done|done| |].
    - intros y Hy. apply Hsound. by right.
    - intros new y Hn Hy Hyn Hin.
      apply (Hmsg (new1 ++ new) y); [|by right|done|].
      + by rewrite Hn, Hnew1, app_assoc.
      + apply elem_of_app. by right. }
  destruct (decide (Exists (λ y, Filename y.2 = name) l)) as [Hex|Hex].
  - apply Exists_exists in Hex as (y & Hy & Hyn).
    destruct (IH' y Hy Hyn) as (fh' & Hlast & Hlook).
    exists fh'. split; [|done]. cbn.
    destruct (bool_decide (Filename fh = name)); [|done].
    destruct (List.filter _ l.*2) as [|z zs] eqn:Hf; [done|].
    by rewrite last_cons, Hlast.
  - assert (Hnone : ∀ y, y ∈ l → Filename y.2 ≠ name).
    { intros y Hy Hyn. apply Hex, Exists_exists. by exists y. }
    apply elem_of_cons in Hx as [->|Hx]; [|by destruct (Hnone x Hx)].
    cbn in Hxn. subst name.
    destruct (Hsound (fieldName, fh)) as [Ho Hf]; [by left|done|]. cbn in Ho, Hf.
    assert (Hst : fs s1 !! (os.dir root ++ [Filename fh])
                  = Some (FileE (content fh))).
    { destruct Hout as [(_ & _ & _ & _ & Hst)
                       |[(_ & Ho' & _)|[(-> & _)|(_ & _ & _ & k & Hk & _)]]];
        [done|congruence| |congruence].
      exfalso. apply (Hmsg ([msgCreate fh] ++ new') (fieldName, fh)).
      - by rewrite Hnew', app_assoc.
      - by left.
      - done.
      - cbn. by left. }
    exists fh. cbn. rewrite bool_decide_eq_true_2 by done.
    rewrite (filter_name_nil _ _ Hnone). split; [done|].
    rewrite Hframe; [done|].
    intros y Hy [=]%(inj (app (os.dir root))). by apply (Hnone y Hy).
Qed.

(** X27. The failure of one part does not harm the files of other names:
    in an upload answered 207, when none of the parts that bear a given
    file name is faulty, either the creation of a file of that name is
    among the failures reported, or the entry of that name in the storage
    directory holds the content of the part processed last under it. *)
Theorem failures_spare_the_other_files h r s parts p :
  carried (Body r) = FormData parts →
  rangeOrderOK (mapOrder s) (multipart.File (multipart.readForm parts)) →
  let s' := serve (handlers.UploadHandler h) r s in
  status (w s') = Some 207%Z →
  p ∈ fileParts parts →
  (∀ q, q ∈ fileParts parts →
        multipart.Part_FileName q = multipart.Part_FileName p →
        spoolLost q = false ∧ breaksAt q = None) →
  ∃ errs doc root,
    json.MarshalIndent errs = Ok doc
    ∧ w s' = errorResponse doc 207
    ∧ os.openRoot (fs s') (cwd s) (config.StorageDir (handlers.uploader h))
      = Ok root
    ∧ (msgCreate (multipart.header p) ∈ errs
       ∨ ∃ p',
           p' ∈ fileParts parts
           ∧ last (List.filter
                     (λ fh, bool_decide (Filename fh = multipart.Part_FileName p))
                     (opened (trace s')))
             = Some (multipart.header p')
           ∧ fs s' !! (os.dir root ++ [multipart.Part_FileName p])
             = Some (FileE (Data p'))).
Proof.
  intros Hb Hok s' Hst Hp Hsound.
  destruct (UploadHandler_rounds h r s parts Hb (or_intror Hst))
    as (t1 & root & errs & s1 & Hmk & Hr & Hrounds & Hw & Hfs & Htr).
  fold s' in Hw, Hfs, Htr.
  set (l := tagged (rangeMap (mapOrder s)
                      (multipart.File (multipart.readForm parts)))) in *.
  assert (Hbase : Forall (λ x, baseName (Filename x.2)) l)
    by apply tagged_baseName.
  destruct (MarshalIndent_Ok errs) as [doc Hdoc].
  destruct (rounds_frame _ _ _ _ _ _ _ Hrounds Hr Hbase)
    as ((Hcwd & _) & Hr1 & _).
  destruct (rounds_handles _ _ _ _ _ _ _ Hrounds Hr Hbase) as (Hopened & _).
  cbn in Hcwd, Hr1, Hopened.
  exists errs, doc, root. split_and!; try done.
  { rewrite Hw. unfold uploadResponse. rewrite Hdoc. destruct errs; [|done].
    by rewrite Hw in Hst. }
  { by rewrite Hfs, <- Hcwd. }
  destruct (decide (msgCreate (multipart.header p) ∈ errs)) as [Hin|Hnin];
    [by left|right].
  pose proof (parts_tagged _ _ _ Hok Hp) as Hx. fold l in Hx.
  destruct (rounds_stored_name _ _ _ _ _ _ _ (multipart.Part_FileName p)
              Hrounds Hr Hbase) with (x := (FormName p, multipart.header p))
    as (fh' & Hlast & Hlook); try done.
  - intros [fieldName fh] (q & Hq & _ & ->)%tagged_parts Hn. cbn in *.
    by apply Hsound.
  - intros new [fieldName fh] Hnew Hy Hn Hin. cbn in Hnew, Hn, Hin. subst new.
    apply Hnin. by rewrite <- (msgCreate_name fh (multipart.header p)).
  - assert (Hfh' : fh' ∈ l.*2).
    { apply last_Some_elem_of in Hlast.
      by apply list_elem_of_In, List.filter_In in Hlast as [?%list_elem_of_In _]. }
    apply list_elem_of_fmap in Hfh' as ([fieldName fh''] & -> & Hx').
    apply tagged_parts in Hx' as (p' & Hp' & _ & ->). cbn in Hlast, Hlook.
    exists p'. rewrite Hfs, Htr, opened_app. cbn. rewrite app_nil_r, Hopened.
    by split_and!.
Qed.

Lemma failures_spare_the_other_files_witness :
  let parts := [filePart "a" "a.txt" "hello"; lostPart "b" "b.txt" "world"] in
  let s' := serve (handlers.UploadHandler theHandlers) (POST "/upload" parts)
              (hostState emptyHostFs ["b"; "a"]) in
  ∃ errs doc root,
    json.MarshalIndent errs = Ok doc
    ∧ w s' = errorResponse doc 207
    ∧ os.openRoot (fs s') ["srv"] "storage" = Ok root
    ∧ (msgCreate (multipart.header (filePart "a" "a.txt" "hello")) ∈ errs
       ∨ ∃ p',
           p' ∈ fileParts parts
           ∧ last (List.filter (λ fh, bool_decide (Filename fh = "a.txt"))
                     (opened (trace s')))
             = Some (multipart.header p')
           ∧ fs s' !! (os.dir root ++ ["a.txt"]) = Some (FileE (Data p'))).
Proof.
  apply (failures_spare_the_other_files theHandlers
           (POST "/upload" [filePart "a" "a.txt" "hello";
                            lostPart "b" "b.txt" "world"])
           (hostState emptyHostFs ["b"; "a"])
           [filePart "a" "a.txt" "hello"; lostPart "b" "b.txt" "world"]
           (filePart "a" "a.txt" "hello")).
  - reflexivity.
  - unfold rangeOrderOK. refine (bool_decide_unpack _ _). by vm_compute.
  - by vm_compute.
  - apply elem_of_fileParts. split; [left|reflexivity].
  - intros q [Hq _]%elem_of_fileParts Hn.
    apply elem_of_cons in Hq as [->|Hq]; [done|].
    apply list_elem_of_singleton in Hq as ->. by vm_compute in Hn.
Defined.

(** ** Examples *)

Example Base_examples :
  filepath.Base "a.txt" = "a.txt" ∧ filepath.Base "sub/a.txt" = "a.txt"
  ∧ filepath.Base "../../etc/passwd" = "passwd" ∧ filepath.Base "sub/" = "sub"
  ∧ filepath.Base "" = "." ∧ filepath.Base "///" = "/" ∧ filepath.Base ".." = "..".
Proof. repeat split; reflexivity. Qed.

Example Clean_examples :
  filepath.Clean "/download/../../etc/passwd" = "/etc/passwd"
  ∧ filepath.Clean "a//b/./c/.." = "a/b" ∧ filepath.Clean "../x/.." = ".."
  ∧ filepath.Clean "/.." = "/" ∧ filepath.Clean "x/.." = "."
  ∧ filepath.Join ["storage"; "a.txt"] = "storage/a.txt"
  ∧ filepath.Join [""; "a.txt"] = "a.txt".
Proof. repeat split; reflexivity. Qed.

Example MarshalIndent_example :
  json.MarshalIndent ["error creating file 'a<b'"; "x"]
  = Ok ("[" +:+ LF +:+ TAB +:+ QUOTE +:+ "error creating file 'a\u003cb'" +:+ QUOTE
          +:+ "," +:+ LF +:+ TAB +:+ QUOTE +:+ "x" +:+ QUOTE +:+ LF +:+ "]").
Proof. reflexivity. Qed.

Example limits_example :
  config.GetMaxUploadSize (config.Uploader defaultConfig) = (3072 * 1048576)%Z
  ∧ config.GetMaxFormMemSize (config.Uploader defaultConfig) = (32 * 1048576)%Z.
Proof. split; reflexivity. Qed.

(** One file "a.txt" with content "hello" is uploaded, downloaded and
    listed. *)
Example upload_download_list :
  let s1 := serveHTTP theServer (POST "/upload" [filePart "file" "a.txt" "hello"])
              (hostState emptyHostFs ["file"]) in
  let s2 := serveHTTP theServer (GET "/download/a.txt") s1 in
  let s3 := serveHTTP theServer (GET "/download/list.txt") s2 in
  status (w s1) = Some 200%Z
  ∧ body (w s1) = bytes ("All files uploaded successfully" +:+ LF)
  ∧ status (w s2) = Some 200%Z
  ∧ body (w s2) = bytes "hello"
  ∧ header (w s2) !! "Content-Length" = Some "5"
  ∧ status (w s3) = Some 200%Z
  ∧ body (w s3) = bytes ("Files currently available:" +:+ LF +:+ "a.txt" +:+ LF).
Proof. vm_compute. repeat split. Qed.

(** Three parts, of which the one of the second field breaks while it is
    copied: the answer is 207 with the one message, the partial file is
    gone and the two other files are stored. *)
Example upload_with_a_broken_part :
  let broken := {| FormName := "g"; FileName := "b.txt"; Data := bytes "world";
                   spoolLost := false; breaksAt := Some 2 |} in
  let s1 := serveHTTP theServer
              (POST "/upload" [filePart "f" "a.txt" "hello"; broken;
                               filePart "f" "c.txt" "sea"])
              (hostState emptyHostFs ["g"; "f"]) in
  status (w s1) = Some 207%Z
  ∧ body (w s1)
    = bytes ("[" +:+ LF +:+ TAB +:+ QUOTE +:+ "error writing file 'b.txt'" +:+ QUOTE
               +:+ LF +:+ "]" +:+ LF)
  ∧ fs s1 !! ["srv"; "storage"; "b.txt"] = None
  ∧ fs s1 !! ["srv"; "storage"; "a.txt"] = Some (FileE (bytes "hello"))
  ∧ fs s1 !! ["srv"; "storage"; "c.txt"] = Some (FileE (bytes "sea")).
Proof. vm_compute. repeat split. Qed.

(** In a storage directory that cannot be written, an existing file can
    still be truncated by [root.Create], and the partial file of a broken
    copy cannot be removed: the failure is logged and the loop goes on. *)
Example partial_file_left_behind :
  let t := <[["srv"; "storage"; "big.bin"] := FileE (bytes "old")]>
             (<[["srv"; "storage"] := DirE false]> emptyHostFs) in
  let '(errs, s') := handlers.uploadFile theHandlers storageRoot "file" brokenHeader []
                       (hostState t []) in
  errs = ["error writing file 'big.bin'"]
  ∧ fs s' !! ["srv"; "storage"; "big.bin"] = Some (FileE (bytes "01"))
  ∧ last (logged s')
    = Some {| format := "failed to remove partial file '%s': %v";
              args := [LStr "big.bin"; LErr EACCES] |}.
Proof. vm_compute. repeat split. Qed.
